(** * Four.meme bot: wallet loading, chain client, token workflow, batch driver

    A shallow embedding of [batch_runner.py], [core/blockchain_utils.py],
    [core/four_meme_bot.py] and [core/utils.py].

    Python values are embedded as follows.
    - [float] is [pyfloat]: a rational, an infinity or NaN.  Comparisons are
      exact, as IEEE comparisons are; every arithmetic result goes through
      the rounding function [fl_round] of the world, so nothing below
      depends on how a double rounds.
    - [str] and [bytes] are [string], a sequence of bytes: [strip] removes
      the ASCII white space only; [int] is [Z].
    - a [dict] whose keys vary at run time is an association list in
      insertion order ([dict]); the fixed-shape result of [process_wallet]
      and the wallet record built by the loader are records.
    - every call that leaves the process (JSON-RPC, HTTP, the clock, the
      random generator, library decoders) is answered by a [World], given
      the history of what the program did so far.  A computation is a
      function from the history to a result or an exception, and the list of
      events it emitted, most recent first ([M]).
    - a raised exception is [inl e]; [except Exception] is [try_catch].
      [KeyboardInterrupt] is not an [Exception] and is outside the model.
    - logging is kept only where a statement is about it (the loader);
      a file is the list of its lines, so an error while reading one is
      outside the model. *)

From Stdlib Require Import ZArith QArith Qround List String Ascii Bool Lia DecimalString Sorted.
Import ListNotations.
Local Open Scope string_scope.
Local Open Scope list_scope.
Local Open Scope Z_scope.

Infix "+++" := String.append (at level 60, right associativity).

(** ** Floats *)

Inductive pyfloat : Type :=
| Fin (q : Q)
| PInf
| NInf
| NaN.

Definition qlt (x y : Q) : bool := negb (Qle_bool y x).

(** [a < b] on floats: false as soon as one side is NaN. *)
Definition flt (a b : pyfloat) : bool :=
  match a, b with
  | NaN, _ => false
  | _, NaN => false
  | Fin x, Fin y => qlt x y
  | Fin _, PInf => true
  | Fin _, NInf => false
  | PInf, _ => false
  | NInf, NInf => false
  | NInf, _ => true
  end.

(** [a <= b] on floats. *)
Definition fle (a b : pyfloat) : bool :=
  match a, b with
  | NaN, _ => false
  | _, NaN => false
  | Fin x, Fin y => Qle_bool x y
  | _, PInf => true
  | NInf, _ => true
  | _, _ => false
  end.

Definition fgt (a b : pyfloat) : bool := flt b a.

Definition fsign (a : pyfloat) : comparison :=
  match a with
  | Fin q => Qcompare q 0
  | PInf => Gt
  | NInf => Lt
  | NaN => Eq
  end.

Definition fis_zero (a : pyfloat) : bool :=
  match a with Fin q => Qeq_bool q 0 | _ => false end.

Section FloatArith.
Variable rnd : Q -> pyfloat.

Definition fmul (a b : pyfloat) : pyfloat :=
  match a, b with
  | NaN, _ => NaN
  | _, NaN => NaN
  | Fin x, Fin y => rnd (x * y)%Q
  | _, _ =>
      match fsign a, fsign b with
      | Eq, _ => NaN
      | _, Eq => NaN
      | Lt, Lt => PInf
      | Gt, Gt => PInf
      | _, _ => NInf
      end
  end.

(** Quotient by a divisor already known not to be zero. *)
Definition fdiv (a b : pyfloat) : pyfloat :=
  match a, b with
  | NaN, _ => NaN
  | _, NaN => NaN
  | Fin x, Fin y => rnd (x / y)%Q
  | Fin _, _ => Fin 0
  | _, Fin _ =>
      match fsign a, fsign b with
      | Lt, Lt => PInf
      | Gt, Gt => PInf
      | _, _ => NInf
      end
  | _, _ => NaN
  end.
End FloatArith.

(** ** Strings: the [str] methods the loader uses *)

(** [str.isspace] on the ASCII range: TAB..CR, FS..US and the space. *)
Definition isspace (c : ascii) : bool :=
  let n := N_of_ascii c in
  ((9 <=? n) && (n <=? 13) || (28 <=? n) && (n <=? 32))%N.

Fixpoint lstrip (s : string) : string :=
  match s with
  | String c r => if isspace c then lstrip r else s
  | EmptyString => EmptyString
  end.

Fixpoint rstrip (s : string) : string :=
  match s with
  | EmptyString => EmptyString
  | String c r =>
      match rstrip r with
      | EmptyString => if isspace c then EmptyString else String c EmptyString
      | r' => String c r'
      end
  end.

Definition strip (s : string) : string := rstrip (lstrip s).

Definition startswith (p s : string) : bool := String.prefix p s.

(** [s.split(sep)] for a one-character separator: never empty. *)
Fixpoint split (sep : ascii) (s : string) : list string :=
  match s with
  | EmptyString => [EmptyString]
  | String c r =>
      if Ascii.eqb c sep then EmptyString :: split sep r
      else
        match split sep r with
        | p :: ps => String c p :: ps
        | [] => [String c EmptyString]
        end
  end.

Definition lower_ascii (c : ascii) : ascii :=
  let n := N_of_ascii c in
  if ((65 <=? n) && (n <=? 90))%N then ascii_of_N (n + 32) else c.

Fixpoint lower (s : string) : string :=
  match s with
  | EmptyString => EmptyString
  | String c r => String (lower_ascii c) (lower r)
  end.

(** [s.replace('0x', '')]: every occurrence, left to right. *)
Fixpoint remove_0x (s : string) : string :=
  match s with
  | String "0" (String "x" r) => remove_0x r
  | String c r => String c (remove_0x r)
  | EmptyString => EmptyString
  end.

(** ** Receipts, dynamic values and dictionaries *)

Record log_entry : Type := {
  log_event : string;   (* name of the event the log decodes to *)
  log_token : string    (* its [token] argument *)
}.

Record receipt : Type := {
  rc_status : Z;
  rc_blockNumber : Z;
  rc_gasUsed : Z;
  rc_logs : list log_entry
}.

#[warnings="-register-all"]
Inductive pyval : Type :=
| VNone
| VBool (b : bool)
| VInt (z : Z)
| VFloat (f : pyfloat)
| VStr (s : string)
| VList (l : list pyval)
| VDict (d : list (string * pyval))
| VReceipt (r : receipt).

Definition dict : Type := list (string * pyval).

Fixpoint dlookup (k : string) (d : dict) : option pyval :=
  match d with
  | [] => None
  | (k', v) :: r => if String.eqb k k' then Some v else dlookup k r
  end.

(** [k in d] *)
Definition dhas (k : string) (d : dict) : bool :=
  match dlookup k d with Some _ => true | None => false end.

(** [d.get(k)] *)
Definition dget (k : string) (d : dict) : pyval :=
  match dlookup k d with Some v => v | None => VNone end.

(** [d.get(k, default)] *)
Definition dget_default (k : string) (dflt : pyval) (d : dict) : pyval :=
  match dlookup k d with Some v => v | None => dflt end.

(** [d[k] = v]: overwrite in place, or append a new key. *)
Fixpoint dset (k : string) (v : pyval) (d : dict) : dict :=
  match d with
  | [] => [(k, v)]
  | (k', v') :: r =>
      if String.eqb k k' then (k, v) :: r else (k', v') :: dset k v r
  end.

(** Truth value of an object, as [if x] and [not x] take it. *)
Definition truthy (v : pyval) : bool :=
  match v with
  | VNone => false
  | VBool b => b
  | VInt z => negb (z =? 0)
  | VFloat f => negb (fis_zero f)
  | VStr s => negb (String.eqb s "")
  | VList l => match l with [] => false | _ => true end
  | VDict d => match d with [] => false | _ => true end
  | VReceipt _ => true
  end.

(** ** Exceptions *)

Inductive exn_class : Type :=
| Exception_
| TypeError
| ValueError
| KeyError
| IndexError
| ZeroDivisionError
| OverflowError
| AttributeError
| FileNotFoundError
| RequestException.

Record exn : Type := {
  exn_cls : exn_class;
  exn_str : string     (* [str(e)] *)
}.

Definition Exception (msg : string) : exn := {| exn_cls := Exception_; exn_str := msg |}.

(** ** Transactions and events *)

Inductive call : Type :=
| CreateToken (args signature : string)
| BuyTokenAMAP (token : string) (funds minAmount : Z)
| SellToken (token : string) (amount : Z)
| Approve (token spender : string) (amount : Z).

Record tx : Type := {
  tx_call : call;
  tx_from : string;
  tx_gas : Z;
  tx_gasPrice : Z;
  tx_nonce : Z;
  tx_value : Z
}.

Inductive rpc_call : Type :=
| IsConnected
| BlockNumber
| GetBalance (addr : string)
| GasPrice
| EstimateGas (c : call) (from : string) (value : Z)
| TransactionCount (addr : string) (pending : bool)
| Decimals (token : string)
| BalanceOf (token owner : string)
| TokenInfos (token : string)
| StatusTrading
| StatusCompleted
| StatusHalt
| StatusAddingLiquidity.

Inductive event : Type :=
| EvRpc (c : rpc_call)            (* a read-only query of the node *)
| EvBuild (t : tx)                (* [build_transaction] *)
| EvSign (t : tx)                 (* [sign_transaction] *)
| EvSend (t : tx)                 (* [send_raw_transaction] *)
| EvWait (h : string)             (* [wait_for_transaction_receipt] *)
| EvHttp (method url : string) (body : pyval)
| EvOpen (path : string)
| EvSleep (secs : Z)
| EvRandom
| EvClock.

Definition history : Type := list event.

Record response : Type := {
  resp_status : Z;                (* HTTP status code *)
  resp_json : option pyval        (* [None]: the body is not JSON *)
}.

(** ** The world outside the process *)

Record World : Type := {
  (* Python and library functions without side effects *)
  fl_round : Q -> pyfloat;
  float_of_string : string -> option pyfloat;   (* [float(s)], [None] is ValueError *)
  py_repr : pyval -> string;                    (* [str] of numbers and containers *)
  bytes_fromhex : string -> exn + string;
  to_wei_ether : pyfloat -> exn + Z;            (* [Web3.to_wei(x, 'ether')] *)
  from_wei_ether : Z -> exn + pyfloat;          (* [float(Web3.from_wei(n, 'ether'))] *)
  to_checksum_address : string -> exn + string;
  address_from_key : string -> exn + string;    (* [Account.from_key(k).address] *)
  sign_text : string -> string -> exn + string; (* key, message, signature hex *)
  decode_fails : receipt -> option exn;         (* the event decoder gives up *)
  (* the node *)
  w_connected : history -> exn + bool;
  w_rpc_int : rpc_call -> history -> exn + Z;
  w_decimals : string -> history -> exn + N;
  w_token_infos : string -> history -> exn + list pyval;
  w_build : tx -> history -> option exn;
  w_sign : tx -> history -> exn + string;
  w_send : tx -> history -> exn + string;
  w_wait : string -> history -> exn + receipt;
  (* the HTTP service, the file system, the clock, the random generator *)
  w_http : string -> string -> pyval -> history -> exn + response;
  w_open : string -> history -> option exn;
  w_time_ms : history -> Z;
  w_random : history -> nat
}.

(** ** Computations *)

Definition M (A : Type) : Type := history -> (exn + A) * list event.

Definition ret {A} (a : A) : M A := fun _ => (inr a, []).

Definition raise {A} (e : exn) : M A := fun _ => (inl e, []).

Definition bind {A B} (m : M A) (f : A -> M B) : M B :=
  fun h =>
    match m h with
    | (inl e, d1) => (inl e, d1)
    | (inr a, d1) =>
        match f a (d1 ++ h) with
        | (r, d2) => (r, d2 ++ d1)
        end
    end.

(** [try: m  except Exception as e: handler e] *)
Definition try_catch {A} (m : M A) (handler : exn -> M A) : M A :=
  fun h =>
    match m h with
    | (inr a, d1) => (inr a, d1)
    | (inl e, d1) =>
        match handler e (d1 ++ h) with
        | (r, d2) => (r, d2 ++ d1)
        end
    end.

(** Emit an event and take the world's answer to it. *)
Definition ask {A} (ev : event) (answer : history -> exn + A) : M A :=
  fun h => (answer h, [ev]).

Definition lift {A} (r : exn + A) : M A := fun _ => (r, []).

Notation "x <- m ;; k" := (bind m (fun x => k))
  (at level 61, m at next level, right associativity).
Notation "m ;;; k" := (bind m (fun _ => k))
  (at level 61, right associativity).

Fixpoint sent_newest_first (d : list event) : list tx :=
  match d with
  | [] => []
  | EvSend t :: r => t :: sent_newest_first r
  | _ :: r => sent_newest_first r
  end.

(** The transactions handed to [send_raw_transaction], in the order sent,
    whether the node took them or not. *)
Definition sends (d : list event) : list tx := rev (sent_newest_first d).

Definition is_buy (t : tx) : bool :=
  match tx_call t with BuyTokenAMAP _ _ _ => true | _ => false end.

Definition is_create (t : tx) : bool :=
  match tx_call t with CreateToken _ _ => true | _ => false end.

Definition is_approve (t : tx) : bool :=
  match tx_call t with Approve _ _ _ => true | _ => false end.

Definition is_sell (t : tx) : bool :=
  match tx_call t with SellToken _ _ => true | _ => false end.

(** ** The chain client: [BlockchainManager] *)

Record BlockchainManager : Type := {
  bm_private_key : string;
  bm_rpc_url : string;
  bm_account : string;     (* [self.account.address] *)
  bm_contract : bool       (* [self.contract] is set *)
}.

Definition BSC_RPC_URLS : list string :=
  ["https://bsc-dataseed1.binance.org/";
   "https://bsc-dataseed2.binance.org/";
   "https://bsc-dataseed3.binance.org/";
   "https://bsc-dataseed4.binance.org/"].

Definition TOKEN_MANAGER_ADDRESS : string :=
  "0x5c952063c7fc8610FFDB798152D69F0B9550762b".

Definition abi_paths : list string :=
  ["contracts/TokenManager2.lite.abi";
   "TokenManager2.lite.abi";
   "../contracts/TokenManager2.lite.abi"].

(** [not x] for an optional integer argument: [None] and [0] are falsy. *)
Definition not_opt (o : option Z) : bool :=
  match o with None => true | Some z => z =? 0 end.

Definition opt_value (o : option Z) : Z :=
  match o with Some z => z | None => 0 end.

Section Model.
Variable W : World.

(** *** Python arithmetic and conversions *)

(** [float(n)] as done implicitly when an [int] meets a [float]. *)
Definition float_of_int (z : Z) : M pyfloat :=
  match (fl_round W) (inject_Z z) with
  | Fin q => ret (Fin q)
  | _ => raise {| exn_cls := OverflowError;
                  exn_str := "int too large to convert to float" |}
  end.

(** [int(x)]: truncation towards zero. *)
Definition py_int (f : pyfloat) : M Z :=
  match f with
  | Fin q => ret (Z.quot (Qnum q) (Zpos (Qden q)))
  | NaN => raise {| exn_cls := ValueError;
                    exn_str := "cannot convert float NaN to integer" |}
  | _ => raise {| exn_cls := OverflowError;
                  exn_str := "cannot convert float infinity to integer" |}
  end.

(** [n * c] for an [int] n and a float literal c. *)
Definition int_times_float (z : Z) (c : Q) : M pyfloat :=
  f <- float_of_int z ;;
  ret (fmul (fl_round W) f ((fl_round W) c)).

(** [x * n] for a [float] x and an [int] n. *)
Definition float_times_int (x : pyfloat) (z : Z) : M pyfloat :=
  f <- float_of_int z ;;
  ret (fmul (fl_round W) x f).

(** [x / y] on floats. *)
Definition py_truediv (x y : pyfloat) : M pyfloat :=
  if fis_zero y then
    raise {| exn_cls := ZeroDivisionError; exn_str := "float division by zero" |}
  else ret (fdiv (fl_round W) x y).

(** [a / b] on ints. *)
Definition int_truediv (a b : Z) : M pyfloat :=
  if b =? 0 then
    raise {| exn_cls := ZeroDivisionError; exn_str := "division by zero" |}
  else
    match (fl_round W) (inject_Z a / inject_Z b)%Q with
    | Fin q => ret (Fin q)
    | _ => raise {| exn_cls := OverflowError;
                    exn_str := "integer division result too large for a float" |}
    end.

(** [a + b]; only ints and [None] ever reach the two sums of gas. *)
Definition py_add (a b : pyval) : M pyval :=
  match a, b with
  | VInt x, VInt y => ret (VInt (x + y))
  | _, _ => raise {| exn_cls := TypeError;
                     exn_str := "unsupported operand type(s) for +" |}
  end.

(** [v == n] for an int n. *)
Definition py_eq_int (v : pyval) (n : Z) : bool :=
  match v with
  | VInt a => a =? n
  | VBool b => (if b then 1 else 0) =? n
  | VFloat (Fin q) => Qeq_bool q (inject_Z n)
  | _ => false
  end.

(** [str(v)], as an f-string formats it. *)
Definition pystr (v : pyval) : string :=
  match v with
  | VStr s => s
  | VNone => "None"
  | VBool true => "True"
  | VBool false => "False"
  | VInt z => NilZero.string_of_int (Z.to_int z)
  | _ => py_repr W v
  end.

(** [l[i]] *)
Definition py_index (l : list pyval) (i : nat) : M pyval :=
  match nth_error l i with
  | Some v => ret v
  | None => raise {| exn_cls := IndexError; exn_str := "tuple index out of range" |}
  end.

(** [s.replace('0x', '')] on whatever the caller passed. *)
Definition replace_0x (v : pyval) : M string :=
  match v with
  | VStr s => ret (remove_0x s)
  | _ => raise {| exn_cls := AttributeError;
                  exn_str := "object has no attribute 'replace'" |}
  end.

(** An address argument of a contract function: web3 refuses anything
    that is not a string. *)
Definition as_address (v : pyval) : M string :=
  match v with
  | VStr s => ret s
  | _ => raise {| exn_cls := TypeError; exn_str := "invalid address argument" |}
  end.

Definition checksum (v : pyval) : M string :=
  match v with
  | VStr s => lift (to_checksum_address W s)
  | _ => raise {| exn_cls := TypeError; exn_str := "unsupported address type" |}
  end.

(** *** Talking to the node *)

Definition rpc_int (c : rpc_call) : M Z := ask (EvRpc c) (w_rpc_int W c).

Definition call_decimals (token : string) : M N :=
  ask (EvRpc (Decimals token)) (w_decimals W token).

Definition build_transaction (t : tx) : M unit :=
  ask (EvBuild t) (fun h => match w_build W t h with
                            | Some e => inl e
                            | None => inr tt
                            end).

Definition sign_transaction (t : tx) : M string := ask (EvSign t) (w_sign W t).

Definition send_raw_transaction (t : tx) : M string := ask (EvSend t) (w_send W t).

(** Build, sign and send; the hash of the transaction as a hex string. *)
Definition submit (t : tx) : M string :=
  build_transaction t ;;;
  sign_transaction t ;;;
  send_raw_transaction t.

Fixpoint load_abi_from (paths : list string) : M bool :=
  match paths with
  | [] => ret false
  | p :: rest =>
      o <- ask (EvOpen p) (fun h => inr (w_open W p h)) ;;
      match o with
      | None => ret true
      | Some e =>
          match exn_cls e with
          | FileNotFoundError => load_abi_from rest
          | _ => ret false
          end
      end
  end.

(** [load_abi]: the ABI file, or the one-function fallback; never raises. *)
Definition load_abi : M bool := load_abi_from abi_paths.

Definition _initialize_connection (private_key rpc_url : string) : M BlockchainManager :=
  connected <- ask (EvRpc IsConnected) (w_connected W) ;;
  if negb connected then raise (Exception "无法连接到区块链网络")
  else
    account <- lift (address_from_key W private_key) ;;
    load_abi ;;;
    rpc_int BlockNumber ;;;
    ret {| bm_private_key := private_key; bm_rpc_url := rpc_url;
           bm_account := account; bm_contract := true |}.

(** [BlockchainManager(private_key)] *)
Definition BlockchainManager_init (private_key : string) : M BlockchainManager :=
  _initialize_connection private_key (hd "" BSC_RPC_URLS).

Definition get_balance (bm : BlockchainManager) : M pyfloat :=
  balance_wei <- rpc_int (GetBalance (bm_account bm)) ;;
  lift (from_wei_ether W balance_wei).

Definition estimate_gas (bm : BlockchainManager) (args signature : string)
    (purchase_value_wei : Z) : M Z :=
  try_catch
    (if negb (bm_contract bm) then ret 500000
     else rpc_int (EstimateGas (CreateToken args signature) (bm_account bm)
                     purchase_value_wei))
    (fun _ => ret 500000).

Definition get_gas_price : M Z := rpc_int GasPrice.

(** [gas_price] as every transaction builder settles it: the caller's,
    or the node's price plus ten percent. *)
Definition settle_gas_price (gas_price : option Z) : M Z :=
  if not_opt gas_price then
    g <- get_gas_price ;;
    f <- int_times_float g (11 # 10) ;;
    py_int f
  else ret (opt_value gas_price).

Definition wait_for_transaction (tx_hash : string) : M receipt :=
  receipt <- ask (EvWait tx_hash) (w_wait W tx_hash) ;;
  if rc_status receipt =? 1 then ret receipt
  else raise (Exception "交易执行失败").

Definition process_receipt (r : receipt) : M (list log_entry) :=
  match decode_fails W r with
  | Some e => raise e
  | None => ret (filter (fun l => String.eqb (log_event l) "TokenCreate") (rc_logs r))
  end.

Definition parse_token_address_from_receipt (r : receipt) : M pyval :=
  try_catch
    (logs <- process_receipt r ;;
     match logs with
     | l :: _ => ret (VStr (log_token l))
     | [] => ret VNone
     end)
    (fun _ => ret VNone).

Definition failure (e : exn) : M dict :=
  ret [("success", VBool false); ("error", VStr (exn_str e))].

Definition confirmed (tx_hash_hex : string) (r : receipt) : dict :=
  [("success", VBool true);
   ("tx_hash", VStr tx_hash_hex);
   ("block_number", VInt (rc_blockNumber r));
   ("gas_used", VInt (rc_gasUsed r));
   ("receipt", VReceipt r)].

Definition _create_token_only (bm : BlockchainManager) (create_arg signature : pyval)
    (gas_limit gas_price : option Z) : M dict :=
  try_catch
    (args_hex <- replace_0x create_arg ;;
     args_bytes <- lift (bytes_fromhex W args_hex) ;;
     sig_hex <- replace_0x signature ;;
     signature_bytes <- lift (bytes_fromhex W sig_hex) ;;
     nonce <- rpc_int (TransactionCount (bm_account bm) false) ;;
     gas_limit <- (if not_opt gas_limit then
                     g <- estimate_gas bm args_bytes signature_bytes 0 ;;
                     f <- int_times_float g (12 # 10) ;;
                     py_int f
                   else ret (opt_value gas_limit)) ;;
     gas_price <- settle_gas_price gas_price ;;
     let transaction :=
       {| tx_call := CreateToken args_bytes signature_bytes;
          tx_from := bm_account bm;
          tx_gas := gas_limit;
          tx_gasPrice := gas_price;
          tx_nonce := nonce;
          tx_value := 0 |} in
     tx_hash_hex <- submit transaction ;;
     receipt <- wait_for_transaction tx_hash_hex ;;
     token_address <- parse_token_address_from_receipt receipt ;;
     ret [("success", VBool true);
          ("tx_hash", VStr tx_hash_hex);
          ("block_number", VInt (rc_blockNumber receipt));
          ("gas_used", VInt (rc_gasUsed receipt));
          ("token_address", token_address);
          ("receipt", VReceipt receipt)])
    failure.

Definition _buy_token (bm : BlockchainManager) (token_address : pyval)
    (purchase_amount : pyfloat) (gas_price : option Z) : M dict :=
  try_catch
    (purchase_value_wei <- lift (to_wei_ether W purchase_amount) ;;
     nonce <- rpc_int (TransactionCount (bm_account bm) true) ;;
     gas_price <- settle_gas_price gas_price ;;
     token <- as_address token_address ;;
     let transaction :=
       {| tx_call := BuyTokenAMAP token purchase_value_wei 0;
          tx_from := bm_account bm;
          tx_gas := 300000;
          tx_gasPrice := gas_price;
          tx_nonce := nonce;
          tx_value := purchase_value_wei |} in
     tx_hash_hex <- submit transaction ;;
     receipt <- wait_for_transaction tx_hash_hex ;;
     ret (confirmed tx_hash_hex receipt))
    failure.

Definition create_token_on_chain (bm : BlockchainManager) (create_arg signature : pyval)
    (purchase_amount : pyfloat) (gas_limit gas_price : option Z) : M dict :=
  try_catch
    (if negb (bm_contract bm) then
       raise (Exception "合约实例未初始化，请检查合约地址")
     else
       create_result <- _create_token_only bm create_arg signature gas_limit gas_price ;;
       if negb (truthy (dget "success" create_result)) then ret create_result
       else
         let token_address := dget "token_address" create_result in
         if negb (truthy token_address) then
           ret [("success", VBool false); ("error", VStr "未获取到代币地址")]
         else if fgt purchase_amount (Fin 0) then
           buy_result <- _buy_token bm token_address purchase_amount gas_price ;;
           gas_used <- py_add (dget "gas_used" create_result)
                              (dget_default "gas_used" (VInt 0) buy_result) ;;
           let result :=
             [("success", dget_default "success" (VBool false) buy_result);
              ("tx_hash", dget "tx_hash" create_result);
              ("buy_tx_hash", dget "tx_hash" buy_result);
              ("block_number", dget "block_number" create_result);
              ("gas_used", gas_used);
              ("token_address", token_address);
              ("purchase_amount", VFloat purchase_amount);
              ("create_receipt", dget "receipt" create_result);
              ("buy_receipt", dget "receipt" buy_result)] in
           if truthy (dget "success" buy_result) then ret result
           else ret (dset "error"
                       (VStr ("创建成功但购买失败: " +++ pystr (dget "error" buy_result)))
                       result)
         else ret create_result)
    failure.

Definition get_token_balance (bm : BlockchainManager) (token_address : pyval) : M pyfloat :=
  try_catch
    (token <- checksum token_address ;;
     balance_wei <- rpc_int (BalanceOf token (bm_account bm)) ;;
     decimals <- call_decimals token ;;
     int_truediv balance_wei (10 ^ Z.of_N decimals))
    (fun _ => ret (Fin 0)).

Definition status_name_of (status_code : pyval)
    (trading completed halt adding_liquidity : Z) : string * bool :=
  if py_eq_int status_code trading then ("TRADING", true)
  else if py_eq_int status_code completed then ("COMPLETED", false)
  else if py_eq_int status_code halt then ("HALT", false)
  else if py_eq_int status_code adding_liquidity then ("ADDING_LIQUIDITY", false)
  else ("UNKNOWN(" +++ pystr status_code +++ ")", false).

Definition token_info_keys : list string :=
  ["base"; "quote"; "template"; "totalSupply"; "maxOffers"; "maxRaising";
   "launchTime"; "offers"; "funds"; "lastPrice"; "K"; "T"; "status"].

Definition get_token_status (bm : BlockchainManager) (token_address : pyval) : M dict :=
  try_catch
    (token <- checksum token_address ;;
     token_info <- ask (EvRpc (TokenInfos token)) (w_token_infos W token) ;;
     status_code <- py_index token_info 12 ;;
     status_trading <- rpc_int StatusTrading ;;
     status_completed <- rpc_int StatusCompleted ;;
     status_halt <- rpc_int StatusHalt ;;
     status_adding_liquidity <- rpc_int StatusAddingLiquidity ;;
     let sc := status_name_of status_code status_trading status_completed
                 status_halt status_adding_liquidity in
     (* the indices 0..12 exist once [token_info[12]] did *)
     ret [("success", VBool true);
          ("status_code", status_code);
          ("status_name", VStr (fst sc));
          ("can_trade", VBool (snd sc));
          ("token_info", VDict (combine token_info_keys (firstn 13 token_info)))])
    failure.

Definition _sell_token (bm : BlockchainManager) (token_address : pyval)
    (amount : pyfloat) (gas_price : option Z) : M dict :=
  try_catch
    (token <- checksum token_address ;;
     decimals <- call_decimals token ;;
     scaled <- float_times_int amount (10 ^ Z.of_N decimals) ;;
     amount_wei <- py_int scaled ;;
     let amount_wei :=
       if Z.of_N decimals =? 18 then (amount_wei / 1000000000) * 1000000000
       else amount_wei in
     nonce <- rpc_int (TransactionCount (bm_account bm) true) ;;
     gas_price <- settle_gas_price gas_price ;;
     let transaction :=
       {| tx_call := SellToken token amount_wei;
          tx_from := bm_account bm;
          tx_gas := 1000000;
          tx_gasPrice := gas_price;
          tx_nonce := nonce;
          tx_value := 0 |} in
     tx_hash_hex <- submit transaction ;;
     receipt <- wait_for_transaction tx_hash_hex ;;
     ret (confirmed tx_hash_hex receipt))
    failure.

Definition approve_token (bm : BlockchainManager) (token_address : pyval)
    (amount : pyfloat) (gas_price : option Z) : M dict :=
  try_catch
    (token <- checksum token_address ;;
     decimals <- call_decimals token ;;
     scaled <- float_times_int amount (10 ^ Z.of_N decimals) ;;
     amount_wei <- py_int scaled ;;
     nonce <- rpc_int (TransactionCount (bm_account bm) true) ;;
     gas_price <- settle_gas_price gas_price ;;
     let transaction :=
       {| tx_call := Approve token TOKEN_MANAGER_ADDRESS amount_wei;
          tx_from := bm_account bm;
          tx_gas := 100000;
          tx_gasPrice := gas_price;
          tx_nonce := nonce;
          tx_value := 0 |} in
     tx_hash_hex <- submit transaction ;;
     receipt <- wait_for_transaction tx_hash_hex ;;
     ret (confirmed tx_hash_hex receipt))
    failure.

Definition refused (msg : string) : M dict :=
  ret [("success", VBool false); ("error", VStr msg)].

Definition sell_token_complete (bm : BlockchainManager) (token_address : pyval)
    (sell_percentage : pyfloat) (gas_price : option Z) : M dict :=
  try_catch
    (status_result <- get_token_status bm token_address ;;
     if negb (truthy (dget "success" status_result)) then
       refused ("无法获取代币状态: " +++ pystr (dget "error" status_result))
     else if negb (truthy (dget "can_trade" status_result)) then
       refused ("代币当前状态不允许交易: " +++ pystr (dget "status_name" status_result))
     else
       balance <- get_token_balance bm token_address ;;
       if fle balance (Fin 0) then refused "代币余额为0，无法卖出"
       else if fle sell_percentage (Fin 0) || fgt sell_percentage (Fin 100) then
         refused "卖出百分比必须在1-100之间"
       else
         ratio <- py_truediv sell_percentage (Fin 100) ;;
         let sell_amount := fmul (fl_round W) balance ratio in
         approve_result <- approve_token bm token_address sell_amount gas_price ;;
         if negb (truthy (dget "success" approve_result)) then
           refused ("代币授权失败: " +++ pystr (dget "error" approve_result))
         else
           sell_result <- _sell_token bm token_address sell_amount gas_price ;;
           gas_used <- py_add (dget_default "gas_used" (VInt 0) approve_result)
                              (dget_default "gas_used" (VInt 0) sell_result) ;;
           let result :=
             [("success", dget_default "success" (VBool false) sell_result);
              ("token_address", token_address);
              ("original_balance", VFloat balance);
              ("sell_percentage", VFloat sell_percentage);
              ("sell_amount", VFloat sell_amount);
              ("approve_tx_hash", dget "tx_hash" approve_result);
              ("tx_hash", dget "tx_hash" sell_result);
              ("block_number", dget "block_number" sell_result);
              ("gas_used", gas_used);
              ("receipt", dget "receipt" sell_result)] in
           if truthy (dget "success" sell_result) then ret result
           else ret (dset "error" (dget "error" sell_result) result))
    failure.

(** ** The HTTP helper of [core/utils.py] *)

Definition raise_for_status (r : response) : M unit :=
  if (400 <=? resp_status r) && (resp_status r <? 600) then
    raise {| exn_cls := RequestException; exn_str := "HTTP error status" |}
  else ret tt.

Definition response_json (r : response) : M pyval :=
  match resp_json r with
  | Some v => ret v
  | None => raise {| exn_cls := RequestException; exn_str := "response body is not JSON" |}
  end.

Definition http (method url : string) (body : pyval) : M response :=
  ask (EvHttp method url body) (w_http W method url body).

Definition sleep (secs : Z) : M unit := ask (EvSleep secs) (fun _ => inr tt).

Definition upper_ascii (c : ascii) : ascii :=
  let n := N_of_ascii c in
  if ((97 <=? n) && (n <=? 122))%N then ascii_of_N (n - 32) else c.

Fixpoint upper (s : string) : string :=
  match s with
  | EmptyString => EmptyString
  | String c r => String (upper_ascii c) (upper r)
  end.

(** One turn of the loop of [make_request]: the request itself. *)
Definition make_request_once (method url : string) (data files : pyval) : M pyval :=
  response <-
    (if String.eqb (upper method) "POST" then
       if truthy files then http "POST" url files
       else http "POST" url data
     else http "GET" url data) ;;
  raise_for_status response ;;;
  response_json response.

(** [for attempt in range(max_retries)], from [attempt] on, with [fuel]
    turns left. *)
Fixpoint make_request_loop (method url : string) (data files : pyval)
    (max_retries attempt : Z) (fuel : nat) : M pyval :=
  match fuel with
  | O => ret VNone
  | S fuel' =>
      try_catch (make_request_once method url data files)
        (fun e =>
           match exn_cls e with
           | RequestException =>
               if attempt =? max_retries - 1 then raise e
               else
                 sleep 1 ;;;
                 make_request_loop method url data files max_retries (attempt + 1) fuel'
           | _ => raise e
           end)
  end.

Definition make_request (method url : string) (data files : pyval) (max_retries : Z)
    : M pyval :=
  make_request_loop method url data files max_retries 0 (Z.to_nat max_retries).

(** ** The API client and orchestrator: [FourMemeBot] *)

Record FourMemeBot : Type := {
  private_key : string;
  wallet_address : string;
  access_token : pyval;
  base_url : string;
  blockchain_manager : option BlockchainManager
}.

Definition set_access_token (bot : FourMemeBot) (t : pyval) : FourMemeBot :=
  {| private_key := private_key bot;
     wallet_address := wallet_address bot;
     access_token := t;
     base_url := base_url bot;
     blockchain_manager := blockchain_manager bot |}.

Definition FourMemeBot_init (key address : string) (enable_blockchain : bool)
    : M FourMemeBot :=
  manager <-
    (if enable_blockchain then
       try_catch (bm <- BlockchainManager_init key ;; ret (Some bm))
                 (fun _ => ret None)
     else ret None) ;;
  ret {| private_key := key;
         wallet_address := address;
         access_token := VNone;
         base_url := "https://four.meme/meme-api";
         blockchain_manager := manager |}.

(** [data = response.json()], used as a dict right away. *)
Definition json_object (r : response) : M dict :=
  v <- response_json r ;;
  match v with
  | VDict d => ret d
  | _ => raise {| exn_cls := AttributeError; exn_str := "object has no attribute 'get'" |}
  end.

Definition code_is_success (data : dict) : bool :=
  String.eqb (pystr (dget "code" data)) "0".

Definition nonce_url (bot : FourMemeBot) : string :=
  base_url bot +++ "/v1/private/user/nonce/generate".
Definition login_url (bot : FourMemeBot) : string :=
  base_url bot +++ "/v1/private/user/login/dex".
Definition upload_url (bot : FourMemeBot) : string :=
  base_url bot +++ "/v1/private/token/upload".
Definition create_url (bot : FourMemeBot) : string :=
  base_url bot +++ "/v1/private/token/create".

Definition generate_nonce (bot : FourMemeBot) : M pyval :=
  let payload := VDict [("accountAddress", VStr (wallet_address bot));
                        ("verifyType", VStr "LOGIN");
                        ("networkCode", VStr "BSC")] in
  response <- http "POST" (nonce_url bot) payload ;;
  raise_for_status response ;;;
  data <- json_object response ;;
  if code_is_success data then ret (dget "data" data)
  else raise (Exception ("获取随机数失败: " +++ pystr (VDict data))).

Definition sign_message (bot : FourMemeBot) (nonce : pyval) : M string :=
  lift (sign_text W (private_key bot) ("You are sign in Meme " +++ pystr nonce)).

Definition login (bot : FourMemeBot) : M (pyval * FourMemeBot) :=
  nonce <- generate_nonce bot ;;
  signature <- sign_message bot nonce ;;
  let payload :=
    VDict [("region", VStr "WEB");
           ("langType", VStr "EN");
           ("loginIp", VStr "");
           ("inviteCode", VStr "");
           ("verifyInfo", VDict [("address", VStr (wallet_address bot));
                                 ("networkCode", VStr "BSC");
                                 ("signature", VStr signature);
                                 ("verifyType", VStr "LOGIN")]);
           ("walletName", VStr "MetaMask")] in
  response <- http "POST" (login_url bot) payload ;;
  raise_for_status response ;;;
  data <- json_object response ;;
  if code_is_success data then
    ret (dget "data" data, set_access_token bot (dget "data" data))
  else raise (Exception ("登录失败: " +++ pystr (VDict data))).

Definition upload_image (bot : FourMemeBot) (image_path : string) : M pyval :=
  if negb (truthy (access_token bot)) then raise (Exception "请先登录获取访问令牌")
  else
    ask (EvOpen image_path)
        (fun h => match w_open W image_path h with
                  | Some e => inl e
                  | None => inr tt
                  end) ;;;
    response <- http "POST" (upload_url bot) (VDict [("file", VStr image_path)]) ;;
    raise_for_status response ;;;
    data <- json_object response ;;
    if code_is_success data then ret (dget "data" data)
    else raise (Exception ("图片上传失败: " +++ pystr (VDict data))).

Definition raisedToken : pyval :=
  VDict [("symbol", VStr "BNB");
         ("nativeSymbol", VStr "BNB");
         ("symbolAddress", VStr "0xbb4cdb9cbd36b01bd1cbaebf2de08d9173bc095c");
         ("deployCost", VStr "0");
         ("buyFee", VStr "0.01");
         ("sellFee", VStr "0.01");
         ("minTradeFee", VStr "0");
         ("b0Amount", VStr "8");
         ("totalBAmount", VStr "24");
         ("totalAmount", VStr "1000000000");
         ("logoUrl", VStr "https://static.four.meme/market/68b871b6-96f7-408c-b8d0-388d804b34275092658264263839640.png");
         ("tradeLevel", VList [VStr "0.1"; VStr "0.5"; VStr "1"]);
         ("status", VStr "PUBLISH");
         ("buyTokenLink", VStr "https://pancakeswap.finance/swap");
         ("reservedNumber", VInt 10);
         ("saleRate", VStr "0.8");
         ("networkCode", VStr "BSC");
         ("platform", VStr "MEME")].

Definition create_payload (token_config : dict) (now_ms : Z) : pyval :=
  VDict [("name", dget "name" token_config);
         ("shortName", dget "shortName" token_config);
         ("desc", dget "desc" token_config);
         ("imgUrl", dget_default "imgUrl"
                      (VStr "https://static.four.meme/market/default-token-logo.png")
                      token_config);
         ("launchTime", dget_default "launchTime" (VInt now_ms) token_config);
         ("label", dget_default "label" (VStr "Meme") token_config);
         ("webUrl", dget_default "webUrl" (VStr "") token_config);
         ("twitterUrl", dget_default "twitterUrl" (VStr "") token_config);
         ("telegramUrl", dget_default "telegramUrl" (VStr "") token_config);
         ("preSale", dget_default "preSale" (VStr "0") token_config);
         ("totalSupply", VInt 1000000000);
         ("raisedAmount", VInt 24);
         ("saleRate", VFloat ((fl_round W) (8 # 10)));
         ("reserveRate", VInt 0);
         ("lpTradingFee", VFloat ((fl_round W) (25 # 10000)));
         ("funGroup", VBool false);
         ("clickFun", VBool false);
         ("symbol", VStr "BNB");
         ("raisedToken", raisedToken)].

(** [{"success": True, **extra}] *)
Definition success_with (extra : dict) : dict :=
  fold_left (fun acc kv => dset (fst kv) (snd kv) acc) extra [("success", VBool true)].

Definition create_token (bot : FourMemeBot) (token_config : dict) : M dict :=
  if negb (truthy (access_token bot)) then raise (Exception "请先登录获取访问令牌")
  else
    now_ms <- ask EvClock (fun h => inr (w_time_ms W h)) ;;
    response <- http "POST" (create_url bot) (create_payload token_config now_ms) ;;
    raise_for_status response ;;;
    data <- json_object response ;;
    if code_is_success data then
      match dget_default "data" (VDict []) data with
      | VDict extra => ret (success_with extra)
      | _ => raise {| exn_cls := TypeError; exn_str := "argument after ** must be a mapping" |}
      end
    else raise (Exception ("代币创建失败: " +++ pystr (VDict data))).

Definition deploy_to_blockchain (bot : FourMemeBot) (create_arg signature : pyval)
    (purchase_amount : pyfloat) : M dict :=
  match blockchain_manager bot with
  | None => refused "区块链管理器未启用"
  | Some bm => create_token_on_chain bm create_arg signature purchase_amount None None
  end.

Definition is_some {A} (o : option A) : bool :=
  match o with Some _ => true | None => false end.

Definition with_error (result : dict) (msg : string) : dict :=
  dset "error" (VStr msg) result.

(** The part of [create_token_complete] after the creation API answered. *)
Definition create_token_complete_deploy (bot : FourMemeBot) (result : dict)
    (api_result : dict) (deploy_on_chain : bool) (purchase_amount : pyfloat) : M dict :=
  if negb (truthy (VDict api_result)) || negb (truthy (dget "success" api_result)) then
    ret (with_error result
           ("API创建失败: " +++
            (if truthy (VDict api_result)
             then pystr (dget_default "error" (VStr "未知错误") api_result)
             else "无响应")))
  else if deploy_on_chain && is_some (blockchain_manager bot) then
    let create_arg := dget "createArg" api_result in
    let signature := dget "signature" api_result in
    if negb (truthy create_arg) || negb (truthy signature) then
      ret (with_error result "API返回的部署参数不完整")
    else
      blockchain_result <- deploy_to_blockchain bot create_arg signature purchase_amount ;;
      let result := dset "blockchain_result" (VDict blockchain_result) result in
      if truthy (dget "success" blockchain_result) then
        ret (dset "purchase_amount" (VFloat purchase_amount)
               (dset "tx_hash" (dget "tx_hash" blockchain_result)
                  (dset "token_address" (dget "token_address" blockchain_result)
                     (dset "success" (VBool true) result))))
      else
        ret (with_error result
               ("区块链部署失败: " +++ pystr (dget "error" blockchain_result)))
  else
    ret (dset "signature" (dget "signature" api_result)
           (dset "create_arg" (dget "createArg" api_result)
              (dset "success" (VBool true) result))).

Definition truthy_path (image_path : option string) : bool :=
  match image_path with Some p => negb (String.eqb p "") | None => false end.

(** The result, and the bot as the call leaves it (logged in or not). *)
Definition create_token_complete (bot : FourMemeBot) (token_config : dict)
    (image_path : option string) (deploy_on_chain : bool) (purchase_amount : pyfloat)
    : M (dict * FourMemeBot) :=
  let result :=
    [("success", VBool false); ("api_result", VNone);
     ("blockchain_result", VNone); ("error", VNone)] in
  try_catch
    (logged <- login bot ;;
     let bot := snd logged in
     try_catch
       (if negb (truthy (fst logged)) then ret (with_error result "用户登录失败", bot)
        else
          token_config <-
            (if truthy_path image_path then
               image_url <- upload_image bot (match image_path with Some p => p | None => "" end) ;;
               ret (dset "imgUrl" image_url token_config)
             else ret token_config) ;;
          api_result <- create_token bot token_config ;;
          let result := dset "api_result" (VDict api_result) result in
          try_catch
            (r <- create_token_complete_deploy bot result api_result deploy_on_chain
                    purchase_amount ;;
             ret (r, bot))
            (fun e => ret (with_error result (exn_str e), bot)))
       (fun e => ret (with_error result (exn_str e), bot)))
    (fun e => ret (with_error result (exn_str e), bot)).

Definition get_wallet_balance (bot : FourMemeBot) : M (option pyfloat) :=
  match blockchain_manager bot with
  | None => ret None
  | Some bm =>
      try_catch (balance <- get_balance bm ;; ret (Some balance))
                (fun _ => ret None)
  end.

Definition sell_token (bot : FourMemeBot) (token_address : pyval)
    (sell_percentage : pyfloat) : M dict :=
  match blockchain_manager bot with
  | None => refused "区块链管理器未启用"
  | Some bm => sell_token_complete bm token_address sell_percentage None
  end.

(** ** The batch driver: [BatchRunner] *)

Record wallet_info : Type := {
  wi_address : string;
  wi_private_key : string;
  wi_purchase_amount : pyfloat;
  wi_sell_percentage : pyfloat;
  wi_line_num : Z
}.

Inductive log_level : Type := INFO | WARNING | ERROR.

Record log_record : Type := {
  lr_level : log_level;
  lr_line : Z;          (* the line the message is about, 0 for the file *)
  lr_text : string      (* what follows the line number in the message *)
}.

Definition logged (lvl : log_level) (line : Z) (text : string) : log_record :=
  {| lr_level := lvl; lr_line := line; lr_text := text |}.

(** [CryptoUtils.get_wallet_address_from_private_key] *)
Definition get_wallet_address_from_private_key (key : string) : exn + string :=
  address_from_key W (if startswith "0x" key then key else "0x" +++ key).

(** The body of the loop of [load_wallets_from_file] for one line: what
    it logs and the record it appends, if any. *)
Definition load_line (line_num : Z) (raw : string)
    : list log_record * option wallet_info :=
  let line := strip raw in
  if String.eqb line "" || startswith "#" line then ([], None)
  else
    let parts := split ";" line in
    if (List.length parts <? 2)%nat then
      ([logged WARNING line_num "行格式错误，跳过"], None)
    else
      let wallet_address := strip (nth 0 parts "") in
      let key := strip (nth 1 parts "") in
      let key := if startswith "0x" key then key else "0x" +++ key in
      match get_wallet_address_from_private_key key with
      | inl _ => ([logged ERROR line_num "行私钥格式错误"], None)
      | inr derived_address =>
          let log1 :=
            if negb (String.eqb (lower derived_address) (lower wallet_address))
            then [logged WARNING line_num "行地址与私钥不匹配"] else [] in
          let amount :=
            if (2 <? List.length parts)%nat && negb (String.eqb (strip (nth 2 parts "")) "")
            then
              match float_of_string W (strip (nth 2 parts "")) with
              | Some f => (f, [])
              | None => (Fin 0, [logged WARNING line_num "行购买金额格式错误，使用默认值0"])
              end
            else (Fin 0, []) in
          let percentage :=
            if (3 <? List.length parts)%nat && negb (String.eqb (strip (nth 3 parts "")) "")
            then
              match float_of_string W (strip (nth 3 parts "")) with
              | Some f =>
                  if flt f (Fin 0) || fgt f (Fin 100)
                  then (Fin 100, [logged WARNING line_num "行卖出百分比超出范围，使用默认值100"])
                  else (f, [])
              | None => (Fin 100, [logged WARNING line_num "行卖出百分比格式错误，使用默认值100"])
              end
            else (Fin 100, []) in
          (log1 ++ snd amount ++ snd percentage ++ [logged INFO line_num "加载钱包"],
           Some {| wi_address := wallet_address;
                   wi_private_key := key;
                   wi_purchase_amount := fst amount;
                   wi_sell_percentage := fst percentage;
                   wi_line_num := line_num |})
      end.

(** [for line_num, line in enumerate(f, 1)], with the list [wallets] and
    the log as they grow. *)
Fixpoint load_loop (lines : list string) (line_num : Z)
    (wallets : list wallet_info) (log : list log_record)
    : list wallet_info * list log_record :=
  match lines with
  | [] => (wallets, log)
  | raw :: rest =>
      match load_line line_num raw with
      | (msgs, Some w) => load_loop rest (line_num + 1) (wallets ++ [w]) (log ++ msgs)
      | (msgs, None) => load_loop rest (line_num + 1) wallets (log ++ msgs)
      end
  end.

(** [file] is the content of the file as lines, [None] when it is missing. *)
Definition load_wallets_from_file (file : option (list string))
    : list wallet_info * list log_record :=
  match file with
  | None => ([], [logged ERROR 0 "文件不存在"])
  | Some lines =>
      let r := load_loop lines 1 [] [] in
      (fst r, snd r ++ [logged INFO 0 "成功加载"])
  end.

Record wallet_result : Type := {
  r_wallet_num : Z;
  r_address : string;
  r_success : bool;
  r_token_address : pyval;
  r_token_name : pyval;
  r_token_symbol : pyval;
  r_image_used : pyval;
  r_create_tx : pyval;
  r_buy_tx : pyval;
  r_sell_tx : pyval;
  r_error : pyval;
  r_steps_completed : list string
}.

Record BatchRunner : Type := {
  results : list wallet_result;
  success_count : Z;
  failed_count : Z;
  available_images : list string;
  used_images : list string      (* a set: no image twice *)
}.

Definition mem (x : string) (l : list string) : bool := existsb (String.eqb x) l.

Definition set_add (x : string) (l : list string) : list string :=
  if mem x l then l else l ++ [x].

(** [random.choice(l)] *)
Definition choice (l : list string) : M string :=
  i <- ask EvRandom (fun h => inr (w_random W h)) ;;
  ret (nth (i mod List.length l)%nat l "").

(** [random.randint(lo, hi)] *)
Definition randint (lo hi : Z) : M Z :=
  i <- ask EvRandom (fun h => inr (w_random W h)) ;;
  ret (lo + Z.of_nat i mod (hi - lo + 1)).

Definition with_images (runner : BatchRunner) (used : list string) : BatchRunner :=
  {| results := results runner;
     success_count := success_count runner;
     failed_count := failed_count runner;
     available_images := available_images runner;
     used_images := used |}.

Definition _get_random_image (runner : BatchRunner) : M (option string * BatchRunner) :=
  match available_images runner with
  | [] => ret (None, runner)
  | _ =>
      let used :=
        if (List.length (available_images runner) <=? List.length (used_images runner))%nat
        then [] else used_images runner in
      let unused := filter (fun img => negb (mem img used)) (available_images runner) in
      let candidates := match unused with [] => available_images runner | _ => unused end in
      selected_image <- choice candidates ;;
      ret (Some selected_image, with_images runner (set_add selected_image used))
  end.

Definition token_names : list string :=
  ["Moon"; "Rocket"; "Diamond"; "Golden"; "Cyber"; "Quantum"; "Stellar"; "Phoenix";
   "Thunder"; "Lightning"; "Fire"; "Ice"; "Storm"; "Wind"; "Earth"; "Ocean";
   "Alpha"; "Beta"; "Gamma"; "Delta"; "Omega"; "Prime"; "Ultra"; "Super";
   "Mega"; "Giga"; "Tera"; "Nova"; "Apex"; "Elite"; "Pro"; "Max";
   "King"; "Queen"; "Lord"; "Master"; "Champion"; "Legend"; "Hero"; "Warrior";
   "Dragon"; "Tiger"; "Lion"; "Eagle"; "Wolf"; "Bear"; "Shark"; "Falcon";
   "Crypto"; "Block"; "Chain"; "Hash"; "Node"; "Mint"; "Stake"; "Yield";
   "DeFi"; "NFT"; "Meta"; "Web3"; "DAO"; "DEX"; "AMM"; "LP"].

Definition suffixes : list string :=
  ["Token"; "Coin"; "Finance"; "Protocol"; "Network"; "Chain"; "Swap";
   "DAO"; "AI"; "Bot"; "Lab"; "Tech"; "Verse"; "World"; "Land"].

Definition labels : list string := ["AI"; "Meme"; "DeFi"; "Games"; "Social"; "Others"].

Definition domains : list string :=
  ["finance"; "protocol"; "network"; "chain"; "swap"; "defi"; "crypto";
   "token"; "coin"; "dao"; "tech"; "lab"; "verse"; "world"; "app"].

Definition descriptions (base_name full_name : string) : list string :=
  [full_name +++ " is a revolutionary cryptocurrency designed for the future of decentralized finance.";
   "Join the " +++ base_name +++ " revolution! " +++ full_name +++ " brings innovation to the blockchain ecosystem.";
   full_name +++ " - Empowering the next generation of digital assets and smart contracts.";
   "Experience the power of " +++ base_name +++ "! " +++ full_name +++ " is building the future of Web3.";
   full_name +++ " combines cutting-edge technology with community-driven governance.";
   "Welcome to " +++ base_name +++ "! " +++ full_name +++ " is your gateway to decentralized opportunities.";
   full_name +++ " - Where innovation meets opportunity in the world of cryptocurrency.";
   "Discover " +++ base_name +++ "! " +++ full_name +++ " is revolutionizing how we think about digital value."].

(** [s[-1]] of a non-empty string, as a string. *)
Definition last_char (s : string) : string :=
  substring (String.length s - 1) 1 s.

Definition create_token_config (wallet_num : Z) : M dict :=
  base_name <- choice token_names ;;
  suffix <- choice suffixes ;;
  let full_name := base_name +++ " " +++ suffix in
  let symbol :=
    if (String.length base_name <=? 4)%nat then upper base_name
    else upper (substring 0 3 base_name) +++ upper (last_char base_name) in
  n <- randint 10 99 ;;
  let symbol := symbol +++ pystr (VInt n) in
  domain <- choice domains ;;
  let website_name := lower base_name +++ domain in
  desc <- choice (descriptions base_name full_name) ;;
  label <- choice labels ;;
  ret [("name", VStr full_name);
       ("shortName", VStr symbol);
       ("desc", VStr desc);
       ("label", VStr label);
       ("webUrl", VStr ("https://" +++ website_name +++ ".com"));
       ("twitterUrl", VStr "");
       ("telegramUrl", VStr "");
       ("preSale", VStr "0")].

Fixpoint has_slash (s : string) : bool :=
  match s with
  | EmptyString => false
  | String c r => Ascii.eqb c "/" || has_slash r
  end.

(** [os.path.basename]: what follows the last slash. *)
Fixpoint basename (p : string) : string :=
  match p with
  | EmptyString => EmptyString
  | String c r =>
      if has_slash r then basename r
      else if Ascii.eqb c "/" then r else p
  end.

(** [d[k]] *)
Definition dict_item (d : dict) (k : string) : M pyval :=
  match dlookup k d with
  | Some v => ret v
  | None => raise {| exn_cls := KeyError; exn_str := k |}
  end.

(** [None < y] has no meaning; a float compares. *)
Definition py_lt_opt (x : option pyfloat) (y : pyfloat) : M bool :=
  match x with
  | Some f => ret (flt f y)
  | None => raise {| exn_cls := TypeError;
                     exn_str := "'<' not supported between instances of 'NoneType' and 'float'" |}
  end.

Definition initial_result (w : wallet_info) (wallet_num : Z) : wallet_result :=
  {| r_wallet_num := wallet_num;
     r_address := wi_address w;
     r_success := false;
     r_token_address := VNone;
     r_token_name := VNone;
     r_token_symbol := VNone;
     r_image_used := VNone;
     r_create_tx := VNone;
     r_buy_tx := VNone;
     r_sell_tx := VNone;
     r_error := VNone;
     r_steps_completed := [] |}.

Definition add_step (r : wallet_result) (step : string) : wallet_result :=
  {| r_wallet_num := r_wallet_num r; r_address := r_address r;
     r_success := r_success r; r_token_address := r_token_address r;
     r_token_name := r_token_name r; r_token_symbol := r_token_symbol r;
     r_image_used := r_image_used r; r_create_tx := r_create_tx r;
     r_buy_tx := r_buy_tx r; r_sell_tx := r_sell_tx r; r_error := r_error r;
     r_steps_completed := r_steps_completed r ++ [step] |}.

Definition set_created (r : wallet_result) (token_address name symbol image create_tx : pyval)
    : wallet_result :=
  {| r_wallet_num := r_wallet_num r; r_address := r_address r;
     r_success := r_success r; r_token_address := token_address;
     r_token_name := name; r_token_symbol := symbol;
     r_image_used := image; r_create_tx := create_tx;
     r_buy_tx := r_buy_tx r; r_sell_tx := r_sell_tx r; r_error := r_error r;
     r_steps_completed := r_steps_completed r |}.

Definition set_buy_tx (r : wallet_result) (v : pyval) : wallet_result :=
  {| r_wallet_num := r_wallet_num r; r_address := r_address r;
     r_success := r_success r; r_token_address := r_token_address r;
     r_token_name := r_token_name r; r_token_symbol := r_token_symbol r;
     r_image_used := r_image_used r; r_create_tx := r_create_tx r;
     r_buy_tx := v; r_sell_tx := r_sell_tx r; r_error := r_error r;
     r_steps_completed := r_steps_completed r |}.

Definition set_sell_tx (r : wallet_result) (v : pyval) : wallet_result :=
  {| r_wallet_num := r_wallet_num r; r_address := r_address r;
     r_success := r_success r; r_token_address := r_token_address r;
     r_token_name := r_token_name r; r_token_symbol := r_token_symbol r;
     r_image_used := r_image_used r; r_create_tx := r_create_tx r;
     r_buy_tx := r_buy_tx r; r_sell_tx := v; r_error := r_error r;
     r_steps_completed := r_steps_completed r |}.

Definition set_success (r : wallet_result) : wallet_result :=
  {| r_wallet_num := r_wallet_num r; r_address := r_address r;
     r_success := true; r_token_address := r_token_address r;
     r_token_name := r_token_name r; r_token_symbol := r_token_symbol r;
     r_image_used := r_image_used r; r_create_tx := r_create_tx r;
     r_buy_tx := r_buy_tx r; r_sell_tx := r_sell_tx r; r_error := r_error r;
     r_steps_completed := r_steps_completed r |}.

Definition set_error (r : wallet_result) (msg : string) : wallet_result :=
  {| r_wallet_num := r_wallet_num r; r_address := r_address r;
     r_success := r_success r; r_token_address := r_token_address r;
     r_token_name := r_token_name r; r_token_symbol := r_token_symbol r;
     r_image_used := r_image_used r; r_create_tx := r_create_tx r;
     r_buy_tx := r_buy_tx r; r_sell_tx := r_sell_tx r; r_error := VStr msg;
     r_steps_completed := r_steps_completed r |}.

Definition count_success (runner : BatchRunner) : BatchRunner :=
  {| results := results runner;
     success_count := success_count runner + 1;
     failed_count := failed_count runner;
     available_images := available_images runner;
     used_images := used_images runner |}.

Definition count_failed (runner : BatchRunner) : BatchRunner :=
  {| results := results runner;
     success_count := success_count runner;
     failed_count := failed_count runner + 1;
     available_images := available_images runner;
     used_images := used_images runner |}.

(** The [try] of [process_wallet] from some statement on: [result] and
    [runner] are what the statements before it left, and what the
    handler finds when [body] raises. *)
Definition guarded (result : wallet_result) (runner : BatchRunner)
    (body : M (wallet_result * BatchRunner)) : M (wallet_result * BatchRunner) :=
  try_catch body (fun e => ret (set_error result (exn_str e), count_failed runner)).

(** Step 2 of [process_wallet]: the follow-up purchase. *)
Definition follow_up_buy (bot : FourMemeBot) (w : wallet_info) (create_result : dict)
    (result : wallet_result) : M wallet_result :=
  if fgt (wi_purchase_amount w) (Fin 0) then
    if negb (dhas "purchase_tx" create_result) then
      buy_result <-
        match blockchain_manager bot with
        | Some bm => _buy_token bm (r_token_address result) (wi_purchase_amount w) None
        | None => raise {| exn_cls := AttributeError;
                           exn_str := "'NoneType' object has no attribute '_buy_token'" |}
        end ;;
      if truthy (VDict buy_result) && truthy (dget "success" buy_result) then
        ret (add_step (set_buy_tx result (dget "tx_hash" buy_result)) "token_bought")
      else ret result
    else
      ret (add_step (set_buy_tx result (dget "purchase_tx" create_result)) "token_bought")
  else ret result.

(** Step 4 of [process_wallet]: the sale. *)
Definition final_sell (bot : FourMemeBot) (w : wallet_info) (result : wallet_result)
    : M wallet_result :=
  if fgt (wi_sell_percentage w) (Fin 0) then
    sell_result <- sell_token bot (r_token_address result) (wi_sell_percentage w) ;;
    if truthy (VDict sell_result) && truthy (dget "success" sell_result) then
      ret (add_step (set_sell_tx result (dget "tx_hash" sell_result)) "token_sold")
    else ret result
  else ret result.

Definition process_wallet (runner : BatchRunner) (w : wallet_info)
    (wallet_num total_wallets : Z) : M (wallet_result * BatchRunner) :=
  let result := initial_result w wallet_num in
  guarded result runner
    (bot <- FourMemeBot_init (wi_private_key w) (wi_address w) true ;;
     balance <- get_wallet_balance bot ;;
     below <- py_lt_opt balance (fl_round W (1 # 100)) ;;
     if below then
       raise (Exception ("钱包余额不足: " +++
                         pystr (match balance with Some b => VFloat b | None => VNone end)
                         +++ " BNB < 0.01 BNB"))
     else
       let result := add_step result "balance_check" in
       guarded result runner
         (token_config <- create_token_config wallet_num ;;
          picked <- _get_random_image runner ;;
          let selected_image := fst picked in
          let runner := snd picked in
          guarded result runner
            (created <- create_token_complete bot token_config selected_image true
                          (wi_purchase_amount w) ;;
             let create_result := fst created in
             let bot := snd created in
             if negb (truthy (dget "success" create_result)) then
               raise (Exception ("代币创建失败: " +++
                                 pystr (dget_default "error" (VStr "未知错误") create_result)))
             else
               name <- dict_item token_config "name" ;;
               symbol <- dict_item token_config "shortName" ;;
               let image_used :=
                 match selected_image with
                 | Some p => if String.eqb p "" then VStr "None" else VStr (basename p)
                 | None => VStr "None"
                 end in
               let result :=
                 add_step (set_created result (dget "token_address" create_result)
                             name symbol image_used (dget "tx_hash" create_result))
                          "token_created" in
               guarded result runner
                 (result <- follow_up_buy bot w create_result result ;;
                  guarded result runner
                    ((if truthy (r_buy_tx result) then sleep 10 else ret tt) ;;;
                     result <- final_sell bot w result ;;
                     ret (set_success result, count_success runner)))))).

Definition with_results (runner : BatchRunner) (rs : list wallet_result) : BatchRunner :=
  {| results := rs;
     success_count := success_count runner;
     failed_count := failed_count runner;
     available_images := available_images runner;
     used_images := used_images runner |}.

(** [for i, wallet_info in enumerate(wallets, 1)], from [i] on; [n] is
    [len(wallets)]. *)
Fixpoint run_batch_loop (runner : BatchRunner) (wallets : list wallet_info)
    (i n : Z) (delay_between_wallets : Z) : M BatchRunner :=
  match wallets with
  | [] => ret runner
  | w :: rest =>
      processed <- process_wallet runner w i n ;;
      let runner := snd processed in
      let runner := with_results runner (results runner ++ [fst processed]) in
      (if (i <? n) && (0 <? delay_between_wallets) then sleep delay_between_wallets
       else ret tt) ;;;
      run_batch_loop runner rest (i + 1) n delay_between_wallets
  end.


End Model.

(** ** Concrete worlds

    A [scenario] fixes the few things the examples vary; everything else
    answers as a healthy node and a healthy API would. *)

Record scenario : Type := {
  sc_connected : bool;              (* the node answers [is_connected] *)
  sc_balance_wei : option Z;        (* the wallet's balance; [None]: the query raises *)
  sc_send_refused : tx -> bool;     (* [send_raw_transaction] raises for these *)
  sc_status_known : bool;           (* [_tokenInfos] answers *)
  sc_event_logged : bool;           (* receipts carry the TokenCreate event *)
  sc_http_up : bool                 (* the API can be reached *)
}.

Definition node_error (msg : string) : exn := {| exn_cls := Exception_; exn_str := msg |}.

Definition api_url (path : string) : string := "https://four.meme/meme-api" +++ path.

Definition api_answer (url : string) : pyval :=
  if String.eqb url (api_url "/v1/private/user/nonce/generate") then VStr "nonce-1"
  else if String.eqb url (api_url "/v1/private/user/login/dex") then VStr "session-1"
  else if String.eqb url (api_url "/v1/private/token/upload") then VStr "https://img/1.png"
  else VDict [("createArg", VStr "0xa1"); ("signature", VStr "0xb2")].

Definition hash_of (t : tx) : string :=
  match tx_call t with
  | CreateToken _ _ => "0xc0"
  | BuyTokenAMAP _ _ _ => "0xb0"
  | SellToken _ _ => "0x50"
  | Approve _ _ _ => "0xa0"
  end.

Definition parse_float_table (s : string) : option pyfloat :=
  if String.eqb s "0" then Some (Fin 0)
  else if String.eqb s "0.01" then Some (Fin (1 # 100))
  else if String.eqb s "50" then Some (Fin 50)
  else if String.eqb s "100" then Some (Fin 100)
  else if String.eqb s "150" then Some (Fin 150)
  else if String.eqb s "-5" then Some (Fin (-5 # 1))
  else if String.eqb s "nan" then Some NaN
  else None.

Definition world_of (s : scenario) : World :=
  {| fl_round := Fin;
     float_of_string := parse_float_table;
     py_repr := fun _ => "<repr>";
     bytes_fromhex := fun x => inr x;
     to_wei_ether := fun f =>
       match f with
       | Fin q => inr (Qfloor (q * inject_Z (10 ^ 18)))
       | _ => inl {| exn_cls := ValueError; exn_str := "not a number of ether" |}
       end;
     from_wei_ether := fun n => inr (Fin (inject_Z n / inject_Z (10 ^ 18)));
     to_checksum_address := fun a => inr a;
     address_from_key := fun k =>
       if String.eqb k "0x" || startswith "0xzz" k
       then inl {| exn_cls := ValueError; exn_str := "not a private key" |}
       else inr "0xWallet";
     sign_text := fun _ _ => inr "0xsigned";
     decode_fails := fun _ => None;
     w_connected := fun _ => inr (sc_connected s);
     w_rpc_int := fun c h =>
       match c with
       | GetBalance _ =>
           match sc_balance_wei s with
           | Some b => inr b
           | None => inl (node_error "balance query failed")
           end
       | GasPrice => inr 5000000000
       | EstimateGas _ _ _ => inr 400000
       | TransactionCount _ _ => inr (Z.of_nat (List.length (sent_newest_first h)))
       | BalanceOf _ _ => inr (1000 * 10 ^ 18)
       | StatusTrading => inr 1
       | StatusCompleted => inr 2
       | StatusHalt => inr 3
       | StatusAddingLiquidity => inr 4
       | _ => inr 100
       end;
     w_decimals := fun _ _ => inr 18%N;
     w_token_infos := fun _ _ =>
       if sc_status_known s
       then inr (repeat (VInt 0) 12 ++ [VInt 1])
       else inl (node_error "execution reverted");
     w_build := fun _ _ => None;
     w_sign := fun _ _ => inr "0xraw";
     w_send := fun t _ =>
       if sc_send_refused s t then inl (node_error "transaction underpriced")
       else inr (hash_of t);
     w_wait := fun _ _ =>
       inr {| rc_status := 1; rc_blockNumber := 100; rc_gasUsed := 21000;
              rc_logs := if sc_event_logged s
                         then [{| log_event := "TokenCreate"; log_token := "0xT0" |}]
                         else [{| log_event := "Transfer"; log_token := "" |}] |};
     w_http := fun _ url _ _ =>
       if sc_http_up s
       then inr {| resp_status := 200;
                   resp_json := Some (VDict [("code", VInt 0); ("data", api_answer url)]) |}
       else inl {| exn_cls := RequestException; exn_str := "connection refused" |};
     w_open := fun _ _ => None;
     w_time_ms := fun _ => 1700000000000;
     w_random := fun h => List.length h |}.

Definition healthy : scenario :=
  {| sc_connected := true;
     sc_balance_wei := Some (2 * 10 ^ 16);
     sc_send_refused := fun _ => false;
     sc_status_known := true;
     sc_event_logged := true;
     sc_http_up := true |}.

Definition fresh_runner : BatchRunner :=
  {| results := []; success_count := 0; failed_count := 0;
     available_images := []; used_images := [] |}.

Definition wallet (amount percentage : pyfloat) : wallet_info :=
  {| wi_address := "0xWallet"; wi_private_key := "0x11";
     wi_purchase_amount := amount; wi_sell_percentage := percentage;
     wi_line_num := 1 |}.

Definition manager0 : BlockchainManager :=
  {| bm_private_key := "0x11"; bm_rpc_url := hd "" BSC_RPC_URLS;
     bm_account := "0xWallet"; bm_contract := true |}.

(** Receipts come back confirmed but without the TokenCreate event. *)
Definition no_event : scenario :=
  {| sc_connected := true;
     sc_balance_wei := Some (2 * 10 ^ 16);
     sc_send_refused := fun _ => false;
     sc_status_known := true;
     sc_event_logged := false;
     sc_http_up := true |}.

Definition receipt_without_event : receipt :=
  {| rc_status := 1; rc_blockNumber := 100; rc_gasUsed := 21000;
     rc_logs := [{| log_event := "Transfer"; log_token := "" |}] |}.

(** A wallet holding 0.001 BNB. *)
Definition poor : scenario :=
  {| sc_connected := true;
     sc_balance_wei := Some (10 ^ 15);
     sc_send_refused := fun _ => false;
     sc_status_known := true;
     sc_event_logged := true;
     sc_http_up := true |}.

(** The node cannot be reached. *)
Definition offline : scenario :=
  {| sc_connected := false;
     sc_balance_wei := Some (2 * 10 ^ 16);
     sc_send_refused := fun _ => false;
     sc_status_known := true;
     sc_event_logged := true;
     sc_http_up := true |}.

(** The node answers, except for the balance. *)
Definition balance_unknown : scenario :=
  {| sc_connected := true;
     sc_balance_wei := None;
     sc_send_refused := fun _ => false;
     sc_status_known := true;
     sc_event_logged := true;
     sc_http_up := true |}.

Definition bot_with (m : option BlockchainManager) : FourMemeBot :=
  {| private_key := "0x11"; wallet_address := "0xWallet"; access_token := VNone;
     base_url := "https://four.meme/meme-api"; blockchain_manager := m |}.




(** The contract does not answer the status query. *)
Definition status_unknown : scenario :=
  {| sc_connected := true;
     sc_balance_wei := Some (2 * 10 ^ 16);
     sc_send_refused := fun _ => false;
     sc_status_known := false;
     sc_event_logged := true;
     sc_http_up := true |}.

(** The API cannot be reached. *)
Definition http_down : scenario :=
  {| sc_connected := true;
     sc_balance_wei := Some (2 * 10 ^ 16);
     sc_send_refused := fun _ => false;
     sc_status_known := true;
     sc_event_logged := true;
     sc_http_up := false |}.

(** ** Notions the statements use *)

Definition tx_of (e : event) : option tx :=
  match e with
  | EvBuild t | EvSign t | EvSend t => Some t
  | _ => None
  end.

(** Every transaction that was built, signed or sent during a run. *)
Fixpoint txs (d : list event) : list tx :=
  match d with
  | [] => []
  | e :: r =>
      match tx_of e with
      | Some t => t :: txs r
      | None => txs r
      end
  end.

(** The HTTP requests of a run, most recent first: method and URL. *)
Fixpoint requests (d : list event) : list (string * string) :=
  match d with
  | [] => []
  | EvHttp m u _ :: r => (m, u) :: requests r
  | _ :: r => requests r
  end.

(** How a run of [process_wallet] can end: before the balance check
    passed, at the creation step, or after it with whatever the purchase and
    the sale added. *)
Inductive wallet_outcome (w : wallet_info) (n : Z) : wallet_result -> Prop :=
| Aborted msg :
    wallet_outcome w n (set_error (initial_result w n) msg)
| CreationFailed msg :
    wallet_outcome w n (set_error (add_step (initial_result w n) "balance_check") msg)
| Completed at_creation after_buy after_sell token name symbol image create_tx :
    at_creation = add_step (set_created (add_step (initial_result w n) "balance_check")
                          token name symbol image create_tx) "token_created" ->
    (after_buy = at_creation \/
     exists v, after_buy = add_step (set_buy_tx at_creation v) "token_bought") ->
    (after_sell = after_buy \/
     exists v, after_sell = add_step (set_sell_tx after_buy v) "token_sold") ->
    wallet_outcome w n (set_success after_sell).

(** [p] lies in (0, 100]. *)
Definition inside_range (p : pyfloat) : bool := fgt p (Fin 0) && fle p (Fin 100).

(** The test of [sell_token_complete]: [p <= 0 or p > 100]. *)
Definition rejected_by_check (p : pyfloat) : bool := fle p (Fin 0) || fgt p (Fin 100).

(** How many requests of a run went to [url]. *)
Definition requests_to (url : string) (d : list event) : nat :=
  List.length (filter (fun mu => String.eqb (snd mu) url) (requests d)).

(** The pauses of a run, in seconds, most recent first. *)
Fixpoint sleeps (d : list event) : list Z :=
  match d with
  | [] => []
  | EvSleep s :: r => s :: sleeps r
  | _ :: r => sleeps r
  end.

(** [int(amount * (10 ** decimals))], or the exception it raises. *)
Definition base_units (W : World) (amount : pyfloat) (decimals : N) : exn + Z :=
  fst ((scaled <- float_times_int W amount (10 ^ Z.of_N decimals) ;; py_int scaled) []).

(** An approval of [amount] tokens to the platform contract: the amount in
    base units, by the decimals the token reported. *)
Definition approve_of (W : World) (amount : pyfloat) (t : tx) : Prop :=
  exists tok dec raw hd,
    w_decimals W tok hd = inr dec /\
    base_units W amount dec = inr raw /\
    tx_call t = Approve tok TOKEN_MANAGER_ADDRESS raw /\
    tx_value t = 0.

(** A sale of [amount] tokens: the amount in base units, rounded down to
    a multiple of 10^9 when the token reports 18 decimals. *)
Definition sell_of (W : World) (amount : pyfloat) (t : tx) : Prop :=
  exists tok dec raw hd,
    w_decimals W tok hd = inr dec /\
    base_units W amount dec = inr raw /\
    tx_call t = SellToken tok (if Z.of_N dec =? 18
                               then raw / 1000000000 * 1000000000 else raw) /\
    tx_value t = 0.

(** What a run sent: nothing, an approval, or an approval and then a sale. *)
Definition approve_then_sell (d : list event) : Prop :=
  sends d = [] \/
  (exists ta, sends d = [ta] /\ is_approve ta = true) \/
  (exists ta ts, sends d = [ta; ts] /\ is_approve ta = true /\ is_sell ts = true).

Definition value_of {A} (dflt : A) (r : exn + A) : A :=
  match r with inr a => a | inl _ => dflt end.

(** [enumerate(lines, start)] *)
Fixpoint enumerate (start : Z) (lines : list string) : list (Z * string) :=
  match lines with
  | [] => []
  | l :: rest => (start, l) :: enumerate (start + 1) rest
  end.

(** A blank line or a comment. *)
Definition ignored (raw : string) : bool :=
  String.eqb (strip raw) "" || startswith "#" (strip raw).

(** The fields of a line. *)
Definition fields (raw : string) : list string := split ";" (strip raw).

(** The key of a line, with its 0x prefix. *)
Definition key_of (raw : string) : string :=
  let key := strip (nth 1 (fields raw) "") in
  if startswith "0x" key then key else "0x" +++ key.

(** The key derives an address. *)
Definition key_parses (W : World) (raw : string) : bool :=
  match get_wallet_address_from_private_key W (key_of raw) with
  | inr _ => true
  | inl _ => false
  end.

(** Fewer than two fields, or a key that is no key. *)
Definition malformed (W : World) (raw : string) : bool :=
  Nat.ltb (List.length (fields raw)) 2 || negb (key_parses W raw).

(** The i-th field when the line has it and it is not blank. *)
Definition field (i : nat) (raw : string) : option string :=
  if Nat.ltb i (List.length (fields raw)) && negb (String.eqb (strip (nth i (fields raw) "")) "")
  then Some (strip (nth i (fields raw) ""))
  else None.

(** The field as a number: [None] when it is missing or malformed. *)
Definition number_field (W : World) (i : nat) (raw : string) : option pyfloat :=
  match field i raw with
  | Some s => float_of_string W s
  | None => None
  end.

(** The purchase amount of a line: 0 unless a number is given. *)
Definition purchase_of (W : World) (raw : string) : pyfloat :=
  match number_field W 2 raw with
  | Some f => f
  | None => Fin 0
  end.

(** The sell percentage of a line: 100 unless a number within [0, 100]
    is given. *)
Definition percentage_of (W : World) (raw : string) : pyfloat :=
  match number_field W 3 raw with
  | Some f => if flt f (Fin 0) || fgt f (Fin 100) then Fin 100 else f
  | None => Fin 100
  end.

(** The record a valid line stands for. *)
Definition record_of (W : World) (line_num : Z) (raw : string) : wallet_info :=
  {| wi_address := strip (nth 0 (fields raw) "");
     wi_private_key := key_of raw;
     wi_purchase_amount := purchase_of W raw;
     wi_sell_percentage := percentage_of W raw;
     wi_line_num := line_num |}.

(** Neither ignored nor malformed. *)
Definition valid (W : World) (raw : string) : bool :=
  negb (ignored raw) && negb (malformed W raw).


(** A message at warning level or above. *)
Definition is_diagnostic (r : log_record) : bool :=
  match lr_level r with
  | WARNING | ERROR => true
  | INFO => false
  end.

(** A creation transaction carries no value. *)
Definition create_without_value (t : tx) : Prop :=
  is_create t = true /\ tx_value t = 0.

(** A purchase of [amount] ether: the value sent is the funds argument,
    [minAmount] is 0. *)
Definition buy_of (W : World) (amount : pyfloat) (t : tx) : Prop :=
  exists token funds,
    tx_call t = BuyTokenAMAP token funds 0 /\
    tx_value t = funds /\
    to_wei_ether W amount = inr funds.

(** What [parse_token_address_from_receipt] returns, as a function. *)
Definition token_of_receipt (W : World) (r : receipt) : pyval :=
  match decode_fails W r with
  | Some _ => VNone
  | None =>
      match filter (fun l => String.eqb (log_event l) "TokenCreate") (rc_logs r) with
      | l :: _ => VStr (log_token l)
      | [] => VNone
      end
  end.

(** The dict [_create_token_only] returns once the receipt is in. *)
Definition created (W : World) (tx_hash_hex : string) (r : receipt) : dict :=
  [("success", VBool true);
   ("tx_hash", VStr tx_hash_hex);
   ("block_number", VInt (rc_blockNumber r));
   ("gas_used", VInt (rc_gasUsed r));
   ("token_address", token_of_receipt W r);
   ("receipt", VReceipt r)].

Definition failed (msg : string) : dict :=
  [("success", VBool false); ("error", VStr msg)].

Definition lacks_creation_event (r : receipt) : Prop :=
  Forall (fun l => log_event l <> "TokenCreate") (rc_logs r).

(** ** Notions of the further properties *)

(** [int(z * c)] for an [int] z and a float literal c, or the exception
    it raises. *)
Definition with_margin (W : World) (z : Z) (c : Q) : exn + Z :=
  fst ((f <- int_times_float W z c ;; py_int f) []).

(** The gas price of a transaction: the caller's when it is given and not
    0, the node's price times 1.1 otherwise. *)
Definition priced (W : World) (gas_price : option Z) (t : tx) : Prop :=
  if not_opt gas_price then
    exists p hd, w_rpc_int W GasPrice hd = inr p /\
                 with_margin W p (11 # 10) = inr (tx_gasPrice t)
  else tx_gasPrice t = opt_value gas_price.

(** The sender is [account] and the nonce is the count of its
    transactions the node reported, pending ones included or not. *)
Definition numbered (W : World) (account : string) (pending : bool) (t : tx) : Prop :=
  tx_from t = account /\
  exists hd, w_rpc_int W (TransactionCount account pending) hd = inr (tx_nonce t).

(** What [estimate_gas] returned for the call of [t]: the node's estimate,
    or 500000 when there is no contract or the node refused to estimate. *)
Definition estimated (W : World) (bm : BlockchainManager) (t : tx) (est : Z) : Prop :=
  (est = 500000 /\
   (bm_contract bm = false \/
    exists hd e, w_rpc_int W (EstimateGas (tx_call t) (tx_from t) 0) hd = inl e)) \/
  (bm_contract bm = true /\
   exists hd, w_rpc_int W (EstimateGas (tx_call t) (tx_from t) 0) hd = inr est).

(** The gas limit of a creation: the caller's when it is given and not 0,
    the estimate times 1.2 otherwise. *)
Definition creation_gas (W : World) (bm : BlockchainManager) (gas_limit : option Z)
    (t : tx) : Prop :=
  if not_opt gas_limit then
    exists est, estimated W bm t est /\ with_margin W est (12 # 10) = inr (tx_gas t)
  else tx_gas t = opt_value gas_limit.

(** The run [d] sent one transaction, the node took it and confirmed it
    with status 1, and [res] reports that hash and that receipt. *)
Definition confirmed_by (W : World) (d : list event) (res : dict) : Prop :=
  exists t hx r hs hw,
    sends d = [t] /\
    w_send W t hs = inr hx /\
    w_wait W hx hw = inr r /\
    rc_status r = 1 /\
    dget "tx_hash" res = VStr hx /\
    dget "block_number" res = VInt (rc_blockNumber r) /\
    dget "gas_used" res = VInt (rc_gasUsed r) /\
    dget "receipt" res = VReceipt r.

Arguments with_margin : simpl never.

(** A read-only query of the node. *)
Definition is_query (e : event) : bool :=
  match e with EvRpc _ => true | _ => false end.

(** A world that differs from [W] only in what the node answers to the
    integer queries and to [_tokenInfos]. *)
Definition with_node_answers (W : World)
    (rpc : rpc_call -> history -> exn + Z)
    (infos : string -> history -> exn + list pyval) : World :=
  {| fl_round := fl_round W;
     float_of_string := float_of_string W;
     py_repr := py_repr W;
     bytes_fromhex := bytes_fromhex W;
     to_wei_ether := to_wei_ether W;
     from_wei_ether := from_wei_ether W;
     to_checksum_address := to_checksum_address W;
     address_from_key := address_from_key W;
     sign_text := sign_text W;
     decode_fails := decode_fails W;
     w_connected := w_connected W;
     w_rpc_int := rpc;
     w_decimals := w_decimals W;
     w_token_infos := infos;
     w_build := w_build W;
     w_sign := w_sign W;
     w_send := w_send W;
     w_wait := w_wait W;
     w_http := w_http W;
     w_open := w_open W;
     w_time_ms := w_time_ms W;
     w_random := w_random W |}.

(** A healthy node on which the token has left the trading phase: its
    status is STATUS_COMPLETED. *)
Definition completed_token : World :=
  with_node_answers (world_of healthy) (w_rpc_int (world_of healthy))
    (fun _ _ => inr (repeat (VInt 0) 12 ++ [VInt 2])).


(** An event on the chain side: a query of the node or a step of a
    transaction. *)
Definition is_chain_event (e : event) : bool :=
  match e with
  | EvRpc _ | EvBuild _ | EvSign _ | EvSend _ | EvWait _ => true
  | _ => false
  end.

(** The requests of a complete creation, in the order they are made. *)
Definition creation_requests (bot : FourMemeBot) (image_path : option string)
    : list (string * string) :=
  [("POST", nonce_url bot); ("POST", login_url bot)] ++
  (if truthy_path image_path then [("POST", upload_url bot)] else []) ++
  [("POST", create_url bot)].

(** [l] is a beginning of [full]. *)
Definition begins {A} (l full : list A) : Prop := exists rest, full = l ++ rest.

(** The result [create_token_complete] starts from. *)
Definition nothing_done : dict :=
  [("success", VBool false); ("api_result", VNone);
   ("blockchain_result", VNone); ("error", VNone)].

(** A runner with two images, the first of which was used. *)
Definition runner_with_images : BatchRunner :=
  {| results := []; success_count := 0; failed_count := 0;
     available_images := ["images/a.png"; "images/b.png"];
     used_images := ["images/a.png"] |}.

(** What one wallet adds to the counters: one success or one failure. *)
Definition counted (res : wallet_result) (before after : BatchRunner) : Prop :=
  if r_success res
  then success_count after = success_count before + 1 /\
       failed_count after = failed_count before
  else success_count after = success_count before /\
       failed_count after = failed_count before + 1.

(** [i], [i + 1], ... : the numbers [enumerate(wallets, i)] gives. *)
Fixpoint numbers_from (i : Z) (n : nat) : list Z :=
  match n with
  | O => []
  | S n' => i :: numbers_from (i + 1) n'
  end.

Definition failures (rs : list wallet_result) : list wallet_result :=
  filter (fun r => negb (r_success r)) rs.

Definition successes (rs : list wallet_result) : list wallet_result :=
  filter r_success rs.

(** The files a run tried to open, most recent first. *)
Fixpoint opened (d : list event) : list string :=
  match d with
  | [] => []
  | EvOpen p :: r => p :: opened r
  | _ :: r => opened r
  end.

(** ** The hexadecimal helpers of [core/blockchain_utils.py]

    [bytes.hex] writes two lower-case digits per byte.  [bytes.fromhex]
    skips ASCII white space between bytes and reads two digits of either
    case per byte; anything else is a [ValueError]. *)

Definition hex_digit (n : N) : ascii :=
  if (n <? 10)%N then ascii_of_N (48 + n) else ascii_of_N (87 + n).

Definition digit_value (c : ascii) : option N :=
  let n := N_of_ascii c in
  if ((48 <=? n) && (n <=? 57))%N then Some (n - 48)%N
  else if ((97 <=? n) && (n <=? 102))%N then Some (n - 87)%N
  else if ((65 <=? n) && (n <=? 70))%N then Some (n - 55)%N
  else None.

(** The white space [bytes.fromhex] skips: TAB..CR and the space. *)
Definition is_ascii_space (c : ascii) : bool :=
  let n := N_of_ascii c in
  ((9 <=? n) && (n <=? 13) || (n =? 32))%N.

(** [data.hex()] *)
Fixpoint hex (data : string) : string :=
  match data with
  | EmptyString => EmptyString
  | String c r =>
      String (hex_digit (N_of_ascii c / 16))
        (String (hex_digit (N_of_ascii c mod 16)) (hex r))
  end.

(** [bytes.fromhex(s)]; [None] is the [ValueError]. *)
Fixpoint fromhex (s : string) : option string :=
  match s with
  | EmptyString => Some EmptyString
  | String c r =>
      if is_ascii_space c then fromhex r
      else
        match r with
        | EmptyString => None
        | String c' r' =>
            match digit_value c, digit_value c' with
            | Some hi, Some lo =>
                match fromhex r' with
                | Some bytes => Some (String (ascii_of_N (16 * hi + lo)) bytes)
                | None => None
                end
            | _, _ => None
            end
        end
  end.

Definition bytes_to_hex (data : string) : string := "0x" +++ hex data.

Definition hex_to_bytes (hex_str : string) : option string := fromhex (remove_0x hex_str).

(** No character of [s] is an 'x'. *)
Fixpoint has_no_x (s : string) : bool :=
  match s with
  | EmptyString => true
  | String c r => negb (Ascii.eqb c "x") && has_no_x r
  end.

(** ** The configuration check of [core/utils.py]

    [len] of a [str] counts characters, not bytes: the bytes of a UTF-8
    text that do not continue a character. *)

Definition is_continuation (c : ascii) : bool :=
  let n := N_of_ascii c in ((128 <=? n) && (n <? 192))%N.

Fixpoint code_points (s : string) : nat :=
  match s with
  | EmptyString => O
  | String c r => if is_continuation c then code_points r else S (code_points r)
  end.

(** [len(v)] *)
Definition py_len (v : pyval) : exn + Z :=
  match v with
  | VStr s => inr (Z.of_nat (code_points s))
  | VList l => inr (Z.of_nat (List.length l))
  | VDict d => inr (Z.of_nat (List.length d))
  | _ => inl {| exn_cls := TypeError; exn_str := "object has no len()" |}
  end.

Definition supported_labels : list string :=
  ["Meme"; "AI"; "Defi"; "Games"; "Infra"; "De-Sci"; "Social"; "Depin"; "Charity"; "Others"].

(** [v not in supported_labels]: only a [str] equals a [str]. *)
Definition not_supported (v : pyval) : bool :=
  match v with
  | VStr s => negb (mem s supported_labels)
  | _ => true
  end.

Section Validation.
Variable W : World.

(** [if not config.get(field): errors.append(...)] *)
Definition check_required (config : dict) (field : string) : list string :=
  if negb (truthy (dget field config)) then ["缺少必填字段: " +++ field] else [].

(** [if config.get(field) and len(config[field]) > limit: errors.append(msg)] *)
Definition check_length (config : dict) (field : string) (limit : Z) (msg : string)
    : M (list string) :=
  if truthy (dget field config) then
    n <- lift (py_len (dget field config)) ;;
    ret (if limit <? n then [msg] else [])
  else ret [].

Definition check_label (config : dict) : list string :=
  if truthy (dget "label" config) && not_supported (dget "label" config)
  then ["不支持的代币分类: " +++ pystr W (dget "label" config)]
  else [].

(** [url and not url.startswith(("http://", "https://"))] *)
Definition check_url (config : dict) (field : string) : M (list string) :=
  let url := dget field config in
  if truthy url then
    match url with
    | VStr s =>
        ret (if negb (startswith "http://" s || startswith "https://" s)
             then [field +++ " 必须以 http:// 或 https:// 开头"] else [])
    | _ => raise {| exn_cls := AttributeError;
                    exn_str := "object has no attribute 'startswith'" |}
    end
  else ret [].

(** [float(v)]; [None] stands for the [ValueError] the check catches. *)
Definition py_float (v : pyval) : M (option pyfloat) :=
  match v with
  | VStr s => ret (float_of_string W s)
  | VInt z => f <- float_of_int W z ;; ret (Some f)
  | VFloat f => ret (Some f)
  | VBool b => ret (Some (Fin (if b then 1 else 0)))
  | _ => raise {| exn_cls := TypeError;
                  exn_str := "float() argument must be a string or a real number" |}
  end.

Definition check_pre_sale (config : dict) : M (list string) :=
  if truthy (dget "preSale" config) then
    parsed <- py_float (dget "preSale" config) ;;
    match parsed with
    | Some pre_sale => ret (if flt pre_sale (Fin 0) then ["预售金额不能为负数"] else [])
    | None => ret ["预售金额必须是有效数字"]
    end
  else ret [].

(** [TokenUtils.validate_token_config] *)
Definition validate_token_config (config : dict) : M (list string) :=
  let required := flat_map (check_required config) ["name"; "shortName"; "desc"] in
  name <- check_length config "name" 50 "代币名称不能超过50个字符" ;;
  short <- check_length config "shortName" 10 "代币符号不能超过10个字符" ;;
  desc <- check_length config "desc" 500 "代币描述不能超过500个字符" ;;
  let label := check_label config in
  web <- check_url config "webUrl" ;;
  twitter <- check_url config "twitterUrl" ;;
  telegram <- check_url config "telegramUrl" ;;
  pre_sale <- check_pre_sale config ;;
  ret (required ++ name ++ short ++ desc ++ label ++ web ++ twitter ++ telegram ++ pre_sale).

End Validation.

(** [TokenUtils.generate_token_config_template] *)
Definition generate_token_config_template : dict :=
  [("name", VStr "示例代币");
   ("shortName", VStr "DEMO");
   ("desc", VStr "这是一个示例代币，用于演示创建流程");
   ("label", VStr "Meme");
   ("webUrl", VStr "https://example.com");
   ("twitterUrl", VStr "https://x.com/example");
   ("telegramUrl", VStr "https://t.me/example");
   ("preSale", VStr "0")].

Definition symbol_of (base_name : string) (n : Z) : string :=
  (if (String.length base_name <=? 4)%nat then upper base_name
   else upper (substring 0 3 base_name) +++ upper (last_char base_name))
  +++ NilZero.string_of_int (Z.to_int n).

(** The configuration [create_token_config] builds from what it drew. *)
Definition generated_config (base_name suffix : string) (n : Z) (domain desc label : string)
    : dict :=
  [("name", VStr (base_name +++ " " +++ suffix));
   ("shortName", VStr (symbol_of base_name n));
   ("desc", VStr desc);
   ("label", VStr label);
   ("webUrl", VStr ("https://" +++ (lower base_name +++ domain) +++ ".com"));
   ("twitterUrl", VStr "");
   ("telegramUrl", VStr "");
   ("preSale", VStr "0")].

(** Every value of the configuration is a string. *)
Definition all_strings (config : dict) : Prop :=
  Forall (fun kv => exists s, snd kv = VStr s) config.

(** The numbers [random.randint(10, 99)] can give. *)
Definition two_digits : list Z := map (fun i => 10 + Z.of_nat i) (seq 0 90).

Definition within (limit : nat) (s : string) : bool :=
  negb (String.eqb s "") && (code_points s <=? limit)%nat.

Arguments validate_token_config : simpl never.
Arguments generated_config : simpl never.

(** ** Switching the RPC node

    [switch_rpc_node] changes the manager in place, and what it changed
    stays changed when it raises: a run gives the outcome together with the
    manager as the call leaves it. *)

(** [l.index(x)]; [None] is the [ValueError]. *)
Fixpoint index_of (x : string) (l : list string) : option nat :=
  match l with
  | [] => None
  | y :: r =>
      if String.eqb x y then Some O
      else match index_of x r with
           | Some i => Some (S i)
           | None => None
           end
  end.

Definition with_rpc_url (bm : BlockchainManager) (url : string) : BlockchainManager :=
  {| bm_private_key := bm_private_key bm; bm_rpc_url := url;
     bm_account := bm_account bm; bm_contract := bm_contract bm |}.

Definition with_account (bm : BlockchainManager) (account : string) : BlockchainManager :=
  {| bm_private_key := bm_private_key bm; bm_rpc_url := bm_rpc_url bm;
     bm_account := account; bm_contract := bm_contract bm |}.

Definition with_contract (bm : BlockchainManager) : BlockchainManager :=
  {| bm_private_key := bm_private_key bm; bm_rpc_url := bm_rpc_url bm;
     bm_account := bm_account bm; bm_contract := true |}.

(** A computation on a manager: the outcome, the manager afterwards, the
    events. *)
Definition on_manager : Type :=
  BlockchainManager -> history -> (option exn * BlockchainManager) * list event.

(** [self._initialize_connection()] on a manager that exists. *)
Definition reinitialize_connection (W : World) : on_manager :=
  fun bm h =>
    match w_connected W h with
    | inl e => (Some e, bm, [EvRpc IsConnected])
    | inr false => (Some (Exception "无法连接到区块链网络"), bm, [EvRpc IsConnected])
    | inr true =>
        match address_from_key W (bm_private_key bm) with
        | inl e => (Some e, bm, [EvRpc IsConnected])
        | inr account =>
            let bm := with_account bm account in
            let abi := load_abi W (EvRpc IsConnected :: h) in
            let bm := with_contract bm in
            let d := snd abi ++ [EvRpc IsConnected] in
            match w_rpc_int W BlockNumber (d ++ h) with
            | inl e => (Some e, bm, EvRpc BlockNumber :: d)
            | inr _ => (None, bm, EvRpc BlockNumber :: d)
            end
        end
    end.

Definition switch_rpc_node (W : World) : on_manager :=
  fun bm h =>
    match index_of (bm_rpc_url bm) BSC_RPC_URLS with
    | None => (Some {| exn_cls := ValueError; exn_str := "is not in list" |}, bm, [])
    | Some current_index =>
        let next_index := ((current_index + 1) mod List.length BSC_RPC_URLS)%nat in
        reinitialize_connection W (with_rpc_url bm (nth next_index BSC_RPC_URLS "")) h
    end.

(** The manager as a run leaves it. *)
Definition manager_after (r : (option exn * BlockchainManager) * list event)
    : BlockchainManager := snd (fst r).

Definition outcome (r : (option exn * BlockchainManager) * list event) : option exn :=
  fst (fst r).

Arguments float_of_int : simpl never.
Arguments py_int : simpl never.
Arguments int_times_float : simpl never.
Arguments float_times_int : simpl never.
Arguments py_truediv : simpl never.
Arguments int_truediv : simpl never.
Arguments pystr : simpl never.
Arguments settle_gas_price : simpl never.
Arguments estimate_gas : simpl never.
Arguments submit : simpl never.
Arguments wait_for_transaction : simpl never.
Arguments parse_token_address_from_receipt : simpl never.
Arguments _create_token_only : simpl never.
Arguments _buy_token : simpl never.
Arguments create_token_on_chain : simpl never.
Arguments get_token_balance : simpl never.
Arguments get_token_status : simpl never.
Arguments _sell_token : simpl never.
Arguments approve_token : simpl never.
Arguments sell_token_complete : simpl never.
Arguments BlockchainManager_init : simpl never.
Arguments FourMemeBot_init : simpl never.
Arguments get_balance : simpl never.
Arguments get_wallet_balance : simpl never.
Arguments login : simpl never.
Arguments upload_image : simpl never.
Arguments create_token : simpl never.
Arguments create_token_complete : simpl never.
Arguments create_token_complete_deploy : simpl never.
Arguments create_token_config : simpl never.
Arguments _get_random_image : simpl never.
Arguments sell_token : simpl never.
Arguments follow_up_buy : simpl never.
Arguments final_sell : simpl never.
Arguments process_wallet : simpl never.
Arguments make_request_once : simpl never.
Arguments load_line : simpl never.
Arguments requests_to : simpl never.
Arguments nonce_url : simpl never.
Arguments login_url : simpl never.
Arguments upload_url : simpl never.
Arguments create_url : simpl never.
Arguments base_units : simpl never.
Arguments status_name_of : simpl never.
Arguments flt : simpl never.
Arguments fle : simpl never.
Arguments fgt : simpl never.
Arguments sends : simpl never.
Arguments token_of_receipt : simpl never.
Arguments String.append : simpl never.
Arguments Z.mul : simpl never.
Arguments Z.div : simpl never.
Arguments Z.pow : simpl never.
Arguments Z.quot : simpl never.

(** ** Symbolic execution

    [run_all] follows a computation through every answer the world can
    give: it splits on the innermost undecided test and simplifies. *)

Ltac unfold_m :=
  unfold bind, try_catch, ret, raise, ask, lift, failure, refused in *.

Ltac case_step :=
  match goal with
  | |- context [match ?x with _ => _ end] =>
      lazymatch x with
      | context [match _ with _ => _ end] => fail
      | _ => destruct x eqn:?
      end
  end.

Ltac run_all := unfold_m; cbn; repeat (case_step; cbn).

Ltac unfold_chain :=
  unfold replace_0x, as_address, checksum, settle_gas_price, estimate_gas, submit,
    wait_for_transaction, int_times_float, float_times_int, float_of_int, py_int,
    get_gas_price, rpc_int, call_decimals, build_transaction, sign_transaction,
    send_raw_transaction, py_truediv, int_truediv, py_add, py_index in *.

(** ** Events and appended runs *)

Lemma txs_app (d1 d2 : list event) : txs (d1 ++ d2) = txs d1 ++ txs d2.
Proof.
  induction d1 as [|e d1 IH]; cbn; [reflexivity|].
  destruct (tx_of e); cbn; now rewrite IH.
Qed.

Lemma sent_app (d1 d2 : list event) :
  sent_newest_first (d1 ++ d2) = sent_newest_first d1 ++ sent_newest_first d2.
Proof.
  induction d1 as [|e d1 IH]; cbn; [reflexivity|].
  destruct e; cbn; now rewrite ?IH.
Qed.

(** The later run's events sit in front: its transactions come last. *)
Lemma sends_app (later earlier : list event) :
  sends (later ++ earlier) = sends earlier ++ sends later.
Proof. unfold sends. now rewrite sent_app, rev_app_distr. Qed.

Lemma txs_nil_sends (d : list event) : txs d = [] -> sends d = [].
Proof.
  unfold sends. induction d as [|e d IH]; cbn; [reflexivity|].
  destruct e; cbn; try discriminate; auto.
Qed.

(** ** The receipt parser *)

Lemma parse_token_address_run (W : World) (r : receipt) (h : history) :
  parse_token_address_from_receipt W r h = (inr (token_of_receipt W r), []).
Proof.
  unfold parse_token_address_from_receipt, process_receipt, token_of_receipt.
  run_all; reflexivity.
Qed.

Lemma token_of_receipt_none (W : World) (r : receipt) :
  lacks_creation_event r -> token_of_receipt W r = VNone.
Proof.
  unfold lacks_creation_event, token_of_receipt. intros H.
  destruct (decode_fails W r); [reflexivity|].
  induction H as [|l ls Hl _ IH]; cbn; [reflexivity|].
  destruct (String.eqb_spec (log_event l) "TokenCreate"); [contradiction|exact IH].
Qed.

(** ** Shapes of the chain client's results *)

Lemma _create_token_only_result (W : World) bm create_arg signature gas_limit gas_price h :
  exists d,
    (exists msg, _create_token_only W bm create_arg signature gas_limit gas_price h
                 = (inr (failed msg), d) /\ sends d = [] \/
                 exists tc, _create_token_only W bm create_arg signature gas_limit gas_price h
                 = (inr (failed msg), d) /\ sends d = [tc] /\ is_create tc = true) \/
    (exists hx r tc,
        _create_token_only W bm create_arg signature gas_limit gas_price h
        = (inr (created W hx r), d) /\ rc_status r = 1 /\
        sends d = [tc] /\ is_create tc = true).
Proof.
  unfold _create_token_only. unfold_chain. unfold_m. cbn.
  repeat (first [rewrite parse_token_address_run | case_step]; cbn).
  all: eexists.
  all: first
    [ left; eexists; left; split; [reflexivity|reflexivity]
    | left; eexists; right; eexists; split; [reflexivity|split; reflexivity]
    | right; do 3 eexists; split; [reflexivity|];
      split; [apply Z.eqb_eq; eassumption|split; reflexivity] ].
Qed.

Lemma _create_token_only_txs (W : World) bm create_arg signature gas_limit gas_price h :
  Forall create_without_value
    (txs (snd (_create_token_only W bm create_arg signature gas_limit gas_price h))).
Proof.
  unfold _create_token_only. unfold_chain. unfold_m. cbn.
  repeat (first [rewrite parse_token_address_run | case_step]; cbn).
  all: repeat constructor.
Qed.

Ltac all_buys :=
  cbn; repeat (apply Forall_cons;
               [unfold buy_of; cbn; do 2 eexists; repeat split; eassumption|]);
  apply Forall_nil.

Lemma _buy_token_result (W : World) bm token purchase_amount gas_price h :
  exists d,
    ((exists msg, _buy_token W bm token purchase_amount gas_price h = (inr (failed msg), d) /\
                  (sends d = [] \/ exists tb, sends d = [tb] /\ is_buy tb = true)) \/
     (exists hx r tb, _buy_token W bm token purchase_amount gas_price h
                      = (inr (confirmed hx r), d) /\
                      sends d = [tb] /\ is_buy tb = true)) /\
    Forall (buy_of W purchase_amount) (txs d).
Proof.
  unfold _buy_token. unfold_chain. run_all.
  all: eexists; split;
    [ first
        [ left; eexists; split; [reflexivity|left; reflexivity]
        | left; eexists; split; [reflexivity|right; eexists; split; reflexivity]
        | right; do 3 eexists; split; [reflexivity|split; reflexivity] ]
    | all_buys ].
Qed.

(** ** Creation and purchase *)

Lemma Forall_left {A} (P Q : A -> Prop) l : Forall P l -> Forall (fun t => P t \/ Q t) l.
Proof. intros H. eapply Forall_impl; [|exact H]. intros; now left. Qed.
Lemma Forall_right {A} (P Q : A -> Prop) l : Forall Q l -> Forall (fun t => P t \/ Q t) l.
Proof. intros H. eapply Forall_impl; [|exact H]. intros; now right. Qed.

(** C6.  The creation transaction is built with value 0, whatever the
    purchase amount; a purchase is a transaction of its own, sent after the
    creation, whose value is the funds it spends; no transaction of
    [create_token_on_chain] is anything else, and it sends at most one
    creation followed by at most one purchase. *)
Theorem creation_and_purchase_are_separate (W : World) bm create_arg signature token
    purchase_amount gas_limit gas_price h :
  Forall create_without_value
    (txs (snd (_create_token_only W bm create_arg signature gas_limit gas_price h))) /\
  Forall (buy_of W purchase_amount)
    (txs (snd (_buy_token W bm token purchase_amount gas_price h))) /\
  Forall (fun t => create_without_value t \/ buy_of W purchase_amount t)
    (txs (snd (create_token_on_chain W bm create_arg signature purchase_amount
                 gas_limit gas_price h))) /\
  (sends (snd (create_token_on_chain W bm create_arg signature purchase_amount
                 gas_limit gas_price h)) = [] \/
   (exists tc,
       sends (snd (create_token_on_chain W bm create_arg signature purchase_amount
                     gas_limit gas_price h)) = [tc] /\ is_create tc = true) \/
   (exists tc tb,
       sends (snd (create_token_on_chain W bm create_arg signature purchase_amount
                     gas_limit gas_price h)) = [tc; tb] /\
       is_create tc = true /\ is_buy tb = true)).
Proof.
  split; [apply _create_token_only_txs|].
  split.
  { destruct (_buy_token_result W bm token purchase_amount gas_price h)
      as (d & [(msg & E & _)|(hx & r & tb & E & _)] & F); rewrite E; exact F. }
  pose proof (_create_token_only_txs W bm create_arg signature gas_limit gas_price h) as Ftx.
  unfold create_token_on_chain. unfold_m.
  destruct (bm_contract bm); cbn; [|split; [constructor|left; reflexivity]].
  destruct (_create_token_only_result W bm create_arg signature gas_limit gas_price h)
    as (d1 & [(msg & [(E & S)|(tc & E & S & C)])|(hx & r & tc & E & St & S & C)]);
    rewrite E in *; cbn in *.
  - rewrite ?app_nil_r; split; [now apply Forall_left|now left].
  - rewrite ?app_nil_r; split; [now apply Forall_left|right; left; eauto].
  - destruct (truthy (token_of_receipt W r)); cbn.
    2:{ rewrite ?app_nil_r; split; [now apply Forall_left|right; left; eauto]. }
    destruct (fgt purchase_amount (Fin 0)); cbn.
    2:{ rewrite ?app_nil_r; split; [now apply Forall_left|right; left; eauto]. }
    destruct (_buy_token_result W bm (token_of_receipt W r) purchase_amount gas_price
                (d1 ++ h))
      as (d2 & [(msg & E2 & S2)|(hx2 & r2 & tb & E2 & S2 & C2)] & F2);
      rewrite E2; cbn; rewrite ?app_nil_r, ?txs_app, ?sends_app, S.
    + split; [apply Forall_app; split; [now apply Forall_right|now apply Forall_left]|].
      destruct S2 as [S2|(tb & S2 & C2)]; rewrite S2; cbn;
        [right; left; eauto|right; right; eauto].
    + split; [apply Forall_app; split; [now apply Forall_right|now apply Forall_left]|].
      rewrite S2; cbn. right; right; eauto.
Qed.

(** ** A receipt without the creation event *)

(** C7.  When the creation transaction is confirmed by a receipt whose
    logs hold no TokenCreate event, [parse_token_address_from_receipt]
    returns [None] and raises nothing, [create_token_on_chain] returns the
    failure '未获取到代币地址' having sent nothing after the creation (no
    purchase is tried with a missing address), and [create_token_complete]
    records the creation step as failed with that error. *)
Theorem missing_creation_event_fails_creation (W : World) bm create_arg signature
    purchase_amount gas_limit gas_price h cr d r :
  bm_contract bm = true ->
  _create_token_only W bm create_arg signature gas_limit gas_price h = (inr cr, d) ->
  truthy (dget "success" cr) = true ->
  dget "receipt" cr = VReceipt r ->
  lacks_creation_event r ->
  (forall h', parse_token_address_from_receipt W r h' = (inr VNone, [])) /\
  dget "token_address" cr = VNone /\
  create_token_on_chain W bm create_arg signature purchase_amount gas_limit gas_price h
  = (inr (failed "未获取到代币地址"), d) /\
  Forall create_without_value (txs d) /\
  (forall bot result api_result,
      gas_limit = None -> gas_price = None ->
      blockchain_manager bot = Some bm ->
      truthy (dget "success" api_result) = true ->
      dget "createArg" api_result = create_arg ->
      dget "signature" api_result = signature ->
      truthy create_arg = true -> truthy signature = true ->
      create_token_complete_deploy W bot result api_result true purchase_amount h
      = (inr (with_error
                (dset "blockchain_result" (VDict (failed "未获取到代币地址")) result)
                ("区块链部署失败: " +++ "未获取到代币地址")), d)).
Proof.
  intros Hc E Hs Hr Hl.
  pose proof (_create_token_only_txs W bm create_arg signature gas_limit gas_price h) as Ftx.
  destruct (_create_token_only_result W bm create_arg signature gas_limit gas_price h)
    as (d1 & [(msg & [(E1 & _)|(tc & E1 & _)])|(hx & r1 & tc & E1 & _)]);
    rewrite E1 in E; inversion E; subst cr d1; clear E; try discriminate Hs.
  cbn in Hr. inversion Hr; subst r1; clear Hr.
  pose proof (token_of_receipt_none W r Hl) as Hn.
  assert (Hrun : create_token_on_chain W bm create_arg signature purchase_amount
                   gas_limit gas_price h
                 = (inr (failed "未获取到代币地址"), d)).
  { unfold create_token_on_chain. unfold_m. rewrite Hc. cbn. rewrite E1. cbn. rewrite Hn. cbn.
    now rewrite ?app_nil_r. }
  repeat split.
  - intros h'. rewrite parse_token_address_run, Hn. reflexivity.
  - cbn. exact Hn.
  - exact Hrun.
  - rewrite E1 in Ftx. exact Ftx.
  - intros bot result api_result -> -> Hb Ha <- <- Tc Ts.
    unfold create_token_complete_deploy, deploy_to_blockchain. unfold_m.
    destruct api_result as [|kv api]; [discriminate Ha|].
    cbn [truthy negb orb]. rewrite Ha, Hb, Tc, Ts. cbn. rewrite Hrun. cbn.
    now rewrite ?app_nil_r.
Qed.

Lemma missing_creation_event_witness :
  (bm_contract manager0 = true /\
   lacks_creation_event receipt_without_event /\
   _create_token_only (world_of no_event) manager0 (VStr "0xa1") (VStr "0xb2") None None []
   = (inr (created (world_of no_event) "0xc0" receipt_without_event),
      snd (_create_token_only (world_of no_event) manager0 (VStr "0xa1") (VStr "0xb2")
             None None []))) /\
  create_token_on_chain (world_of no_event) manager0 (VStr "0xa1") (VStr "0xb2")
    (Fin (1 # 100)) None None []
  = (inr (failed "未获取到代币地址"),
     snd (_create_token_only (world_of no_event) manager0 (VStr "0xa1") (VStr "0xb2")
            None None [])).
Proof.
  assert (Hl : lacks_creation_event receipt_without_event).
  { repeat constructor. cbn. discriminate. }
  assert (Hrun : _create_token_only (world_of no_event) manager0 (VStr "0xa1")
                   (VStr "0xb2") None None []
                 = (inr (created (world_of no_event) "0xc0" receipt_without_event),
                    snd (_create_token_only (world_of no_event) manager0 (VStr "0xa1")
                           (VStr "0xb2") None None []))).
  { vm_compute. reflexivity. }
  split; [split; [reflexivity|split; [exact Hl|exact Hrun]]|].
  apply (missing_creation_event_fails_creation (world_of no_event) manager0
           (VStr "0xa1") (VStr "0xb2") (Fin (1 # 100)) None None []
           (created (world_of no_event) "0xc0" receipt_without_event)
           (snd (_create_token_only (world_of no_event) manager0 (VStr "0xa1")
                   (VStr "0xb2") None None []))
           receipt_without_event eq_refl Hrun eq_refl eq_refl Hl).
Defined.

(** ** Steps of [process_wallet] that cannot fail *)

Lemma requests_app d1 d2 : requests (d1 ++ d2) = requests d1 ++ requests d2.
Proof.
  induction d1 as [|e d1 IH]; cbn; [reflexivity|].
  destruct e; cbn; now rewrite ?IH.
Qed.

Lemma FourMemeBot_init_run (W : World) key address enable h :
  exists bot d,
    FourMemeBot_init W key address enable h = (inr bot, d) /\
    txs d = [] /\ requests d = [].
Proof.
  unfold FourMemeBot_init, BlockchainManager_init, _initialize_connection, load_abi,
    abi_paths, rpc_int.
  run_all.
  all: do 2 eexists; split; [reflexivity|split; reflexivity].
Qed.

Lemma get_wallet_balance_run (W : World) bot h :
  exists o d,
    get_wallet_balance W bot h = (inr o, d) /\ txs d = [] /\ requests d = [] /\
    (blockchain_manager bot = None -> o = None) /\
    (forall bm, blockchain_manager bot = Some bm ->
                (exists e1 d1, get_balance W bm h = (inl e1, d1)) -> o = None).
Proof.
  unfold get_wallet_balance.
  destruct (blockchain_manager bot) as [bm|].
  2:{ exists None, []. cbn. repeat split; auto. }
  unfold try_catch, bind, ret.
  destruct (get_balance W bm h) as [[e|b] d] eqn:E.
  - exists None, d. cbn. rewrite ?app_nil_r.
    assert (T : txs d = [] /\ requests d = []).
    { revert E. unfold get_balance, rpc_int. run_all; intros E; inversion E; subst;
        split; reflexivity. }
    destruct T. repeat split; auto.
  - exists (Some b), d. cbn. rewrite ?app_nil_r.
    assert (T : txs d = [] /\ requests d = []).
    { revert E. unfold get_balance, rpc_int. run_all; intros E; inversion E; subst;
        split; reflexivity. }
    destruct T. repeat split; auto; try discriminate.
    intros bm' Hb (e1 & d1 & Hg). inversion Hb; subst. rewrite E in Hg. discriminate.
Qed.

Lemma _get_random_image_run (W : World) runner h :
  exists o runner' d,
    _get_random_image W runner h = (inr (o, runner'), d) /\
    results runner' = results runner /\
    success_count runner' = success_count runner /\
    failed_count runner' = failed_count runner /\
    txs d = [] /\ requests d = [].
Proof.
  unfold _get_random_image, choice.
  destruct (available_images runner); run_all.
  all: do 3 eexists; split; [reflexivity|repeat split; reflexivity].
Qed.

Lemma create_token_config_run (W : World) n h :
  exists name symbol rest d,
    create_token_config W n h
    = (inr (("name", VStr name) :: ("shortName", VStr symbol) :: rest), d) /\
    txs d = [] /\ requests d = [].
Proof.
  cbv beta iota delta [create_token_config choice randint bind ask ret app].
  do 4 eexists. split; [reflexivity|split; reflexivity].
Qed.

Lemma try_catch_total {A} (m : M A) (handler : exn -> M A) h :
  (forall e h', exists a d, handler e h' = (inr a, d)) ->
  exists a d, try_catch m handler h = (inr a, d).
Proof.
  intros H. unfold try_catch. destruct (m h) as [[e|a] d]; [|eauto].
  destruct (H e (d ++ h)) as (a & d2 & E). rewrite E. eauto.
Qed.

Lemma sell_token_complete_total (W : World) bm token pct gp h :
  exists r d, sell_token_complete W bm token pct gp h = (inr r, d).
Proof.
  unfold sell_token_complete. apply try_catch_total. intros; unfold failure, ret; eauto.
Qed.

Lemma sell_token_total (W : World) bot token pct h :
  exists r d, sell_token W bot token pct h = (inr r, d).
Proof.
  unfold sell_token. destruct (blockchain_manager bot).
  - apply sell_token_complete_total.
  - unfold refused, ret; eauto.
Qed.

Lemma login_keeps_manager (W : World) bot h v bot' d :
  login W bot h = (inr (v, bot'), d) -> blockchain_manager bot' = blockchain_manager bot.
Proof.
  unfold login, generate_nonce, sign_message, http, raise_for_status, json_object,
    response_json.
  run_all; intros E; inversion E; reflexivity.
Qed.

Lemma create_token_complete_run (W : World) bot cfg img deploy pa h :
  exists res bot' d,
    create_token_complete W bot cfg img deploy pa h = (inr (res, bot'), d) /\
    blockchain_manager bot' = blockchain_manager bot.
Proof.
  unfold create_token_complete. unfold try_catch at 1. unfold bind at 1.
  destruct (login W bot h) as [[e|[v bot1]] d] eqn:E.
  - cbn. do 3 eexists. split; reflexivity.
  - apply login_keeps_manager in E. cbn [snd fst].
    match goal with
    | |- context [try_catch ?m ?k (d ++ h)] =>
        destruct (try_catch_total m k (d ++ h)) as ([res b2] & d2 & E2)
    end.
    { intros; unfold ret; eauto. }
    rewrite E2.
    (* the bot the inner block returns is the logged-in one *)
    assert (b2 = bot1).
    { revert E2. unfold try_catch, bind, ret.
      repeat (case_step; cbn); intros E2; inversion E2; reflexivity. }
    subst b2. do 3 eexists. split; [reflexivity|exact E].
Qed.

Lemma follow_up_buy_cases (W : World) bot w cr result h bm :
  blockchain_manager bot = Some bm ->
  exists d,
    follow_up_buy W bot w cr result h = (inr result, d) \/
    exists v, follow_up_buy W bot w cr result h
              = (inr (add_step (set_buy_tx result v) "token_bought"), d).
Proof.
  intros Hb. unfold follow_up_buy. rewrite Hb.
  destruct (fgt (wi_purchase_amount w) (Fin 0)); [|unfold ret; eauto].
  destruct (dhas "purchase_tx" cr); cbn; [unfold ret; eauto|].
  unfold bind.
  destruct (_buy_token_result W bm (r_token_address result) (wi_purchase_amount w) None h)
    as (d & [(msg & E & _)|(hx & r & tb & E & _)] & _); rewrite E; cbn; eauto.
Qed.

Lemma final_sell_cases (W : World) bot w result h :
  exists d,
    final_sell W bot w result h = (inr result, d) \/
    exists v, final_sell W bot w result h
              = (inr (add_step (set_sell_tx result v) "token_sold"), d).
Proof.
  unfold final_sell.
  destruct (fgt (wi_sell_percentage w) (Fin 0)); [|unfold ret; eauto].
  unfold bind.
  destruct (sell_token_total W bot (r_token_address result) (wi_sell_percentage w) h)
    as (r & d & E). rewrite E.
  destruct (truthy (VDict r) && truthy (dget "success" r)); cbn; eauto.
Qed.

Lemma process_wallet_cases (W : World) runner w n total h :
  exists res runner' d,
    process_wallet W runner w n total h = (inr (res, runner'), d) /\
    results runner' = results runner /\
    wallet_outcome w n res.
Proof.
  unfold process_wallet, guarded. unfold_m. cbn.
  destruct (FourMemeBot_init_run W (wi_private_key w) (wi_address w) true h)
    as (bot & d0 & E0 & _). rewrite E0. cbn.
  destruct (get_wallet_balance_run W bot (d0 ++ h)) as (o & d1 & E1 & _ & _ & Hnone & _).
  rewrite E1. cbn.
  destruct o as [b|]; cbn.
  2:{ do 3 eexists. split; [reflexivity|split; [reflexivity|constructor]]. }
  destruct (flt b (fl_round W (1 # 100))); cbn.
  { do 3 eexists. split; [reflexivity|split; [reflexivity|constructor]]. }
  destruct (blockchain_manager bot) as [bm|] eqn:Hb;
    [|specialize (Hnone eq_refl); discriminate].
  match goal with
  | |- context [create_token_config W n ?hh] =>
      destruct (create_token_config_run W n hh) as (name & symbol & rest & d2 & E2 & _)
  end.
  rewrite E2. cbn.
  match goal with
  | |- context [_get_random_image W runner ?hh] =>
      destruct (_get_random_image_run W runner hh)
        as (img & runner1 & d3 & E3 & R3 & _)
  end.
  rewrite E3. cbn.
  match goal with
  | |- context [create_token_complete W bot ?cfg img true ?pa ?hh] =>
      destruct (create_token_complete_run W bot cfg img true pa hh)
        as (cr & bot1 & d4 & E4 & Hb1)
  end.
  rewrite E4. cbn. rewrite Hb in Hb1.
  destruct (truthy (dget "success" cr)); cbn.
  2:{ do 3 eexists. split; [reflexivity|split; [cbn; exact R3|constructor]]. }
  match goal with
  | |- context [follow_up_buy W bot1 w cr ?res ?hh] =>
      pose proof (follow_up_buy_cases W bot1 w cr res hh bm Hb1) as Hbuy
  end.
  destruct Hbuy as (d5 & Hbuy).
  match goal with
  | |- context [follow_up_buy W bot1 w cr ?res ?hh] =>
      remember res as at_creation eqn:Hcreated
  end.
  destruct Hbuy as [E5|(v & E5)]; rewrite E5; cbn.
  - destruct (truthy (r_buy_tx at_creation)); cbn;
      (match goal with
       | |- context [final_sell W bot1 w at_creation ?hh] =>
           destruct (final_sell_cases W bot1 w at_creation hh) as (d6 & Hsell)
       end);
      (destruct Hsell as [E6|(v6 & E6)]; rewrite E6; cbn);
      (do 3 eexists; split; [reflexivity|split; [cbn; exact R3|]]);
      (eapply Completed; [exact Hcreated|left; reflexivity|eauto]).
  - destruct (truthy v); cbn;
      (match goal with
       | |- context [final_sell W bot1 w ?res ?hh] =>
           destruct (final_sell_cases W bot1 w res hh) as (d6 & Hsell)
       end);
      (destruct Hsell as [E6|(v6 & E6)]; rewrite E6; cbn);
      (do 3 eexists; split; [reflexivity|split; [cbn; exact R3|]]);
      (eapply Completed; [exact Hcreated|right; eauto|eauto]).
Qed.

(** ** The batch goes on; the balance floor *)

Lemma run_batch_loop_results (W : World) wallets :
  forall runner i n delay h,
  exists runner' d new,
    run_batch_loop W runner wallets i n delay h = (inr runner', d) /\
    results runner' = results runner ++ new /\
    List.length new = List.length wallets.
Proof.
  induction wallets as [|w rest IH]; intros runner i n delay h.
  - exists runner, [], []. cbn. now rewrite app_nil_r.
  - cbn [run_batch_loop]. unfold bind at 1.
    destruct (process_wallet_cases W runner w i n h) as (res & runner1 & d & E & R & _).
    rewrite E. cbn [fst snd].
    unfold bind at 1, sleep, ask, ret.
    destruct ((i <? n) && (0 <? delay)); cbn [app];
      (match goal with
       | |- context [run_batch_loop W ?r rest ?j n delay ?hh] =>
           destruct (IH r j n delay hh) as (runner' & d' & new & E' & R' & L')
       end);
      rewrite E'; do 2 eexists; exists (res :: new);
      (split; [reflexivity|]);
      (split; [rewrite R'; cbn; rewrite R, <- app_assoc; reflexivity|cbn; now rewrite L']).
Qed.

(** C5.  A wallet whose balance compares below 0.01 makes [process_wallet]
    stop at once: the result is failed and carries the insufficient-funds
    text, no step is recorded ([steps_completed] is empty, so nothing beyond
    the balance check), no transaction was built, signed or sent and no HTTP
    request made; [run_batch_loop] records this result and goes on with the
    remaining wallets. *)
Theorem low_balance_aborts_wallet (W : World) runner w wallet_num total h bot d0 b d1 :
  FourMemeBot_init W (wi_private_key w) (wi_address w) true h = (inr bot, d0) ->
  get_wallet_balance W bot (d0 ++ h) = (inr (Some b), d1) ->
  flt b (fl_round W (1 # 100)) = true ->
  let res := set_error (initial_result w wallet_num)
               ("钱包余额不足: " +++ pystr W (VFloat b) +++ " BNB < 0.01 BNB") in
  process_wallet W runner w wallet_num total h = (inr (res, count_failed runner), d1 ++ d0) /\
  r_success res = false /\
  r_steps_completed res = [] /\
  txs (d1 ++ d0) = [] /\
  requests (d1 ++ d0) = [] /\
  forall rest delay,
  exists runner' d later,
    run_batch_loop W runner (w :: rest) wallet_num total delay h = (inr runner', d) /\
    results runner' = results runner ++ res :: later /\
    List.length later = List.length rest.
Proof.
  intros E0 E1 Hlow res.
  assert (Hrun : process_wallet W runner w wallet_num total h
                 = (inr (res, count_failed runner), d1 ++ d0)).
  { unfold process_wallet, guarded. unfold_m. cbn. rewrite E0. cbn. rewrite E1. cbn.
    rewrite Hlow. cbn. reflexivity. }
  split; [exact Hrun|]. split; [reflexivity|]. split; [reflexivity|].
  destruct (FourMemeBot_init_run W (wi_private_key w) (wi_address w) true h)
    as (bot' & d0' & E0' & T0 & Q0).
  rewrite E0 in E0'. inversion E0'; subst bot' d0'.
  destruct (get_wallet_balance_run W bot (d0 ++ h)) as (o & d1' & E1' & T1 & Q1 & _).
  rewrite E1 in E1'. inversion E1'; subst o d1'.
  split; [now rewrite txs_app, T0, T1|]. split; [now rewrite requests_app, Q0, Q1|].
  intros rest delay. cbn [run_batch_loop]. unfold bind at 1. rewrite Hrun. cbn [fst snd].
  unfold bind at 1, sleep, ask, ret.
  destruct ((wallet_num <? total) && (0 <? delay)); cbn [app];
    (match goal with
     | |- context [run_batch_loop W ?r rest ?j total delay ?hh] =>
         destruct (run_batch_loop_results W rest r j total delay hh)
           as (runner' & d' & new & E' & R' & L')
     end);
    rewrite E'; do 2 eexists; exists new;
    (split; [reflexivity|]);
    (split; [rewrite R'; cbn; rewrite <- app_assoc; reflexivity|exact L']).
Qed.

Lemma low_balance_witness :
  flt (Fin (inject_Z (10 ^ 15) / inject_Z (10 ^ 18))) (fl_round (world_of poor) (1 # 100))
  = true /\
  exists res d,
    process_wallet (world_of poor) fresh_runner (wallet (Fin (1 # 100)) (Fin 100)) 1 1 []
    = (inr (res, count_failed fresh_runner), d) /\
    r_success res = false /\ r_steps_completed res = [] /\ txs d = [].
Proof.
  split; [vm_compute; reflexivity|].
  pose proof (low_balance_aborts_wallet (world_of poor) fresh_runner
                (wallet (Fin (1 # 100)) (Fin 100)) 1 1 []
                (bot_with (Some manager0))
                (snd (FourMemeBot_init (world_of poor) "0x11" "0xWallet" true []))
                (Fin (inject_Z (10 ^ 15) / inject_Z (10 ^ 18)))
                (snd (get_wallet_balance (world_of poor) (bot_with (Some manager0))
                        (snd (FourMemeBot_init (world_of poor) "0x11" "0xWallet" true [])
                         ++ [])))) as H.
  cbv zeta in H.
  destruct H as (Hrun & Hs & Hsteps & Htx & _).
  - vm_compute. reflexivity.
  - vm_compute. reflexivity.
  - vm_compute. reflexivity.
  - do 2 eexists. split; [exact Hrun|]. split; [exact Hs|]. split; [exact Hsteps|exact Htx].
Defined.

(** ** A balance that cannot be read *)

(** C10.  When the chain manager could not be set up, or the balance query
    raises, [get_wallet_balance] returns [None] and raises nothing;
    [process_wallet] then compares [None] with 0.01, which raises a
    TypeError that its handler turns into a failed result carrying the
    type-error text (not the insufficient-funds text), with no step
    recorded and no transaction built; [run_batch_loop] goes on with the
    remaining wallets. *)
Theorem missing_balance_fails_wallet (W : World) runner w wallet_num total h bot d0 :
  FourMemeBot_init W (wi_private_key w) (wi_address w) true h = (inr bot, d0) ->
  ((exists e d, BlockchainManager_init W (wi_private_key w) h = (inl e, d)) \/
   (exists bm e d, blockchain_manager bot = Some bm /\
                   get_balance W bm (d0 ++ h) = (inl e, d))) ->
  let res := set_error (initial_result w wallet_num)
               "'<' not supported between instances of 'NoneType' and 'float'" in
  exists d1,
    get_wallet_balance W bot (d0 ++ h) = (inr None, d1) /\
    process_wallet W runner w wallet_num total h = (inr (res, count_failed runner), d1 ++ d0) /\
    r_success res = false /\
    r_steps_completed res = [] /\
    txs (d1 ++ d0) = [] /\
    forall rest delay,
    exists runner' d later,
      run_batch_loop W runner (w :: rest) wallet_num total delay h = (inr runner', d) /\
      results runner' = results runner ++ res :: later /\
      List.length later = List.length rest.
Proof.
  intros E0 Hwhy res.
  destruct (get_wallet_balance_run W bot (d0 ++ h))
    as (o & d1 & E1 & T1 & _ & Hnone & Hraise).
  assert (o = None) as ->.
  { destruct Hwhy as [(e & d & Ei)|(bm & e & d & Hb & Hg)].
    - apply Hnone. revert E0. unfold FourMemeBot_init. unfold_m. rewrite Ei. cbn.
      intros E0. inversion E0. reflexivity.
    - eapply Hraise; eauto. }
  exists d1. split; [exact E1|].
  assert (Hrun : process_wallet W runner w wallet_num total h
                 = (inr (res, count_failed runner), d1 ++ d0)).
  { unfold process_wallet, guarded. unfold_m. cbn. rewrite E0. cbn. rewrite E1. cbn.
    reflexivity. }
  split; [exact Hrun|]. split; [reflexivity|]. split; [reflexivity|].
  destruct (FourMemeBot_init_run W (wi_private_key w) (wi_address w) true h)
    as (bot' & d0' & E0' & T0 & _).
  rewrite E0 in E0'. inversion E0'; subst bot' d0'.
  split; [now rewrite txs_app, T0, T1|].
  intros rest delay. cbn [run_batch_loop]. unfold bind at 1. rewrite Hrun. cbn [fst snd].
  unfold bind at 1, sleep, ask, ret.
  destruct ((wallet_num <? total) && (0 <? delay)); cbn [app];
    (match goal with
     | |- context [run_batch_loop W ?r rest ?j total delay ?hh] =>
         destruct (run_batch_loop_results W rest r j total delay hh)
           as (runner' & d' & new & E' & R' & L')
     end);
    rewrite E'; do 2 eexists; exists new;
    (split; [reflexivity|]);
    (split; [rewrite R'; cbn; rewrite <- app_assoc; reflexivity|exact L']).
Qed.

Lemma missing_balance_witness :
  (exists e d, BlockchainManager_init (world_of offline) "0x11" [] = (inl e, d)) /\
  exists res d,
    process_wallet (world_of offline) fresh_runner (wallet (Fin (1 # 100)) (Fin 100)) 1 1 []
    = (inr (res, count_failed fresh_runner), d) /\
    r_success res = false /\
    r_error res = VStr "'<' not supported between instances of 'NoneType' and 'float'".
Proof.
  assert (Hinit : exists e d, BlockchainManager_init (world_of offline) "0x11" []
                              = (inl e, d)).
  { do 2 eexists. vm_compute. reflexivity. }
  split; [exact Hinit|].
  pose proof (missing_balance_fails_wallet (world_of offline) fresh_runner
                (wallet (Fin (1 # 100)) (Fin 100)) 1 1 []
                (bot_with None)
                (snd (FourMemeBot_init (world_of offline) "0x11" "0xWallet" true [])))
    as H.
  cbv zeta in H.
  destruct H as (d1 & _ & Hrun & Hs & _).
  - vm_compute. reflexivity.
  - left. exact Hinit.
  - do 2 eexists. split; [exact Hrun|]. split; [exact Hs|reflexivity].
Defined.

(** ** The purchase is submitted twice *)

(** C1.  With a purchase amount of 0.01 and every step succeeding,
    [process_wallet] sends one creation and then two purchases: the one of
    [create_token_on_chain] and, because the result of
    [create_token_complete] never has the key 'purchase_tx' that
    [process_wallet] tests, a second one of its own.  With a purchase amount
    of 0 the same run sends no purchase. *)
Theorem purchase_is_submitted_twice :
  let run := process_wallet (world_of healthy) fresh_runner
               (wallet (Fin (1 # 100)) (Fin 100)) 1 1 [] in
  let run0 := process_wallet (world_of healthy) fresh_runner
                (wallet (Fin 0) (Fin 100)) 1 1 [] in
  map tx_call (sends (snd run))
  = [CreateToken "a1" "b2";
     BuyTokenAMAP "0xT0" 10000000000000000 0;
     BuyTokenAMAP "0xT0" 10000000000000000 0;
     Approve "0xT0" TOKEN_MANAGER_ADDRESS 1000000000000000000000;
     SellToken "0xT0" 1000000000000000000000] /\
  List.length (filter is_buy (sends (snd run))) = 2%nat /\
  List.length (filter is_create (sends (snd run))) = 1%nat /\
  filter is_buy (sends (snd run0)) = [].
Proof. vm_compute. repeat split; reflexivity. Qed.

(** ** Partial failures *)




(** ** Percentages out of range *)

Lemma get_token_status_run (W : World) bm token h :
  exists st d, get_token_status W bm token h = (inr st, d) /\ txs d = [].
Proof.
  unfold get_token_status. unfold_chain. run_all.
  all: do 2 eexists; split; reflexivity.
Qed.

Lemma get_token_balance_run (W : World) bm token h :
  exists b d, get_token_balance W bm token h = (inr b, d) /\ txs d = [].
Proof.
  unfold get_token_balance. unfold_chain. run_all.
  all: do 2 eexists; split; reflexivity.
Qed.

Lemma fmul_nan_r rnd a : fmul rnd a NaN = NaN.
Proof. destruct a; reflexivity. Qed.

Lemma approve_token_nan (W : World) bm token gp h :
  exists msg d, approve_token W bm token NaN gp h = (inr (failed msg), d) /\ txs d = [].
Proof.
  unfold approve_token. unfold_chain. run_all.
  all: do 2 eexists; split; reflexivity.
Qed.

Lemma outside_cases p :
  inside_range p = false -> p = NaN \/ rejected_by_check p = true.
Proof.
  unfold inside_range, rejected_by_check, fgt, flt, fle, qlt.
  destruct p as [q| | |]; cbn; auto.
  destruct (Qle_bool q 0); cbn; auto.
  destruct (Qle_bool q 100); cbn; auto; discriminate.
Qed.

Lemma inside_after_loading p :
  flt p (Fin 0) = false -> fgt p (Fin 100) = false -> fgt p (Fin 0) = true ->
  inside_range p = true.
Proof.
  unfold inside_range, fgt, flt, fle, qlt.
  destruct p as [q| | |]; cbn; try discriminate.
  intros _ H1 H2. rewrite H2. cbn. now destruct (Qle_bool q 100).
Qed.

Lemma load_line_range (W : World) n raw msgs w :
  load_line W n raw = (msgs, Some w) ->
  flt (wi_sell_percentage w) (Fin 0) = false /\
  fgt (wi_sell_percentage w) (Fin 100) = false.
Proof.
  unfold load_line.
  repeat (case_step; cbn [fst snd]); intros E; inversion E; subst; cbn [wi_sell_percentage fst];
    try (split; reflexivity).
  all: match goal with
       | H : flt ?f _ || fgt ?f _ = false |- _ => apply orb_false_iff in H; exact H
       end.
Qed.

Lemma load_loop_range (W : World) lines :
  forall n wallets log,
    (forall w, In w wallets ->
               flt (wi_sell_percentage w) (Fin 0) = false /\
               fgt (wi_sell_percentage w) (Fin 100) = false) ->
    forall w, In w (fst (load_loop W lines n wallets log)) ->
              flt (wi_sell_percentage w) (Fin 0) = false /\
              fgt (wi_sell_percentage w) (Fin 100) = false.
Proof.
  induction lines as [|raw rest IH]; intros n wallets log Hall; cbn [load_loop]; [exact Hall|].
  destruct (load_line W n raw) as [msgs [w0|]] eqn:E; apply IH; [|exact Hall].
  intros w Hin. apply in_app_or in Hin. destruct Hin as [Hin|[<-|[]]]; [now apply Hall|].
  eapply load_line_range; eassumption.
Qed.

(** C3, as stated, fails: with a percentage of 150 and a token whose status
    cannot be read, the sale is refused with the status error, not with the
    invalid-percentage error. *)
Lemma percentage_error_counterexample :
  inside_range (Fin 150) = false /\
  exists d,
    sell_token_complete (world_of status_unknown) manager0 (VStr "0xT0") (Fin 150) None []
    = (inr (failed ("无法获取代币状态: " +++ "execution reverted")), d) /\
    "无法获取代币状态: " +++ "execution reverted" <> "卖出百分比必须在1-100之间".
Proof.
  split; [reflexivity|]. eexists. split; [vm_compute; reflexivity|].
  vm_compute. discriminate.
Qed.

(** C3, amended.  For every percentage outside (0, 100],
    [sell_token_complete] returns a failure and no transaction is built,
    signed or sent.  The failure is the invalid-percentage error when the
    status check passed, the balance is positive and the percentage is [<= 0]
    or [> 100]; a failed status check or an empty balance is reported
    first.  A percentage read by the loader that [process_wallet] passes on
    (it sells only when the percentage is [> 0]) lies in (0, 100]; for any
    other, [final_sell] does nothing. *)
Theorem out_of_range_percentage_sells_nothing (W : World) :
  (forall bm token p gas_price h,
      inside_range p = false ->
      exists msg d,
        sell_token_complete W bm token p gas_price h = (inr (failed msg), d) /\
        txs d = []) /\
  (forall bm token p gas_price h st d1 b d2,
      get_token_status W bm token h = (inr st, d1) ->
      truthy (dget "success" st) = true ->
      truthy (dget "can_trade" st) = true ->
      get_token_balance W bm token (d1 ++ h) = (inr b, d2) ->
      fle b (Fin 0) = false ->
      rejected_by_check p = true ->
      sell_token_complete W bm token p gas_price h
      = (inr (failed "卖出百分比必须在1-100之间"), d2 ++ d1)) /\
  (forall lines w,
      In w (fst (load_wallets_from_file W (Some lines))) ->
      fgt (wi_sell_percentage w) (Fin 0) = true ->
      inside_range (wi_sell_percentage w) = true) /\
  (forall bot w result h,
      fgt (wi_sell_percentage w) (Fin 0) = false ->
      final_sell W bot w result h = (inr result, [])).
Proof.
  repeat split.
  - intros bm token p gp h Hout.
    unfold sell_token_complete. unfold_m.
    destruct (get_token_status_run W bm token h) as (st & d1 & E1 & T1). rewrite E1. cbn.
    destruct (truthy (dget "success" st)); cbn;
      [|do 2 eexists; split; [reflexivity|rewrite ?app_nil_r; exact T1]].
    destruct (truthy (dget "can_trade" st)); cbn;
      [|do 2 eexists; split; [reflexivity|rewrite ?app_nil_r; exact T1]].
    destruct (get_token_balance_run W bm token (d1 ++ h)) as (b & d2 & E2 & T2).
    rewrite E2. cbn.
    destruct (fle b (Fin 0)); cbn;
      [do 2 eexists; split; [reflexivity|now rewrite ?app_nil_r, txs_app, T1, T2]|].
    destruct (outside_cases p Hout) as [->|Hrej].
    + replace (fle NaN (Fin 0) || fgt NaN (Fin 100)) with false by reflexivity.
      unfold py_truediv. replace (fis_zero (Fin 100)) with false by reflexivity.
      unfold_m. cbn. rewrite fmul_nan_r.
      match goal with
      | |- context [approve_token W bm token NaN gp ?hh] =>
          destruct (approve_token_nan W bm token gp hh) as (msg & d3 & E3 & T3)
      end.
      rewrite E3. cbn.
      do 2 eexists. split; [reflexivity|].
      now rewrite ?app_nil_r, !txs_app, T1, T2, T3.
    + unfold rejected_by_check in Hrej. rewrite Hrej. cbn.
      do 2 eexists. split; [reflexivity|now rewrite ?app_nil_r, txs_app, T1, T2].
  - intros bm token p gp h st d1 b d2 E1 Hs Hc E2 Hb Hrej.
    unfold sell_token_complete. unfold_m. rewrite E1. cbn. rewrite Hs, Hc. cbn.
    rewrite E2. cbn. rewrite Hb. unfold rejected_by_check in Hrej. rewrite Hrej. cbn.
    now rewrite ?app_nil_r.
  - intros lines w Hin Hpos. cbn in Hin.
    destruct (load_loop_range W lines 1 [] [] (fun w0 (F : In w0 []) => match F with end)
                w Hin) as (H1 & H2).
    now apply inside_after_loading.
  - intros bot w result h Hp. unfold final_sell. now rewrite Hp.
Qed.

Lemma out_of_range_percentage_witness :
  inside_range (Fin 150) = false /\
  exists d,
    sell_token_complete (world_of healthy) manager0 (VStr "0xT0") (Fin 150) None []
    = (inr (failed "卖出百分比必须在1-100之间"), d) /\ txs d = [].
Proof.
  split; [reflexivity|].
  destruct (proj1 (out_of_range_percentage_sells_nothing (world_of healthy))
              manager0 (VStr "0xT0") (Fin 150) None [] eq_refl) as (msg & d & E & T).
  exists d. split; [|exact T].
  rewrite E. revert E. vm_compute. intros E. inversion E. reflexivity.
Defined.

(** ** Retries *)

Lemma sleeps_app d1 d2 : sleeps (d1 ++ d2) = sleeps d1 ++ sleeps d2.
Proof.
  induction d1 as [|e d1 IH]; cbn; [reflexivity|].
  destruct e; cbn; now rewrite ?IH.
Qed.

Lemma append_eqb_false (b s1 s2 : string) :
  String.eqb s1 s2 = false -> String.eqb (b +++ s1) (b +++ s2) = false.
Proof.
  intros H. induction b as [|a b IH]; [exact H|].
  change (String.eqb (String a (b +++ s1)) (String a (b +++ s2)) = false).
  cbn. now rewrite Ascii.eqb_refl.
Qed.

Lemma nonce_is_not_login (bot : FourMemeBot) :
  String.eqb (nonce_url bot) (login_url bot) = false.
Proof. unfold nonce_url, login_url. apply append_eqb_false. reflexivity. Qed.

Lemma make_request_once_events (W : World) method url data files h :
  exists m body, snd (make_request_once W method url data files h) = [EvHttp m url body].
Proof.
  unfold make_request_once, http, raise_for_status, response_json. run_all.
  all: do 2 eexists; reflexivity.
Qed.

Lemma make_request_loop_bound (W : World) method url data files max_retries fuel :
  forall attempt h,
    let d := snd (make_request_loop W method url data files max_retries attempt fuel h) in
    (List.length (requests d) <= fuel)%nat /\
    requests_to url d = List.length (requests d) /\
    Forall (fun s => s = 1) (sleeps d) /\
    (List.length (sleeps d) <= List.length (requests d))%nat.
Proof.
  induction fuel as [|fuel IH]; intros attempt h; cbv zeta; cbn [make_request_loop].
  - cbn. repeat split; auto.
  - unfold try_catch.
    destruct (make_request_once_events W method url data files h) as (m & body & Ed).
    destruct (make_request_once W method url data files h) as [[e|v] d1]; cbn in Ed; subst d1.
    2:{ unfold requests_to. cbn. rewrite String.eqb_refl. cbn. repeat split; auto; lia. }
    destruct (exn_cls e);
      try (unfold raise, requests_to; cbn; rewrite String.eqb_refl; cbn;
           repeat split; auto; lia).
    destruct (attempt =? max_retries - 1);
      [unfold raise, requests_to; cbn; rewrite String.eqb_refl; cbn; repeat split; auto; lia|].
    unfold bind, sleep, ask. cbn [app].
    match goal with
    | |- context [make_request_loop W method url data files max_retries ?a fuel ?hh] =>
        specialize (IH a hh);
        destruct (make_request_loop W method url data files max_retries a fuel hh)
          as [r d2]
    end.
    cbn [snd] in IH. destruct IH as (B & T & F & L).
    cbn [snd]. unfold requests_to in *.
    rewrite !requests_app, !sleeps_app, !filter_app, !length_app. cbn.
    rewrite String.eqb_refl. cbn.
    repeat split; try lia.
    apply Forall_app. split; [|repeat constructor].
    apply Forall_app. split; [exact F|repeat constructor].
Qed.

(** C4, as stated, fails: [make_request] retries a POST like any other
    request.  With the API unreachable and [max_retries] = 3, one call sends
    the POST three times, one second apart. *)
Lemma post_is_retried_counterexample :
  let url := api_url "/v1/private/user/login/dex" in
  let d := snd (make_request (world_of http_down) "POST" url (VDict []) VNone 3 []) in
  requests d = [("POST", url); ("POST", url); ("POST", url)] /\
  requests_to url d = 3%nat /\
  sleeps d = [1; 1].
Proof. vm_compute. repeat split; reflexivity. Qed.

(** C4, amended.  One call of [login], [upload_image] or [create_token]
    sends at most one request to its endpoint: none of them retries.
    [make_request] retries whatever the method, GET and POST alike: one call
    sends at most [max_retries] requests, all to the same URL, with a pause
    of one second, and no other, before each new attempt. *)
Theorem side_effect_calls_post_once (W : World) :
  (forall bot h, (requests_to (login_url bot) (snd (login W bot h)) <= 1)%nat) /\
  (forall bot image_path h,
      (requests_to (upload_url bot) (snd (upload_image W bot image_path h)) <= 1)%nat) /\
  (forall bot token_config h,
      (requests_to (create_url bot) (snd (create_token W bot token_config h)) <= 1)%nat) /\
  (forall method url data files max_retries h,
      let d := snd (make_request W method url data files max_retries h) in
      (requests_to url d <= Z.to_nat max_retries)%nat /\
      requests_to url d = List.length (requests d) /\
      Forall (fun s => s = 1) (sleeps d) /\
      (List.length (sleeps d) <= List.length (requests d))%nat).
Proof.
  repeat split.
  - intros bot h.
    unfold login, generate_nonce, sign_message, http, raise_for_status, json_object,
      response_json.
    run_all; unfold requests_to; cbn;
      rewrite ?nonce_is_not_login, ?String.eqb_refl; cbn; lia.
  - intros bot image_path h.
    unfold upload_image, http, raise_for_status, json_object, response_json.
    run_all; unfold requests_to; cbn; rewrite ?String.eqb_refl; cbn; lia.
  - intros bot token_config h.
    unfold create_token, http, raise_for_status, json_object, response_json.
    run_all; unfold requests_to; cbn; rewrite ?String.eqb_refl; cbn; lia.
  - destruct (make_request_loop_bound W method url data files max_retries
                (Z.to_nat max_retries) 0 h) as (B & T & _). unfold make_request.
    rewrite T. exact B.
  - now destruct (make_request_loop_bound W method url data files max_retries
                    (Z.to_nat max_retries) 0 h) as (_ & T & _).
  - now destruct (make_request_loop_bound W method url data files max_retries
                    (Z.to_nat max_retries) 0 h) as (_ & _ & F & _).
  - now destruct (make_request_loop_bound W method url data files max_retries
                    (Z.to_nat max_retries) 0 h) as (_ & _ & _ & L).
Qed.

(** ** The sale *)

Ltac units_known :=
  unfold base_units, float_times_int, float_of_int, py_int; unfold_m;
  repeat match goal with
         | H : fl_round _ _ = _ |- _ => rewrite H; clear H
         | H : fmul _ _ _ = _ |- _ => rewrite H; clear H
         end;
  reflexivity.

Ltac all_of P :=
  cbn; repeat (apply Forall_cons;
               [unfold P; do 4 eexists;
                split; [eassumption|split; [units_known|split; [|reflexivity]]];
                try match goal with
                    | H : (Z.of_N _ =? 18) = _ |- _ => rewrite H
                    end;
                reflexivity|]);
  apply Forall_nil.

Lemma approve_token_result (W : World) bm token amount gas_price h :
  exists d,
    ((exists msg, approve_token W bm token amount gas_price h = (inr (failed msg), d) /\
                  (sends d = [] \/ exists ta, sends d = [ta] /\ is_approve ta = true)) \/
     (exists hx r ta, approve_token W bm token amount gas_price h
                      = (inr (confirmed hx r), d) /\
                      sends d = [ta] /\ is_approve ta = true)) /\
    Forall (approve_of W amount) (txs d).
Proof.
  unfold approve_token. unfold_chain. run_all.
  all: eexists; split;
    [ first
        [ left; eexists; split; [reflexivity|left; reflexivity]
        | left; eexists; split; [reflexivity|right; eexists; split; reflexivity]
        | right; do 3 eexists; split; [reflexivity|split; reflexivity] ]
    | all_of approve_of ].
Qed.

Lemma _sell_token_result (W : World) bm token amount gas_price h :
  exists d,
    ((exists msg, _sell_token W bm token amount gas_price h = (inr (failed msg), d) /\
                  (sends d = [] \/ exists ts, sends d = [ts] /\ is_sell ts = true)) \/
     (exists hx r ts, _sell_token W bm token amount gas_price h
                      = (inr (confirmed hx r), d) /\
                      sends d = [ts] /\ is_sell ts = true)) /\
    Forall (sell_of W amount) (txs d).
Proof.
  unfold _sell_token. unfold_chain. run_all.
  all: eexists; split;
    [ first
        [ left; eexists; split; [reflexivity|left; reflexivity]
        | left; eexists; split; [reflexivity|right; eexists; split; reflexivity]
        | right; do 3 eexists; split; [reflexivity|split; reflexivity] ]
    | all_of sell_of ].
Qed.

Lemma round_down_gwei (raw : Z) :
  (1000000000 | raw / 1000000000 * 1000000000) /\
  raw / 1000000000 * 1000000000 <= raw < raw / 1000000000 * 1000000000 + 1000000000.
Proof.
  split; [apply Z.divide_factor_r|].
  pose proof (Z.div_mod raw 1000000000 ltac:(lia)).
  pose proof (Z.mod_pos_bound raw 1000000000 ltac:(lia)).
  lia.
Qed.

Lemma sends_in_txs (d : list event) (t : tx) : In t (sends d) -> In t (txs d).
Proof.
  unfold sends. rewrite <- in_rev.
  induction d as [|e d IH]; cbn; [auto|].
  destruct e; cbn; auto. intros [<-|H]; auto.
Qed.

(** C8.  [_sell_token] sells the amount converted to base units by the
    token's decimals and, when they are 18, rounded down to a multiple of
    10^9 (the largest one not above it).  [sell_token_complete] sends
    nothing, or an approval, or an approval followed by a sale: a sale is
    always preceded by an approval.  When the status allows trading, the
    balance b is positive and the percentage p passes the range test, the
    amount it approves and sells is b * (p / 100). *)
Theorem sell_flow_amounts (W : World) :
  (forall bm token amount gas_price h,
      Forall (sell_of W amount) (txs (snd (_sell_token W bm token amount gas_price h)))) /\
  (forall raw,
      (1000000000 | raw / 1000000000 * 1000000000) /\
      raw / 1000000000 * 1000000000 <= raw < raw / 1000000000 * 1000000000 + 1000000000) /\
  (forall bm token p gas_price h,
      approve_then_sell (snd (sell_token_complete W bm token p gas_price h))) /\
  (forall bm token p gas_price h st d1 b d2,
      get_token_status W bm token h = (inr st, d1) ->
      truthy (dget "success" st) = true ->
      truthy (dget "can_trade" st) = true ->
      get_token_balance W bm token (d1 ++ h) = (inr b, d2) ->
      fle b (Fin 0) = false ->
      rejected_by_check p = false ->
      let amount := fmul (fl_round W) b (fdiv (fl_round W) p (Fin 100)) in
      exists res d,
        sell_token_complete W bm token p gas_price h = (inr res, d ++ d2 ++ d1) /\
        Forall (fun t => approve_of W amount t \/ sell_of W amount t) (txs d) /\
        approve_then_sell d /\
        (truthy (dget "success" res) = true ->
         dget "original_balance" res = VFloat b /\
         dget "sell_amount" res = VFloat amount /\
         exists ta ts, sends d = [ta; ts] /\ approve_of W amount ta /\ sell_of W amount ts)).
Proof.
  split; [|split; [exact round_down_gwei|split]].
  - intros bm token amount gp h.
    destruct (_sell_token_result W bm token amount gp h)
      as (d & [(msg & E & _)|(hx & r & ts & E & _)] & F); rewrite E; exact F.
  - intros bm token p gp h. unfold approve_then_sell.
    unfold sell_token_complete. unfold_m.
    destruct (get_token_status_run W bm token h) as (st & d1 & E1 & T1). rewrite E1. cbn.
    apply txs_nil_sends in T1.
    destruct (truthy (dget "success" st)); cbn; [|rewrite ?app_nil_r; now left].
    destruct (truthy (dget "can_trade" st)); cbn; [|rewrite ?app_nil_r; now left].
    destruct (get_token_balance_run W bm token (d1 ++ h)) as (b & d2 & E2 & T2).
    rewrite E2. cbn. apply txs_nil_sends in T2.
    destruct (fle b (Fin 0)); cbn; [rewrite ?app_nil_r, sends_app, T1, T2; now left|].
    destruct (fle p (Fin 0) || fgt p (Fin 100)); cbn;
      [rewrite ?app_nil_r, sends_app, T1, T2; now left|].
    unfold py_truediv. replace (fis_zero (Fin 100)) with false by reflexivity.
    unfold_m. cbn.
    match goal with
    | |- context [approve_token W bm token ?a gp ?hh] =>
        destruct (approve_token_result W bm token a gp hh)
          as (d3 & [(msg & E3 & S3)|(hx & r & ta & E3 & S3 & A3)] & _)
    end; rewrite E3; cbn.
    + rewrite ?app_nil_r, !sends_app, T1, T2. cbn.
      destruct S3 as [S3|(ta & S3 & A3)]; rewrite S3; [now left|right; left; eauto].
    + match goal with
      | |- context [_sell_token W bm token ?a gp ?hh] =>
          destruct (_sell_token_result W bm token a gp hh)
            as (d4 & [(msg & E4 & S4)|(hx4 & r4 & ts & E4 & S4 & A4)] & _)
      end; rewrite E4; cbn; rewrite ?app_nil_r, !sends_app, T1, T2, S3; cbn.
      * destruct S4 as [S4|(ts & S4 & A4)]; rewrite S4; cbn;
          [right; left; eauto|right; right; eauto].
      * rewrite S4. cbn. right; right; eauto.
  - intros bm token p gp h st d1 b d2 E1 Hs Hc E2 Hb Hrej amount.
    unfold approve_then_sell.
    unfold sell_token_complete. unfold_m. rewrite E1. cbn. rewrite Hs, Hc. cbn.
    rewrite E2. cbn. rewrite Hb. unfold rejected_by_check in Hrej. rewrite Hrej. cbn.
    unfold py_truediv. replace (fis_zero (Fin 100)) with false by reflexivity.
    unfold_m. cbn. fold amount.
    match goal with
    | |- context [approve_token W bm token amount gp ?hh] =>
        destruct (approve_token_result W bm token amount gp hh)
          as (d3 & [(msg & E3 & S3)|(hx & r & ta & E3 & S3 & A3)] & F3)
    end; rewrite E3; cbn.
    + exists (failed ("代币授权失败: " +++ msg)), d3.
      rewrite ?app_nil_r, <- ?app_assoc. split; [reflexivity|].
      split; [now apply Forall_left|]. split; [|cbn; discriminate].
      destruct S3 as [S3|(ta & S3 & A3)]; rewrite S3; [now left|right; left; eauto].
    + match goal with
      | |- context [_sell_token W bm token amount gp ?hh] =>
          destruct (_sell_token_result W bm token amount gp hh)
            as (d4 & [(msg & E4 & S4)|(hx4 & r4 & ts & E4 & S4 & A4)] & F4)
      end; rewrite E4; cbn.
      * eexists. exists (d4 ++ d3). rewrite ?app_nil_r, <- !app_assoc.
        split; [reflexivity|].
        rewrite txs_app, sends_app, S3.
        split; [apply Forall_app; split; [now apply Forall_right|now apply Forall_left]|].
        split; [|cbn; discriminate].
        destruct S4 as [S4|(ts & S4 & A4)]; rewrite S4; cbn;
          [right; left; eauto|right; right; eauto].
      * eexists. exists (d4 ++ d3). rewrite ?app_nil_r, <- !app_assoc.
        split; [reflexivity|].
        rewrite txs_app, sends_app, S3, S4.
        split; [apply Forall_app; split; [now apply Forall_right|now apply Forall_left]|].
        split; [cbn; right; right; eauto|].
        intros _. split; [reflexivity|]. split; [reflexivity|].
        exists ta, ts. split; [reflexivity|].
        split; [eapply Forall_forall; [exact F3|]|eapply Forall_forall; [exact F4|]];
          apply sends_in_txs; [rewrite S3|rewrite S4]; now left.
Qed.

Lemma sell_flow_witness :
  let W := world_of healthy in
  let status := get_token_status W manager0 (VStr "0xT0") [] in
  let balance := get_token_balance W manager0 (VStr "0xT0") (snd status ++ []) in
  (fle (value_of NaN (fst balance)) (Fin 0) = false /\
   rejected_by_check (Fin 50) = false) /\
  (exists res d,
      sell_token_complete W manager0 (VStr "0xT0") (Fin 50) None []
      = (inr res, d ++ snd balance ++ snd status) /\
      approve_then_sell d) /\
  map tx_call (sends (snd (sell_token_complete W manager0 (VStr "0xT0") (Fin 50) None [])))
  = [Approve "0xT0" TOKEN_MANAGER_ADDRESS 500000000000000000000;
     SellToken "0xT0" 500000000000000000000].
Proof.
  cbv zeta.
  split; [split; vm_compute; reflexivity|].
  split; [|vm_compute; reflexivity].
  destruct (proj2 (proj2 (proj2 (sell_flow_amounts (world_of healthy))))
              manager0 (VStr "0xT0") (Fin 50) None []
              (value_of [] (fst (get_token_status (world_of healthy) manager0
                                   (VStr "0xT0") [])))
              (snd (get_token_status (world_of healthy) manager0 (VStr "0xT0") []))
              (value_of NaN
                 (fst (get_token_balance (world_of healthy) manager0 (VStr "0xT0")
                         (snd (get_token_status (world_of healthy) manager0
                                 (VStr "0xT0") []) ++ []))))
              (snd (get_token_balance (world_of healthy) manager0 (VStr "0xT0")
                      (snd (get_token_status (world_of healthy) manager0
                              (VStr "0xT0") []) ++ []))))
    as (res & d & E & _ & O & _).
  - vm_compute. reflexivity.
  - vm_compute. reflexivity.
  - vm_compute. reflexivity.
  - vm_compute. reflexivity.
  - vm_compute. reflexivity.
  - vm_compute. reflexivity.
  - exists res, d. split; [exact E|exact O].
Defined.

(** ** Loading the wallets *)

Lemma load_line_record (W : World) n raw :
  snd (load_line W n raw) = if valid W raw then Some (record_of W n raw) else None.
Proof.
  unfold load_line, valid, ignored, malformed, key_parses, record_of, purchase_of,
    percentage_of, number_field, field, key_of, fields.
  destruct (String.eqb (strip raw) "" || startswith "#" (strip raw)); [reflexivity|].
  cbn [negb andb].
  destruct (Nat.ltb (List.length (split ";" (strip raw))) 2); [reflexivity|].
  cbn [orb].
  destruct (get_wallet_address_from_private_key W
              (if startswith "0x" (strip (nth 1 (split ";" (strip raw)) ""))
               then strip (nth 1 (split ";" (strip raw)) "")
               else "0x" +++ strip (nth 1 (split ";" (strip raw)) ""))); [reflexivity|].
  cbn [negb snd]. f_equal. f_equal.
  - destruct ((2 <? List.length (split ";" (strip raw)))%nat &&
              negb (String.eqb (strip (nth 2 (split ";" (strip raw)) "")) "")); [|reflexivity].
    destruct (float_of_string W (strip (nth 2 (split ";" (strip raw)) ""))); reflexivity.
  - destruct ((3 <? List.length (split ";" (strip raw)))%nat &&
              negb (String.eqb (strip (nth 3 (split ";" (strip raw)) "")) "")); [|reflexivity].
    destruct (float_of_string W (strip (nth 3 (split ";" (strip raw)) ""))) as [f|];
      [|reflexivity].
    destruct (flt f (Fin 0) || fgt f (Fin 100)); reflexivity.
Qed.


Lemma load_loop_wallets (W : World) lines :
  forall n wallets log,
    fst (load_loop W lines n wallets log)
    = wallets ++ map (fun nl => record_of W (fst nl) (snd nl))
                     (filter (fun nl => valid W (snd nl)) (enumerate n lines)).
Proof.
  induction lines as [|raw rest IH]; intros n wallets log; cbn [load_loop enumerate filter map].
  - now rewrite app_nil_r.
  - pose proof (load_line_record W n raw) as R. cbn [snd fst].
    destruct (load_line W n raw) as [msgs [w|]]; cbn [snd] in R;
      destruct (valid W raw); try discriminate R; rewrite IH.
    + inversion R; subst. cbn [map fst snd]. now rewrite <- app_assoc.
    + reflexivity.
Qed.



Example wallet_loading_example :
  let lines := ["# wallets"; "   ";
                "0xWallet;11;0.01;50";
                "no separator here";
                "0xWallet;zz";
                "0xWallet;0x22;abc;150";
                "0xWallet;0x33"] in
  map (fun w => (wi_line_num w, wi_private_key w, wi_purchase_amount w, wi_sell_percentage w))
      (fst (load_wallets_from_file (world_of healthy) (Some lines)))
  = [(3, "0x11", Fin (1 # 100), Fin 50);
     (6, "0x22", Fin 0, Fin 100);
     (7, "0x33", Fin 0, Fin 100)] /\
  map (fun r => (lr_level r, lr_line r))
      (filter is_diagnostic (snd (load_wallets_from_file (world_of healthy) (Some lines))))
  = [(WARNING, 4); (ERROR, 5); (WARNING, 6); (WARNING, 6)].
Proof. vm_compute. split; reflexivity. Qed.


(** ** Gas, price and nonce of the transactions *)

Ltac margin_known :=
  unfold with_margin, int_times_float, float_of_int, py_int; unfold_m;
  repeat first [ match goal with
                 | H : fl_round _ _ = _ |- _ => rewrite H
                 end
               | progress cbn [fmul fst snd app] ];
  reflexivity.

Ltac price_known :=
  unfold priced;
  match goal with
  | H : not_opt ?g = _ |- context [not_opt ?g] => rewrite H
  end;
  first [ reflexivity | do 2 eexists; split; [eassumption|margin_known] ].

Ltac number_known := unfold numbered; split; [reflexivity|eexists; eassumption].

Ltac fields_known gas :=
  cbn; repeat (apply Forall_cons;
               [split; [gas|split; [price_known|number_known]]|]);
  apply Forall_nil.

Lemma _buy_token_fields (W : World) bm token amount gas_price h :
  Forall (fun t => tx_gas t = 300000 /\ priced W gas_price t /\
                   numbered W (bm_account bm) true t)
    (txs (snd (_buy_token W bm token amount gas_price h))).
Proof.
  unfold _buy_token. unfold_chain. run_all.
  all: fields_known ltac:(reflexivity).
Qed.

Lemma _sell_token_fields (W : World) bm token amount gas_price h :
  Forall (fun t => tx_gas t = 1000000 /\ priced W gas_price t /\
                   numbered W (bm_account bm) true t)
    (txs (snd (_sell_token W bm token amount gas_price h))).
Proof.
  unfold _sell_token. unfold_chain. run_all.
  all: fields_known ltac:(reflexivity).
Qed.

Lemma approve_token_fields (W : World) bm token amount gas_price h :
  Forall (fun t => tx_gas t = 100000 /\ priced W gas_price t /\
                   numbered W (bm_account bm) true t)
    (txs (snd (approve_token W bm token amount gas_price h))).
Proof.
  unfold approve_token. unfold_chain. run_all.
  all: fields_known ltac:(reflexivity).
Qed.

Ltac estimate_known :=
  unfold estimated; cbn [tx_call tx_from];
  first [ left; split; [reflexivity|left; now apply negb_true_iff]
        | left; split; [reflexivity|right; do 2 eexists; eassumption]
        | right; split; [now apply negb_false_iff|eexists; eassumption] ].

Ltac creation_gas_known :=
  unfold creation_gas;
  match goal with
  | H : not_opt ?g = _ |- context [not_opt ?g] => rewrite H
  end;
  first [ reflexivity
        | eexists; split; [estimate_known|margin_known] ].

Lemma _create_token_only_fields (W : World) bm create_arg signature gas_limit gas_price h :
  Forall (fun t => creation_gas W bm gas_limit t /\ priced W gas_price t /\
                   numbered W (bm_account bm) false t)
    (txs (snd (_create_token_only W bm create_arg signature gas_limit gas_price h))).
Proof.
  unfold _create_token_only. unfold_chain. unfold_m. cbn.
  repeat (first [rewrite parse_token_address_run | case_step]; cbn).
  all: fields_known ltac:(creation_gas_known).
Qed.

Lemma Forall_weaken {A} (P Q : A -> Prop) (l : list A) :
  (forall x, P x -> Q x) -> Forall P l -> Forall Q l.
Proof. intros H F. eapply Forall_impl; eassumption. Qed.

(** X1.  Every purchase is built with a gas limit of 300000, every sale
    with 1000000, every approval with 100000.  A creation uses the caller's
    gas limit when one is given and is not 0; otherwise it uses
    int(estimate * 1.2), where the estimate is the node's for the very call,
    sender and value 0 of the transaction, or 500000 when there is no
    contract or the node refuses to estimate. *)
Theorem gas_limits_of_transactions (W : World) bm gas_price h :
  (forall token amount,
      Forall (fun t => tx_gas t = 300000)
        (txs (snd (_buy_token W bm token amount gas_price h)))) /\
  (forall token amount,
      Forall (fun t => tx_gas t = 1000000)
        (txs (snd (_sell_token W bm token amount gas_price h)))) /\
  (forall token amount,
      Forall (fun t => tx_gas t = 100000)
        (txs (snd (approve_token W bm token amount gas_price h)))) /\
  (forall create_arg signature gas_limit,
      Forall (creation_gas W bm gas_limit)
        (txs (snd (_create_token_only W bm create_arg signature gas_limit gas_price h)))).
Proof.
  repeat split; intros.
  - eapply Forall_weaken; [|apply _buy_token_fields]. now intros t (G & _).
  - eapply Forall_weaken; [|apply _sell_token_fields]. now intros t (G & _).
  - eapply Forall_weaken; [|apply approve_token_fields]. now intros t (G & _).
  - eapply Forall_weaken; [|apply _create_token_only_fields]. now intros t (G & _).
Qed.

(** X2.  Every transaction of the four builders carries the caller's gas
    price when one is given and is not 0, and int(node price * 1.1)
    otherwise: a gas price of 0 counts as not given. *)
Theorem gas_price_of_transactions (W : World) bm gas_price h :
  (forall create_arg signature gas_limit,
      Forall (priced W gas_price)
        (txs (snd (_create_token_only W bm create_arg signature gas_limit gas_price h)))) /\
  (forall token amount,
      Forall (priced W gas_price)
        (txs (snd (_buy_token W bm token amount gas_price h)))) /\
  (forall token amount,
      Forall (priced W gas_price)
        (txs (snd (approve_token W bm token amount gas_price h)))) /\
  (forall token amount,
      Forall (priced W gas_price)
        (txs (snd (_sell_token W bm token amount gas_price h)))) /\
  (forall t, priced W (Some 0) t <-> priced W None t).
Proof.
  repeat split; intros.
  - eapply Forall_weaken; [|apply _create_token_only_fields]. now intros t (_ & P & _).
  - eapply Forall_weaken; [|apply _buy_token_fields]. now intros t (_ & P & _).
  - eapply Forall_weaken; [|apply approve_token_fields]. now intros t (_ & P & _).
  - eapply Forall_weaken; [|apply _sell_token_fields]. now intros t (_ & P & _).
  - exact H.
  - exact H.
Qed.

(** X3.  Every transaction is sent from the manager's account.  The nonce
    of a creation is the account's transaction count without the pending
    ones; the nonce of a purchase, an approval or a sale is the count with the
    pending ones. *)
Theorem nonce_of_transactions (W : World) bm gas_price h :
  (forall create_arg signature gas_limit,
      Forall (numbered W (bm_account bm) false)
        (txs (snd (_create_token_only W bm create_arg signature gas_limit gas_price h)))) /\
  (forall token amount,
      Forall (numbered W (bm_account bm) true)
        (txs (snd (_buy_token W bm token amount gas_price h)))) /\
  (forall token amount,
      Forall (numbered W (bm_account bm) true)
        (txs (snd (approve_token W bm token amount gas_price h)))) /\
  (forall token amount,
      Forall (numbered W (bm_account bm) true)
        (txs (snd (_sell_token W bm token amount gas_price h)))).
Proof.
  repeat split; intros.
  - eapply Forall_weaken; [|apply _create_token_only_fields]. now intros t (_ & _ & P).
  - eapply Forall_weaken; [|apply _buy_token_fields]. now intros t (_ & _ & P).
  - eapply Forall_weaken; [|apply approve_token_fields]. now intros t (_ & _ & P).
  - eapply Forall_weaken; [|apply _sell_token_fields]. now intros t (_ & _ & P).
Qed.

(** ** A successful result stands for a confirmed transaction *)

Ltac receipt_known :=
  unfold confirmed_by; do 5 eexists;
  split; [reflexivity|];
  split; [eassumption|];
  split; [eassumption|];
  split; [now apply Z.eqb_eq|];
  repeat split; reflexivity.

Ltac outcome_known :=
  eexists; split; [reflexivity|];
  split; [intros Hs; first [discriminate Hs|receipt_known]
         |intros Hs; first [discriminate Hs|eexists; reflexivity]].

Lemma _buy_token_outcome (W : World) bm token amount gas_price h :
  exists res,
    fst (_buy_token W bm token amount gas_price h) = inr res /\
    (truthy (dget "success" res) = true ->
     confirmed_by W (snd (_buy_token W bm token amount gas_price h)) res) /\
    (truthy (dget "success" res) = false -> exists msg, res = failed msg).
Proof.
  unfold _buy_token. unfold_chain. run_all.
  all: outcome_known.
Qed.

Lemma _sell_token_outcome (W : World) bm token amount gas_price h :
  exists res,
    fst (_sell_token W bm token amount gas_price h) = inr res /\
    (truthy (dget "success" res) = true ->
     confirmed_by W (snd (_sell_token W bm token amount gas_price h)) res) /\
    (truthy (dget "success" res) = false -> exists msg, res = failed msg).
Proof.
  unfold _sell_token. unfold_chain. run_all.
  all: outcome_known.
Qed.

Lemma approve_token_outcome (W : World) bm token amount gas_price h :
  exists res,
    fst (approve_token W bm token amount gas_price h) = inr res /\
    (truthy (dget "success" res) = true ->
     confirmed_by W (snd (approve_token W bm token amount gas_price h)) res) /\
    (truthy (dget "success" res) = false -> exists msg, res = failed msg).
Proof.
  unfold approve_token. unfold_chain. run_all.
  all: outcome_known.
Qed.

Lemma _create_token_only_outcome (W : World) bm create_arg signature gas_limit gas_price h :
  exists res,
    fst (_create_token_only W bm create_arg signature gas_limit gas_price h) = inr res /\
    (truthy (dget "success" res) = true ->
     confirmed_by W (snd (_create_token_only W bm create_arg signature gas_limit gas_price h))
       res) /\
    (truthy (dget "success" res) = false -> exists msg, res = failed msg).
Proof.
  unfold _create_token_only. unfold_chain. unfold_m. cbn.
  repeat (first [rewrite parse_token_address_run | case_step]; cbn).
  all: outcome_known.
Qed.

(** X4.  [_create_token_only], [_buy_token], [approve_token] and
    [_sell_token] never raise.  When the result says success, exactly one
    transaction was sent, the node took it, the receipt waited for under the
    hash the node returned has status 1, and the result reports that hash
    and the block number and the gas used of that receipt.  Any other result
    is a failure with an error text. *)
Theorem successful_results_are_confirmed (W : World) bm gas_price h :
  (forall create_arg signature gas_limit,
      let run := _create_token_only W bm create_arg signature gas_limit gas_price h in
      exists res, fst run = inr res /\
        (truthy (dget "success" res) = true -> confirmed_by W (snd run) res) /\
        (truthy (dget "success" res) = false -> exists msg, res = failed msg)) /\
  (forall token amount,
      let run := _buy_token W bm token amount gas_price h in
      exists res, fst run = inr res /\
        (truthy (dget "success" res) = true -> confirmed_by W (snd run) res) /\
        (truthy (dget "success" res) = false -> exists msg, res = failed msg)) /\
  (forall token amount,
      let run := approve_token W bm token amount gas_price h in
      exists res, fst run = inr res /\
        (truthy (dget "success" res) = true -> confirmed_by W (snd run) res) /\
        (truthy (dget "success" res) = false -> exists msg, res = failed msg)) /\
  (forall token amount,
      let run := _sell_token W bm token amount gas_price h in
      exists res, fst run = inr res /\
        (truthy (dget "success" res) = true -> confirmed_by W (snd run) res) /\
        (truthy (dget "success" res) = false -> exists msg, res = failed msg)).
Proof.
  split; [|split; [|split]]; intros; cbv zeta.
  - apply _create_token_only_outcome.
  - apply _buy_token_outcome.
  - apply approve_token_outcome.
  - apply _sell_token_outcome.
Qed.

Lemma successful_results_witness :
  let W := world_of healthy in
  exists res,
    fst (_buy_token W manager0 (VStr "0xT0") (Fin (1 # 100)) None []) = inr res /\
    truthy (dget "success" res) = true /\
    confirmed_by W (snd (_buy_token W manager0 (VStr "0xT0") (Fin (1 # 100)) None [])) res.
Proof.
  cbv zeta.
  destruct (proj1 (proj2 (successful_results_are_confirmed (world_of healthy) manager0 None []))
              (VStr "0xT0") (Fin (1 # 100))) as (res & E & C & _).
  assert (S : truthy (dget "success" res) = true).
  { vm_compute in E. injection E as <-. reflexivity. }
  exists res. split; [exact E|]. split; [exact S|]. exact (C S).
Defined.

(** ** The status of a token *)






(** ** What [sell_token_complete] checks before it sells *)

(** X6.  When the status of the token cannot be read, or the token is not
    in the trading phase, [sell_token_complete] refuses the sale with the
    status error, respectively with the status name, and does nothing after
    the status query: it does not read the balance and builds no
    transaction. *)
Theorem untradable_token_is_not_sold (W : World) bm token p gas_price h st d :
  get_token_status W bm token h = (inr st, d) ->
  (truthy (dget "success" st) = false ->
   sell_token_complete W bm token p gas_price h
   = (inr (failed ("无法获取代币状态: " +++ pystr W (dget "error" st))), d)) /\
  (truthy (dget "success" st) = true ->
   truthy (dget "can_trade" st) = false ->
   sell_token_complete W bm token p gas_price h
   = (inr (failed ("代币当前状态不允许交易: " +++ pystr W (dget "status_name" st))), d)).
Proof.
  intros E. unfold sell_token_complete. unfold_m. rewrite E. cbn.
  split.
  - intros ->. cbn. now rewrite ?app_nil_r.
  - intros -> ->. cbn. now rewrite ?app_nil_r.
Qed.

Lemma untradable_token_witness :
  exists d,
    sell_token_complete completed_token manager0 (VStr "0xT0") (Fin 100) None []
    = (inr (failed ("代币当前状态不允许交易: " +++ "COMPLETED")), d) /\
    forallb is_query d = true.
Proof.
  exists (snd (get_token_status completed_token manager0 (VStr "0xT0") [])).
  split; [|vm_compute; reflexivity].
  exact (proj2 (untradable_token_is_not_sold completed_token manager0 (VStr "0xT0") (Fin 100)
                  None []
                  (value_of [] (fst (get_token_status completed_token manager0
                                       (VStr "0xT0") [])))
                  (snd (get_token_status completed_token manager0 (VStr "0xT0") []))
                  ltac:(vm_compute; reflexivity))
           ltac:(vm_compute; reflexivity) ltac:(vm_compute; reflexivity)).
Defined.

(** ** The balance of a token *)




(** ** What [create_token_on_chain] returns *)

(** X8.  Without a contract instance [create_token_on_chain] fails at once
    and asks the node nothing.  When the creation fails, or when it succeeds
    with a token address and the purchase amount is not above 0 (NaN
    included), it returns the result of [_create_token_only] as it is and
    sends nothing more.  When the creation and the purchase both succeed,
    the result is a success that keeps the hash and the token address of the
    creation, gives the purchase's hash as 'buy_tx_hash', carries no error,
    and reports as gas used the sum of the gas of the two receipts. *)
Theorem create_token_on_chain_results (W : World) bm create_arg signature purchase_amount
    gas_limit gas_price h :
  (bm_contract bm = false ->
   create_token_on_chain W bm create_arg signature purchase_amount gas_limit gas_price h
   = (inr (failed "合约实例未初始化，请检查合约地址"), [])) /\
  (forall cr d,
      bm_contract bm = true ->
      _create_token_only W bm create_arg signature gas_limit gas_price h = (inr cr, d) ->
      truthy (dget "success" cr) = false \/
      truthy (dget "token_address" cr) = true /\ fgt purchase_amount (Fin 0) = false ->
      create_token_on_chain W bm create_arg signature purchase_amount gas_limit gas_price h
      = (inr cr, d)) /\
  (forall cr d br d2,
      bm_contract bm = true ->
      _create_token_only W bm create_arg signature gas_limit gas_price h = (inr cr, d) ->
      truthy (dget "success" cr) = true ->
      truthy (dget "token_address" cr) = true ->
      fgt purchase_amount (Fin 0) = true ->
      _buy_token W bm (dget "token_address" cr) purchase_amount gas_price (d ++ h)
      = (inr br, d2) ->
      truthy (dget "success" br) = true ->
      exists g1 g2 res,
        dget "gas_used" cr = VInt g1 /\
        dget "gas_used" br = VInt g2 /\
        create_token_on_chain W bm create_arg signature purchase_amount gas_limit gas_price h
        = (inr res, d2 ++ d) /\
        dget "success" res = VBool true /\
        dget "tx_hash" res = dget "tx_hash" cr /\
        dget "buy_tx_hash" res = dget "tx_hash" br /\
        dget "token_address" res = dget "token_address" cr /\
        dget "gas_used" res = VInt (g1 + g2) /\
        dhas "error" res = false).
Proof.
  split; [|split].
  - intros Hc. unfold create_token_on_chain. unfold_m. rewrite Hc. reflexivity.
  - intros cr d Hc E H.
    unfold create_token_on_chain. unfold_m. rewrite Hc. cbn. rewrite E. cbn.
    destruct (truthy (dget "success" cr)) eqn:Hs; cbn; [|now rewrite ?app_nil_r].
    destruct H as [H|(Ht & Hf)]; [discriminate H|].
    rewrite Ht, Hf. cbn. now rewrite ?app_nil_r.
  - intros cr d br d2 Hc E Hs Ht Hf E2 Hs2.
    destruct (_create_token_only_result W bm create_arg signature gas_limit gas_price h)
      as (d1 & [(msg & [(E1 & _)|(tc & E1 & _)])|(hx & r & tc & E1 & _)]);
      rewrite E1 in E; inversion E; subst cr d1; clear E; try discriminate Hs.
    destruct (_buy_token_result W bm (dget "token_address" (created W hx r)) purchase_amount
                gas_price (d ++ h))
      as (d3 & [(msg & E3 & _)|(hx2 & r2 & tb & E3 & _)] & _);
      rewrite E3 in E2; inversion E2; subst br d3; clear E2; try discriminate Hs2.
    exists (rc_gasUsed r), (rc_gasUsed r2). eexists.
    split; [reflexivity|]. split; [reflexivity|].
    split.
    { unfold create_token_on_chain. unfold_m. rewrite Hc. cbn. rewrite E1. cbn.
      cbn in Ht. rewrite Ht, Hf. cbn. cbn in E3. rewrite E3. cbn.
      rewrite ?app_nil_r. reflexivity. }
    repeat split; reflexivity.
Qed.

Lemma create_token_on_chain_witness :
  let W := world_of healthy in
  exists res d,
    create_token_on_chain W manager0 (VStr "0xa1") (VStr "0xb2") (Fin (1 # 100)) None None []
    = (inr res, d) /\
    dget "success" res = VBool true /\
    dget "tx_hash" res = VStr "0xc0" /\
    dget "buy_tx_hash" res = VStr "0xb0" /\
    dget "gas_used" res = VInt 42000.
Proof.
  cbv zeta.
  pose (run1 := _create_token_only (world_of healthy) manager0 (VStr "0xa1") (VStr "0xb2")
                  None None []).
  pose (run2 := _buy_token (world_of healthy) manager0 (VStr "0xT0") (Fin (1 # 100)) None
                  (snd run1 ++ [])).
  destruct (proj2 (proj2 (create_token_on_chain_results (world_of healthy) manager0
                            (VStr "0xa1") (VStr "0xb2") (Fin (1 # 100)) None None []))
              (value_of [] (fst run1)) (snd run1) (value_of [] (fst run2)) (snd run2)
              eq_refl
              ltac:(vm_compute; reflexivity) ltac:(vm_compute; reflexivity)
              ltac:(vm_compute; reflexivity) ltac:(vm_compute; reflexivity)
              ltac:(vm_compute; reflexivity) ltac:(vm_compute; reflexivity))
    as (g1 & g2 & res & G1 & G2 & E & S & Hx & Hb & _ & G & _).
  exists res, (snd run2 ++ snd run1).
  split; [exact E|]. split; [exact S|].
  split; [rewrite Hx; vm_compute; reflexivity|].
  split; [rewrite Hb; vm_compute; reflexivity|].
  rewrite G. vm_compute in G1, G2.
  injection G1 as <-. injection G2 as <-. reflexivity.
Defined.

(** ** The ends of the retry loop *)

Lemma make_request_loop_exhausted (W : World) method url data files max_retries
    (Hfail : forall h, exists e d,
        make_request_once W method url data files h = (inl e, d) /\
        exn_cls e = RequestException) (fuel : nat) :
  forall attempt h,
    attempt + Z.of_nat (S fuel) = max_retries ->
    exists e d,
      make_request_loop W method url data files max_retries attempt (S fuel) h = (inl e, d) /\
      exn_cls e = RequestException /\
      List.length (requests d) = S fuel /\
      List.length (sleeps d) = fuel.
Proof.
  induction fuel as [|fuel IH]; intros attempt h Hsum.
  - destruct (Hfail h) as (e & d & E & C).
    destruct (make_request_once_events W method url data files h) as (m & body & Ed).
    rewrite E in Ed. cbn in Ed. subst d.
    exists e. eexists. cbn [make_request_loop]. unfold try_catch. rewrite E, C.
    replace (attempt =? max_retries - 1) with true by (symmetry; apply Z.eqb_eq; lia).
    unfold raise. cbn. split; [reflexivity|]. split; [reflexivity|]. split; reflexivity.
  - destruct (Hfail h) as (e & d & E & C).
    destruct (make_request_once_events W method url data files h) as (m & body & Ed).
    rewrite E in Ed. cbn in Ed. subst d.
    remember (S fuel) as n eqn:Hn.
    cbn [make_request_loop]. unfold try_catch at 1. rewrite E, C.
    replace (attempt =? max_retries - 1) with false by (symmetry; apply Z.eqb_neq; lia).
    unfold bind, sleep, ask. cbn [app].
    match goal with
    | |- context [make_request_loop W method url data files max_retries ?a n ?hh] =>
        destruct (IH a hh ltac:(lia)) as (e' & d' & E' & C' & R' & S'); rewrite E'
    end.
    exists e'. eexists. split; [reflexivity|]. split; [exact C'|].
    rewrite !requests_app, !sleeps_app, !length_app. cbn. rewrite R', S'. lia.
Qed.

(** X9.  [make_request] with [max_retries] of 0 or less sends nothing and
    returns [None].  With a positive [max_retries], a first attempt that
    succeeds is the only request and its JSON is returned; an exception that
    is no [RequestException] is raised at once, with no pause and no second
    attempt; and when every attempt fails with a [RequestException], the call
    raises one after exactly [max_retries] requests and [max_retries] - 1
    pauses. *)
Theorem make_request_ends (W : World) method url data files max_retries h :
  (max_retries <= 0 ->
   make_request W method url data files max_retries h = (inr VNone, [])) /\
  (forall v d,
      0 < max_retries ->
      make_request_once W method url data files h = (inr v, d) ->
      make_request W method url data files max_retries h = (inr v, d)) /\
  (forall e d,
      0 < max_retries ->
      make_request_once W method url data files h = (inl e, d) ->
      exn_cls e <> RequestException ->
      make_request W method url data files max_retries h = (inl e, d)) /\
  (0 < max_retries ->
   (forall h', exists e d,
       make_request_once W method url data files h' = (inl e, d) /\
       exn_cls e = RequestException) ->
   exists e d,
     make_request W method url data files max_retries h = (inl e, d) /\
     exn_cls e = RequestException /\
     List.length (requests d) = Z.to_nat max_retries /\
     List.length (sleeps d) = (Z.to_nat max_retries - 1)%nat).
Proof.
  unfold make_request. split; [|split; [|split]].
  - intros H. replace (Z.to_nat max_retries) with O by lia. reflexivity.
  - intros v d H E. destruct (Z.to_nat max_retries) as [|n] eqn:Hn; [lia|].
    cbn [make_request_loop]. unfold try_catch. now rewrite E.
  - intros e d H E C. destruct (Z.to_nat max_retries) as [|n] eqn:Hn; [lia|].
    cbn [make_request_loop]. unfold try_catch. rewrite E.
    destruct (exn_cls e); try contradiction; unfold raise; cbn; now rewrite ?app_nil_r.
  - intros H Hfail. destruct (Z.to_nat max_retries) as [|n] eqn:Hn; [lia|].
    destruct (make_request_loop_exhausted W method url data files max_retries Hfail n 0 h
                ltac:(lia)) as (e & d & E & C & R & S).
    exists e, d. rewrite E. repeat split; try assumption. lia.
Qed.

Lemma make_request_ends_witness :
  let url := api_url "/v1/private/user/login/dex" in
  exists e d,
    make_request (world_of http_down) "GET" url (VDict []) VNone 3 [] = (inl e, d) /\
    exn_cls e = RequestException /\
    List.length (requests d) = 3%nat /\
    List.length (sleeps d) = 2%nat.
Proof.
  cbv zeta.
  apply (proj2 (proj2 (proj2 (make_request_ends (world_of http_down) "GET"
                                (api_url "/v1/private/user/login/dex") (VDict []) VNone 3 [])))).
  - reflexivity.
  - intros h'. do 2 eexists. split; [vm_compute; reflexivity|reflexivity].
Defined.

(** ** The API client *)

Ltac unfold_api :=
  unfold login, generate_nonce, sign_message, upload_image, create_token, http,
    raise_for_status, json_object, response_json in *.

Ltac begins_known := unfold begins; cbn; eexists; reflexivity.

(** X10.  [login] makes its requests in order, the nonce and then the
    login, both by POST, and touches nothing on the chain.  When it returns,
    both requests were made, the token it returns is the one it stored, and
    nothing else of the bot changed; when it raises, it made a beginning of
    those two requests. *)
Theorem login_requests (W : World) bot h :
  let run := login W bot h in
  begins (rev (requests (snd run))) [("POST", nonce_url bot); ("POST", login_url bot)] /\
  existsb is_chain_event (snd run) = false /\
  (forall v bot',
      fst run = inr (v, bot') ->
      bot' = set_access_token bot v /\
      rev (requests (snd run)) = [("POST", nonce_url bot); ("POST", login_url bot)]).
Proof.
  cbv zeta. unfold_api. run_all.
  all: split; [begins_known|split; [reflexivity|]].
  all: intros v bot' E; cbn in E;
    first [discriminate E|injection E as <- <-; split; reflexivity].
Qed.

Lemma login_requests_witness :
  let bot := bot_with None in
  exists v bot',
    fst (login (world_of healthy) bot []) = inr (v, bot') /\
    access_token bot' = VStr "session-1" /\
    rev (requests (snd (login (world_of healthy) bot [])))
    = [("POST", nonce_url bot); ("POST", login_url bot)].
Proof.
  cbv zeta.
  exists (VStr "session-1"), (set_access_token (bot_with None) (VStr "session-1")).
  assert (E : fst (login (world_of healthy) (bot_with None) [])
              = inr (VStr "session-1", set_access_token (bot_with None) (VStr "session-1"))).
  { vm_compute. reflexivity. }
  split; [exact E|]. split; [reflexivity|].
  exact (proj2 (proj2 (proj2 (login_requests (world_of healthy) (bot_with None) [])) _ _ E)).
Defined.

(** X11.  A bot as [FourMemeBot_init] leaves it has no session:
    [upload_image] and [create_token] raise the please-log-in error and
    neither open a file nor send a request.  With a session, [create_token]
    reads the clock and sends one POST to the creation endpoint, whose body is
    [create_payload] of the configuration and the time read. *)
Theorem session_is_required (W : World) key address enable h bot d :
  FourMemeBot_init W key address enable h = (inr bot, d) ->
  (forall image_path h',
      upload_image W bot image_path h' = (inl (Exception "请先登录获取访问令牌"), [])) /\
  (forall token_config h',
      create_token W bot token_config h' = (inl (Exception "请先登录获取访问令牌"), [])) /\
  (forall token token_config h',
      truthy token = true ->
      rev (snd (create_token W (set_access_token bot token) token_config h'))
      = [EvClock;
         EvHttp "POST" (create_url bot) (create_payload W token_config (w_time_ms W h'))]).
Proof.
  intros E.
  assert (T : access_token bot = VNone).
  { revert E.
    unfold FourMemeBot_init, BlockchainManager_init, _initialize_connection, load_abi,
      abi_paths, rpc_int.
    run_all; intros E; inversion E; reflexivity. }
  split; [|split].
  - intros p h'. unfold upload_image. rewrite T. reflexivity.
  - intros cfg h'. unfold create_token. rewrite T. reflexivity.
  - intros token cfg h' Ht. unfold_api. cbn [access_token set_access_token]. rewrite Ht.
    run_all; reflexivity.
Qed.

Lemma session_is_required_witness :
  let W := world_of healthy in
  exists bot,
    fst (FourMemeBot_init W "0x11" "0xWallet" false []) = inr bot /\
    create_token W bot [] [] = (inl (Exception "请先登录获取访问令牌"), []).
Proof.
  cbv zeta.
  exists (value_of (bot_with None)
            (fst (FourMemeBot_init (world_of healthy) "0x11" "0xWallet" false []))).
  split; [vm_compute; reflexivity|].
  exact (proj1 (proj2 (session_is_required (world_of healthy) "0x11" "0xWallet" false []
                         (value_of (bot_with None)
                            (fst (FourMemeBot_init (world_of healthy) "0x11" "0xWallet"
                                    false [])))
                         []
                         ltac:(vm_compute; reflexivity))) [] []).
Defined.

(** ** When the chain is touched *)

Lemma chain_events_no_requests (d : list event) :
  forallb is_chain_event d = true -> requests d = [].
Proof.
  induction d as [|e d IH]; cbn; [reflexivity|].
  destruct e; cbn; try discriminate; exact IH.
Qed.

Lemma no_chain_event_no_txs (d : list event) :
  existsb is_chain_event d = false -> txs d = [].
Proof.
  induction d as [|e d IH]; cbn; [reflexivity|].
  destruct e; cbn; try discriminate; exact IH.
Qed.

Lemma _create_token_only_chain (W : World) bm create_arg signature gas_limit gas_price h :
  forallb is_chain_event
    (snd (_create_token_only W bm create_arg signature gas_limit gas_price h)) = true.
Proof.
  unfold _create_token_only. unfold_chain. unfold_m. cbn.
  repeat (first [rewrite parse_token_address_run | case_step]; cbn).
  all: reflexivity.
Qed.

Lemma _buy_token_chain (W : World) bm token amount gas_price h :
  forallb is_chain_event (snd (_buy_token W bm token amount gas_price h)) = true.
Proof.
  unfold _buy_token. unfold_chain. run_all.
  all: reflexivity.
Qed.

Ltac chain_events_known :=
  repeat match goal with
         | H : _create_token_only ?W ?bm ?a ?s ?gl ?gp ?h = _ |- _ =>
             let P := fresh "P" in
             pose proof (_create_token_only_chain W bm a s gl gp h) as P;
             rewrite H in P; cbn [snd] in P; clear H
         | H : _buy_token ?W ?bm ?t ?a ?gp ?h = _ |- _ =>
             let P := fresh "P" in
             pose proof (_buy_token_chain W bm t a gp h) as P;
             rewrite H in P; cbn [snd] in P; clear H
         end;
  rewrite ?forallb_app; cbn [forallb is_chain_event andb];
  repeat match goal with
         | P : forallb is_chain_event ?l = true |- _ => rewrite P; clear P
         end;
  reflexivity.

Lemma create_token_on_chain_chain (W : World) bm create_arg signature purchase_amount
    gas_limit gas_price h :
  forallb is_chain_event
    (snd (create_token_on_chain W bm create_arg signature purchase_amount gas_limit
            gas_price h)) = true.
Proof.
  unfold create_token_on_chain, py_add. run_all.
  all: chain_events_known.
Qed.

Lemma create_token_on_chain_total (W : World) bm create_arg signature purchase_amount
    gas_limit gas_price h :
  exists res d,
    create_token_on_chain W bm create_arg signature purchase_amount gas_limit gas_price h
    = (inr res, d).
Proof.
  unfold create_token_on_chain. apply try_catch_total. intros; unfold failure, ret; eauto.
Qed.

(** X12.  The part of [create_token_complete] that follows the creation
    request never raises and makes no request.  It touches the chain only
    when deployment is asked for, the bot has a chain manager, the API
    result is a success and carries both a 'createArg' and a 'signature': then
    what it does on the chain is one call of [create_token_on_chain] with
    these two values, and with neither a gas limit nor a gas price.  When the
    API result is a success and deployment is off, or there is no manager,
    the result is a success that carries 'create_arg' and 'signature' and
    nothing happened at all. *)
Theorem deployment_needs_everything (W : World) bot result api_result deploy_on_chain
    purchase_amount h :
  let run := create_token_complete_deploy W bot result api_result deploy_on_chain
               purchase_amount h in
  (exists res, fst run = inr res) /\
  forallb is_chain_event (snd run) = true /\
  (snd run <> [] ->
   deploy_on_chain = true /\
   truthy (dget "success" api_result) = true /\
   truthy (dget "createArg" api_result) = true /\
   truthy (dget "signature" api_result) = true /\
   exists bm,
     blockchain_manager bot = Some bm /\
     snd run = snd (create_token_on_chain W bm (dget "createArg" api_result)
                      (dget "signature" api_result) purchase_amount None None h)) /\
  (truthy (VDict api_result) = true ->
   truthy (dget "success" api_result) = true ->
   deploy_on_chain = false \/ blockchain_manager bot = None ->
   run = (inr (dset "signature" (dget "signature" api_result)
                 (dset "create_arg" (dget "createArg" api_result)
                    (dset "success" (VBool true) result))), [])).
Proof.
  cbv zeta. unfold create_token_complete_deploy, deploy_to_blockchain. unfold_m.
  destruct (truthy (VDict api_result)) eqn:Ha; cbn [negb orb].
  2:{ cbn. repeat split; eauto; try congruence; discriminate. }
  destruct (truthy (dget "success" api_result)) eqn:Hs; cbn [negb orb].
  2:{ cbn. repeat split; eauto; try congruence; discriminate. }
  destruct deploy_on_chain; cbn [andb].
  2:{ cbn. repeat split; eauto; congruence. }
  destruct (blockchain_manager bot) as [bm|] eqn:Hb; cbn [is_some].
  2:{ cbn. repeat split; eauto; congruence. }
  destruct (truthy (dget "createArg" api_result)) eqn:Hc; cbn [negb orb].
  2:{ cbn. repeat split; eauto; try congruence. intros _ _ [H|H]; discriminate H. }
  destruct (truthy (dget "signature" api_result)) eqn:Hg; cbn [negb orb].
  2:{ cbn. repeat split; eauto; try congruence. intros _ _ [H|H]; discriminate H. }
  pose proof (create_token_on_chain_chain W bm (dget "createArg" api_result)
                (dget "signature" api_result) purchase_amount None None h) as Hch.
  destruct (create_token_on_chain_total W bm (dget "createArg" api_result)
              (dget "signature" api_result) purchase_amount None None h) as (br & d & E).
  rewrite E in *. cbn [snd] in Hch. cbn.
  destruct (truthy (dget "success" br)); cbn; rewrite ?app_nil_r.
  all: repeat split; eauto; try (intros _ _ [H|H]; discriminate H).
  all: exists bm; split; [reflexivity|now rewrite E].
Qed.

Lemma deployment_needs_everything_witness :
  let api := [("success", VBool true); ("createArg", VStr "0xa1"); ("signature", VStr "0xb2")] in
  create_token_complete_deploy (world_of healthy) (bot_with (Some manager0)) nothing_done api
    false (Fin (1 # 100)) []
  = (inr [("success", VBool true); ("api_result", VNone); ("blockchain_result", VNone);
          ("error", VNone); ("create_arg", VStr "0xa1"); ("signature", VStr "0xb2")], []).
Proof.
  cbv zeta.
  exact (proj2 (proj2 (proj2 (deployment_needs_everything (world_of healthy)
                               (bot_with (Some manager0)) nothing_done
                               [("success", VBool true); ("createArg", VStr "0xa1");
                                ("signature", VStr "0xb2")]
                               false (Fin (1 # 100)) [])))
           eq_refl eq_refl (or_introl eq_refl)).
Defined.

(** ** The order of a complete creation *)

Lemma create_token_complete_deploy_chain (W : World) bot result api_result deploy_on_chain
    purchase_amount h :
  forallb is_chain_event
    (snd (create_token_complete_deploy W bot result api_result deploy_on_chain
            purchase_amount h)) = true.
Proof.
  unfold create_token_complete_deploy, deploy_to_blockchain. unfold_m.
  destruct (negb (truthy (VDict api_result)) || negb (truthy (dget "success" api_result)));
    [reflexivity|].
  destruct (deploy_on_chain && is_some (blockchain_manager bot)); [|reflexivity].
  destruct (negb (truthy (dget "createArg" api_result)) ||
            negb (truthy (dget "signature" api_result))); [reflexivity|].
  destruct (blockchain_manager bot) as [bm|]; [|reflexivity].
  pose proof (create_token_on_chain_chain W bm (dget "createArg" api_result)
                (dget "signature" api_result) purchase_amount None None h) as Hch.
  destruct (create_token_on_chain W bm (dget "createArg" api_result)
              (dget "signature" api_result) purchase_amount None None h) as [[e|br] d];
    cbn in *; [exact Hch|].
  destruct (truthy (dget "success" br)); cbn; now rewrite ?app_nil_r.
Qed.

Ltac urls_known :=
  unfold creation_requests, begins, nonce_url, login_url, upload_url, create_url;
  cbn [base_url set_access_token].

Ltac order_known :=
  first
    [ match goal with
      | H : create_token_complete_deploy ?W ?b ?r ?a ?dp ?pa ?hh = (_, ?l) |- _ =>
          let P := fresh "P" in
          pose proof (create_token_complete_deploy_chain W b r a dp pa hh) as P;
          rewrite H in P; cbn [snd] in P;
          rewrite <- ?app_assoc; cbn [app]; rewrite ?app_nil_r;
          exists l; eexists;
          split; [reflexivity|];
          split; [exact P|]
      end
    | exists []; eexists; split; [reflexivity|]; split; [reflexivity|] ];
  split; [reflexivity|];
  split; [urls_known; cbn; eexists; reflexivity|];
  intros Hd; first [now contradiction Hd|urls_known; reflexivity].

(** X13.  [create_token_complete] never raises.  Its requests are, in
    order, a beginning of: nonce, login, the upload when an image path is
    given, and the creation.  Whatever it does on the chain comes after all of
    them: the events of a run are chain events in front of (after) a part
    without any chain event, and when the chain was touched, that part holds
    the complete list of requests. *)
Theorem creation_requests_in_order (W : World) bot token_config image_path deploy_on_chain
    purchase_amount h :
  let run := create_token_complete W bot token_config image_path deploy_on_chain
               purchase_amount h in
  (exists res bot', fst run = inr (res, bot')) /\
  exists on_chain api,
    snd run = on_chain ++ api /\
    forallb is_chain_event on_chain = true /\
    existsb is_chain_event api = false /\
    begins (rev (requests api)) (creation_requests bot image_path) /\
    (on_chain <> [] -> rev (requests api) = creation_requests bot image_path).
Proof.
  cbv zeta. split.
  { destruct (create_token_complete_run W bot token_config image_path deploy_on_chain
                purchase_amount h) as (res & bot' & d & E & _).
    rewrite E. do 2 eexists. reflexivity. }
  unfold creation_requests.
  unfold create_token_complete. unfold_api. run_all.
  all: order_known.
Qed.

(** ** A login that fails *)

(** X14.  When [login] raises, [create_token_complete] returns the initial
    result with the text of the exception as its error and leaves the bot as
    it was; when [login] returns an empty token, it returns the error
    '用户登录失败'.  In both cases nothing happens after the login: no
    upload, no creation request, nothing on the chain. *)
Theorem failed_login_stops_creation (W : World) bot token_config image_path deploy_on_chain
    purchase_amount h :
  (forall e d,
      login W bot h = (inl e, d) ->
      create_token_complete W bot token_config image_path deploy_on_chain purchase_amount h
      = (inr (with_error nothing_done (exn_str e), bot), d)) /\
  (forall v bot' d,
      login W bot h = (inr (v, bot'), d) ->
      truthy v = false ->
      create_token_complete W bot token_config image_path deploy_on_chain purchase_amount h
      = (inr (with_error nothing_done "用户登录失败", bot'), d)).
Proof.
  split.
  - intros e d E. unfold create_token_complete. unfold try_catch at 1. unfold bind at 1.
    rewrite E. unfold ret. cbn. reflexivity.
  - intros v bot' d E Hv. unfold create_token_complete.
    unfold try_catch at 1. unfold bind at 1. rewrite E. cbn [fst snd].
    rewrite Hv. unfold try_catch, ret. cbn. now rewrite ?app_nil_r.
Qed.

Lemma failed_login_witness :
  let bot := bot_with (Some manager0) in
  create_token_complete (world_of http_down) bot [] None true (Fin 0) []
  = (inr (with_error nothing_done "connection refused", bot),
     snd (login (world_of http_down) bot [])) /\
  List.length (requests (snd (login (world_of http_down) bot []))) = 1%nat.
Proof.
  cbv zeta. split; [|vm_compute; reflexivity].
  exact (proj1 (failed_login_stops_creation (world_of http_down) (bot_with (Some manager0))
                  [] None true (Fin 0) [])
           {| exn_cls := RequestException; exn_str := "connection refused" |}
           (snd (login (world_of http_down) (bot_with (Some manager0)) []))
           ltac:(vm_compute; reflexivity)).
Defined.

(** ** The request of a creation *)

(** X15.  In the body of the creation request the supply, the raised
    amount, the rates, the fee, the two flags, the symbol and the raised
    token are fixed: no key of the configuration changes them.  The seven
    optional keys are passed on as they are whenever the configuration has
    them, whatever the value ([None], say, for 'launchTime'); a default is
    used only for a key that is absent.  The three required keys are read
    with [None] for an absent one. *)
Theorem creation_payload_fields (W : World) (token_config : dict) (now_ms : Z) :
  exists p,
    create_payload W token_config now_ms = VDict p /\
    map fst p = ["name"; "shortName"; "desc"; "imgUrl"; "launchTime"; "label"; "webUrl";
                 "twitterUrl"; "telegramUrl"; "preSale"; "totalSupply"; "raisedAmount";
                 "saleRate"; "reserveRate"; "lpTradingFee"; "funGroup"; "clickFun";
                 "symbol"; "raisedToken"] /\
    (dget "totalSupply" p = VInt 1000000000 /\
     dget "raisedAmount" p = VInt 24 /\
     dget "saleRate" p = VFloat (fl_round W (8 # 10)) /\
     dget "reserveRate" p = VInt 0 /\
     dget "lpTradingFee" p = VFloat (fl_round W (25 # 10000)) /\
     dget "funGroup" p = VBool false /\
     dget "clickFun" p = VBool false /\
     dget "symbol" p = VStr "BNB" /\
     dget "raisedToken" p = raisedToken) /\
    (forall k,
        In k ["name"; "shortName"; "desc"; "imgUrl"; "launchTime"; "label"; "webUrl";
              "twitterUrl"; "telegramUrl"; "preSale"] ->
        dhas k token_config = true -> dget k p = dget k token_config) /\
    (dhas "imgUrl" token_config = false ->
     dget "imgUrl" p = VStr "https://static.four.meme/market/default-token-logo.png") /\
    (dhas "launchTime" token_config = false -> dget "launchTime" p = VInt now_ms) /\
    (dhas "label" token_config = false -> dget "label" p = VStr "Meme") /\
    (dhas "preSale" token_config = false -> dget "preSale" p = VStr "0") /\
    (forall k, In k ["name"; "shortName"; "desc"] ->
               dhas k token_config = false -> dget k p = VNone).
Proof.
  eexists. split; [reflexivity|]. split; [reflexivity|].
  split; [repeat split; reflexivity|].
  unfold dhas, dget, dget_default.
  split.
  { intros k Hk. cbn in Hk.
    repeat (destruct Hk as [<-|Hk]; [cbn; destruct (dlookup _ token_config);
                                      [reflexivity|discriminate]|]).
    contradiction. }
  repeat split.
  1-4: cbn; destruct (dlookup _ token_config); [discriminate|reflexivity].
  intros k Hk. cbn in Hk.
  repeat (destruct Hk as [<-|Hk]; [cbn; destruct (dlookup _ token_config);
                                    [discriminate|reflexivity]|]).
  contradiction.
Qed.

Lemma creation_payload_witness :
  let config := [("name", VStr "Moon Token"); ("launchTime", VNone); ("totalSupply", VInt 5)] in
  exists p,
    create_payload (world_of healthy) config 1700000000000 = VDict p /\
    dget "launchTime" p = VNone /\
    dget "totalSupply" p = VInt 1000000000 /\
    dget "label" p = VStr "Meme".
Proof.
  cbv zeta.
  destruct (creation_payload_fields (world_of healthy)
              [("name", VStr "Moon Token"); ("launchTime", VNone); ("totalSupply", VInt 5)]
              1700000000000)
    as (p & E & _ & (S & _) & K & _ & _ & L & _).
  exists p. split; [exact E|].
  split; [exact (K "launchTime" ltac:(cbn; tauto) eq_refl)|].
  split; [exact S|exact (L eq_refl)].
Defined.

(** ** The choice of an image *)

Lemma mem_In (x : string) (l : list string) : mem x l = true <-> In x l.
Proof.
  unfold mem. rewrite existsb_exists. split.
  - intros (y & Hy & E). apply String.eqb_eq in E. now subst.
  - intros H. exists x. split; [exact H|apply String.eqb_refl].
Qed.

Lemma mem_not_In (x : string) (l : list string) : mem x l = false <-> ~ In x l.
Proof.
  rewrite <- mem_In. destruct (mem x l); split; intros H; congruence.
Qed.

Lemma set_add_new (x : string) (l : list string) : ~ In x l -> set_add x l = l ++ [x].
Proof. intros H. unfold set_add. apply mem_not_In in H. now rewrite H. Qed.

Lemma choice_In (W : World) (l : list string) h :
  l <> [] ->
  exists x, choice W l h = (inr x, [EvRandom]) /\ In x l.
Proof.
  intros H. unfold choice, bind, ask, ret. cbn.
  eexists. split; [reflexivity|].
  apply nth_In. apply Nat.mod_upper_bound. destruct l; [contradiction|discriminate].
Qed.

(** Some image is unused as long as fewer were used than there are. *)
Lemma unused_exists (available used : list string) :
  NoDup available -> (List.length used < List.length available)%nat ->
  filter (fun img => negb (mem img used)) available <> [].
Proof.
  intros Hn Hl Hf.
  assert (Hincl : incl available used).
  { intros x Hx. destruct (mem x used) eqn:Hm; [now apply mem_In|].
    assert (Hin : In x (filter (fun img => negb (mem img used)) available)).
    { apply filter_In. split; [exact Hx|now rewrite Hm]. }
    rewrite Hf in Hin. contradiction. }
  pose proof (NoDup_incl_length Hn Hincl). lia.
Qed.

(** X16.  Without images [_get_random_image] returns [None] and changes
    nothing.  With images it draws one random number and returns one of the
    available images, which it records as used; the results, the counters
    and the list of images stay as they were.  When the images are distinct
    and the used ones are distinct images among them, this stays so; as long
    as fewer were used than there are, the image returned was not used
    before, and once all were used the record starts again with the image
    returned. *)
Theorem random_image_is_fresh (W : World) runner h :
  (available_images runner = [] -> _get_random_image W runner h = (inr (None, runner), [])) /\
  (available_images runner <> [] ->
   exists img runner',
     _get_random_image W runner h = (inr (Some img, runner'), [EvRandom]) /\
     In img (available_images runner) /\
     In img (used_images runner') /\
     available_images runner' = available_images runner /\
     results runner' = results runner /\
     success_count runner' = success_count runner /\
     failed_count runner' = failed_count runner /\
     (NoDup (available_images runner) ->
      NoDup (used_images runner) ->
      incl (used_images runner) (available_images runner) ->
      NoDup (used_images runner') /\
      incl (used_images runner') (available_images runner) /\
      ((List.length (used_images runner) < List.length (available_images runner))%nat ->
       ~ In img (used_images runner) /\
       used_images runner' = used_images runner ++ [img]) /\
      ((List.length (available_images runner) <= List.length (used_images runner))%nat ->
       used_images runner' = [img]))).
Proof.
  unfold _get_random_image. split.
  - intros ->. reflexivity.
  - intros Ha.
    destruct (available_images runner) as [|a rest] eqn:Eav; [contradiction|].
    rewrite <- Eav in *.
    set (used := if (List.length (available_images runner) <=?
                     List.length (used_images runner))%nat
                 then [] else used_images runner).
    set (unused := filter (fun img => negb (mem img used)) (available_images runner)).
    set (candidates := match unused with [] => available_images runner | _ => unused end).
    assert (Hc : candidates <> []).
    { unfold candidates. destruct unused; [exact Ha|discriminate]. }
    destruct (choice_In W candidates h Hc) as (img & E & Hin).
    unfold bind, ret. rewrite E. cbn [app].
    assert (Hav : In img (available_images runner)).
    { unfold candidates in Hin. destruct unused eqn:Eu; [exact Hin|].
      rewrite <- Eu in Hin. unfold unused in Hin. apply filter_In in Hin. tauto. }
    exists img. eexists. split; [reflexivity|]. cbn.
    split; [exact Hav|].
    split.
    { unfold set_add. destruct (mem img used) eqn:Hm; [now apply mem_In|].
      apply in_or_app. right. now left. }
    repeat (split; [reflexivity|]).
    intros Nav Nus Hincl.
    assert (Hfresh : ~ In img used).
    { assert (Hu : unused <> []).
      { unfold unused, used.
        destruct (List.length (available_images runner) <=?
                  List.length (used_images runner))%nat eqn:Hle.
        - cbn. rewrite Eav. cbn. discriminate.
        - apply unused_exists; [exact Nav|]. apply Nat.leb_gt in Hle. exact Hle. }
      unfold candidates in Hin. destruct unused eqn:Eu; [contradiction|].
      rewrite <- Eu in Hin. unfold unused in Hin. apply filter_In in Hin.
      destruct Hin as (_ & Hm). apply mem_not_In. now destruct (mem img used). }
    rewrite (set_add_new img used Hfresh).
    assert (Nused : NoDup used).
    { unfold used. destruct (_ <=? _)%nat; [constructor|exact Nus]. }
    assert (Iused : incl used (available_images runner)).
    { unfold used. destruct (_ <=? _)%nat; [intros x []|exact Hincl]. }
    split.
    { apply NoDup_app; [exact Nused|repeat constructor; auto|].
      intros x Hx [<-|[]]. contradiction. }
    split.
    { intros x Hx. apply in_app_or in Hx. destruct Hx as [Hx|[<-|[]]]; auto. }
    split.
    + intros Hlt. unfold used in *.
      replace (List.length (available_images runner) <=?
               List.length (used_images runner))%nat with false in *
        by (symmetry; apply Nat.leb_gt; exact Hlt).
      split; [exact Hfresh|reflexivity].
    + intros Hle. unfold used.
      replace (List.length (available_images runner) <=?
               List.length (used_images runner))%nat with true
        by (symmetry; apply Nat.leb_le; exact Hle).
      reflexivity.
Qed.

Lemma random_image_witness :
  exists runner',
    _get_random_image (world_of healthy) runner_with_images []
    = (inr (Some "images/b.png", runner'), [EvRandom]) /\
    used_images runner' = ["images/a.png"; "images/b.png"].
Proof.
  destruct (proj2 (random_image_is_fresh (world_of healthy) runner_with_images [])
              ltac:(discriminate))
    as (img & runner' & E & _ & _ & _ & _ & _ & _ & H).
  assert (Nav : NoDup (available_images runner_with_images)).
  { repeat constructor; cbn; intuition discriminate. }
  assert (Nus : NoDup (used_images runner_with_images)).
  { repeat constructor; cbn; intuition. }
  assert (Hincl : incl (used_images runner_with_images) (available_images runner_with_images)).
  { intros x [<-|[]]. now left. }
  destruct (H Nav Nus Hincl) as (_ & _ & Hlt & _).
  destruct (Hlt ltac:(cbn; lia)) as (_ & Hu).
  assert (img = "images/b.png") as ->.
  { vm_compute in E. now injection E as <- _. }
  exists runner'. split; [exact E|exact Hu].
Defined.

(** ** The results of a batch *)

Lemma process_wallet_counts (W : World) runner w n total h :
  exists res runner' d,
    process_wallet W runner w n total h = (inr (res, runner'), d) /\
    results runner' = results runner /\
    r_wallet_num res = n /\
    r_address res = wi_address w /\
    counted res runner runner'.
Proof.
  unfold process_wallet, guarded. unfold_m. cbn.
  destruct (FourMemeBot_init_run W (wi_private_key w) (wi_address w) true h)
    as (bot & d0 & E0 & _). rewrite E0. cbn.
  destruct (get_wallet_balance_run W bot (d0 ++ h)) as (o & d1 & E1 & _ & _ & Hnone & _).
  rewrite E1. cbn.
  destruct o as [b|]; cbn.
  2:{ do 3 eexists. split; [reflexivity|]. repeat split; reflexivity. }
  destruct (flt b (fl_round W (1 # 100))); cbn.
  { do 3 eexists. split; [reflexivity|]. repeat split; reflexivity. }
  destruct (blockchain_manager bot) as [bm|] eqn:Hb;
    [|specialize (Hnone eq_refl); discriminate].
  match goal with
  | |- context [create_token_config W n ?hh] =>
      destruct (create_token_config_run W n hh) as (name & symbol & rest & d2 & E2 & _)
  end.
  rewrite E2. cbn.
  match goal with
  | |- context [_get_random_image W runner ?hh] =>
      destruct (_get_random_image_run W runner hh)
        as (img & runner1 & d3 & E3 & R3 & S3 & F3 & _)
  end.
  rewrite E3. cbn.
  match goal with
  | |- context [create_token_complete W bot ?cfg img true ?pa ?hh] =>
      destruct (create_token_complete_run W bot cfg img true pa hh)
        as (cr & bot1 & d4 & E4 & Hb1)
  end.
  rewrite E4. cbn. rewrite Hb in Hb1.
  destruct (truthy (dget "success" cr)); cbn.
  2:{ do 3 eexists. split; [reflexivity|]. cbn. repeat split; congruence. }
  match goal with
  | |- context [follow_up_buy W bot1 w cr ?res ?hh] =>
      destruct (follow_up_buy_cases W bot1 w cr res hh bm Hb1) as (d5 & [E5|(v & E5)]);
        rewrite E5; cbn
  end.
  - match goal with
    | |- context [final_sell W bot1 w ?res ?hh] =>
        destruct (final_sell_cases W bot1 w res hh) as (d6 & [E6|(v6 & E6)]);
          rewrite E6; cbn
    end.
    all: do 3 eexists; (split; [reflexivity|]); cbn; repeat split; congruence.
  - destruct (truthy v); cbn;
      (match goal with
       | |- context [final_sell W bot1 w ?res ?hh] =>
           destruct (final_sell_cases W bot1 w res hh) as (d6 & [E6|(v6 & E6)]);
             rewrite E6; cbn
       end);
      (do 3 eexists; (split; [reflexivity|]); cbn; repeat split; congruence).
Qed.

Lemma run_batch_loop_counts (W : World) wallets :
  forall runner i n delay h,
  exists runner' d new,
    run_batch_loop W runner wallets i n delay h = (inr runner', d) /\
    results runner' = results runner ++ new /\
    map r_wallet_num new = numbers_from i (List.length wallets) /\
    map r_address new = map wi_address wallets /\
    success_count runner' = success_count runner + Z.of_nat (List.length (successes new)) /\
    failed_count runner' = failed_count runner + Z.of_nat (List.length (failures new)).
Proof.
  induction wallets as [|w rest IH]; intros runner i n delay h.
  - exists runner, [], []. cbn. rewrite app_nil_r. repeat split; lia.
  - cbn [run_batch_loop]. unfold bind at 1.
    destruct (process_wallet_counts W runner w i n h) as (res & r1 & d1 & E1 & R1 & N1 & A1 & C1).
    rewrite E1. cbn [fst snd].
    unfold bind at 1.
    set (pause := if (i <? n) && (0 <? delay) then sleep delay else ret tt).
    assert (Hp : exists dp, pause (d1 ++ h) = (inr tt, dp)).
    { unfold pause, sleep, ask, ret. destruct ((i <? n) && (0 <? delay)); eauto. }
    destruct Hp as (dp & Ep). rewrite Ep.
    match goal with
    | |- context [run_batch_loop W ?r rest (i + 1) n delay ?hh] =>
        destruct (IH r (i + 1) n delay hh) as (r2 & d2 & new & E2 & R2 & N2 & A2 & S2 & F2)
    end.
    rewrite E2. exists r2. eexists. exists (res :: new).
    split; [reflexivity|].
    cbn [results with_results success_count failed_count] in R2, S2, F2.
    split; [rewrite R2, R1, <- app_assoc; reflexivity|].
    split; [cbn; now rewrite N1, N2|].
    split; [cbn; now rewrite A1, A2|].
    unfold counted in C1. unfold successes, failures in *. cbn [filter].
    destruct (r_success res); cbn [negb List.length]; destruct C1 as (Cs & Cf); lia.
Qed.

(** X17.  [run_batch_loop] never raises.  It appends one result per
    wallet, in the order of the wallets, to the results the runner already
    has; the results carry the numbers i, i + 1, ... and the addresses of
    their wallets.  Each wallet adds one to exactly one counter:
    [success_count] grows by the number of new results marked successful,
    [failed_count] by the number of the others, so together they grow by the
    number of wallets. *)
Theorem batch_results_follow_wallets (W : World) runner wallets i n delay h :
  exists runner' d new,
    run_batch_loop W runner wallets i n delay h = (inr runner', d) /\
    results runner' = results runner ++ new /\
    map r_wallet_num new = numbers_from i (List.length wallets) /\
    map r_address new = map wi_address wallets /\
    success_count runner' = success_count runner + Z.of_nat (List.length (successes new)) /\
    failed_count runner' = failed_count runner + Z.of_nat (List.length (failures new)) /\
    success_count runner' + failed_count runner'
    = success_count runner + failed_count runner + Z.of_nat (List.length wallets).
Proof.
  destruct (run_batch_loop_counts W wallets runner i n delay h)
    as (r & d & new & E & R & N & A & S & F).
  exists r, d, new. repeat split; try assumption.
  assert (L : List.length new = List.length wallets).
  { rewrite <- (length_map r_address new), A. apply length_map. }
  assert (P : (List.length (successes new) + List.length (failures new))%nat
              = List.length new).
  { unfold successes, failures. clear. induction new as [|x l IH]; cbn; [reflexivity|].
    destruct (r_success x); cbn; lia. }
  lia.
Qed.



(** ** What every loaded wallet satisfies *)

Lemma key_of_prefixed (raw : string) : startswith "0x" (key_of raw) = true.
Proof.
  unfold key_of.
  destruct (startswith "0x" (strip (nth 1 (fields raw) ""))) eqn:E; [exact E|].
  generalize (strip (nth 1 (fields raw) "")). intros s. destruct s; reflexivity.
Qed.

Lemma enumerate_filter_sorted (P : Z * string -> bool) (lines : list string) :
  forall n,
    StronglySorted Z.lt (map fst (filter P (enumerate n lines))) /\
    Forall (fun k => n <= k < n + Z.of_nat (List.length lines))
           (map fst (filter P (enumerate n lines))).
Proof.
  induction lines as [|l rest IH]; intros n; cbn [enumerate filter map List.length].
  - split; constructor.
  - destruct (IH (n + 1)) as (Hs & B).
    assert (B' : Forall (fun k => n < k < n + Z.of_nat (Datatypes.S (List.length rest)))
                        (map fst (filter P (enumerate (n + 1) rest)))).
    { eapply Forall_impl; [|exact B]. cbn beta. intros k Hk. lia. }
    destruct (P (n, l)); cbn [map fst].
    + split.
      * constructor; [exact Hs|]. eapply Forall_impl; [|exact B']. cbn beta. intros k Hk. lia.
      * constructor; [lia|]. eapply Forall_impl; [|exact B']. cbn beta. intros k Hk. lia.
    + split; [exact Hs|]. eapply Forall_impl; [|exact B']. cbn beta. intros k Hk. lia.
Qed.

(** X19.  Every wallet [load_wallets_from_file] returns has a private key
    that starts with '0x', and this key derives an address, so that
    [get_wallet_address_from_private_key] was handed the key as stored,
    with no second prefix.  The wallets carry the numbers of their lines:
    strictly increasing, between 1 and the number of lines, so that a line
    gives at most one wallet and there are at most as many wallets as
    lines. *)
Theorem loaded_wallets_are_well_formed (W : World) (lines : list string) :
  let wallets := fst (load_wallets_from_file W (Some lines)) in
  Forall (fun w =>
            startswith "0x" (wi_private_key w) = true /\
            exists address,
              get_wallet_address_from_private_key W (wi_private_key w) = inr address /\
              address_from_key W (wi_private_key w) = inr address) wallets /\
  StronglySorted Z.lt (map wi_line_num wallets) /\
  Forall (fun w => 1 <= wi_line_num w <= Z.of_nat (List.length lines)) wallets /\
  (List.length wallets <= List.length lines)%nat.
Proof.
  cbv zeta. cbn [load_wallets_from_file fst]. rewrite load_loop_wallets. cbn [app].
  set (kept := filter (fun nl => valid W (snd nl)) (enumerate 1 lines)).
  assert (Hnum : map wi_line_num (map (fun nl => record_of W (fst nl) (snd nl)) kept)
                 = map fst kept).
  { rewrite map_map. apply map_ext. reflexivity. }
  destruct (enumerate_filter_sorted (fun nl => valid W (snd nl)) lines 1) as (Hs & B).
  fold kept in Hs, B.
  split; [|split; [|split]].
  - apply Forall_forall. intros w Hw. apply in_map_iff in Hw.
    destruct Hw as ((n & raw) & <- & Hin). cbn [fst snd record_of wi_private_key].
    apply filter_In in Hin. destruct Hin as (_ & Hv). cbn [snd] in Hv.
    split; [apply key_of_prefixed|].
    unfold valid, malformed, key_parses in Hv.
    apply andb_true_iff in Hv. destruct Hv as (_ & Hv).
    apply negb_true_iff, orb_false_iff in Hv. destruct Hv as (_ & Hv).
    apply negb_false_iff in Hv.
    destruct (get_wallet_address_from_private_key W (key_of raw)) as [e|a] eqn:E;
      [discriminate Hv|].
    exists a. split; [reflexivity|].
    unfold get_wallet_address_from_private_key in E. now rewrite key_of_prefixed in E.
  - rewrite Hnum. exact Hs.
  - apply Forall_forall. intros w Hw.
    assert (Hk : In (wi_line_num w) (map fst kept)).
    { rewrite <- Hnum. now apply in_map. }
    rewrite Forall_forall in B. specialize (B _ Hk). lia.
  - rewrite length_map. unfold kept.
    etransitivity; [apply filter_length_le|].
    clear. generalize 1. induction lines as [|l rest IH]; intros n; cbn; [lia|].
    specialize (IH (n + 1)). lia.
Qed.

(** ** An address that does not match the key *)



(** ** Setting up the chain manager *)

Ltac unfold_init :=
  unfold FourMemeBot_init, BlockchainManager_init, _initialize_connection, load_abi,
    abi_paths, rpc_int in *.

(** X21.  [BlockchainManager(private_key)] raises '无法连接到区块链网络'
    right after the connection test when the node is not connected, before
    it derives the account or opens a file.  When it returns, the node was
    connected, the manager keeps the key, uses the first of the four RPC
    URLs, and its account is the address the key derives; the ABI files it
    tried to open are a beginning of the three paths, in their order, and it
    sent nothing.  [FourMemeBot] never raises: with the chain enabled its
    manager is the one [BlockchainManager] returned, and none when that
    raised; with the chain disabled it has none and asks nothing. *)
Theorem manager_setup (W : World) key address h :
  (w_connected W h = inr false ->
   BlockchainManager_init W key h
   = (inl (Exception "无法连接到区块链网络"), [EvRpc IsConnected])) /\
  (forall bm d,
      BlockchainManager_init W key h = (inr bm, d) ->
      w_connected W h = inr true /\
      bm_private_key bm = key /\
      bm_rpc_url bm = "https://bsc-dataseed1.binance.org/" /\
      address_from_key W key = inr (bm_account bm) /\
      begins (rev (opened d)) abi_paths /\
      txs d = [] /\ requests d = []) /\
  (exists bot d,
      FourMemeBot_init W key address true h = (inr bot, d) /\
      match blockchain_manager bot with
      | Some bm => BlockchainManager_init W key h = (inr bm, d)
      | None => exists e, BlockchainManager_init W key h = (inl e, d)
      end) /\
  (exists bot,
      FourMemeBot_init W key address false h = (inr bot, []) /\
      blockchain_manager bot = None).
Proof.
  split; [|split; [|split]].
  - intros E. unfold_init. unfold_m. cbn. rewrite E. reflexivity.
  - intros bm d. unfold_init. run_all.
    all: intros E; inversion E; subst; clear E.
    all: repeat split; try reflexivity; try assumption.
    all: try (destruct b; [reflexivity|discriminate]).
    all: unfold begins; cbn; eexists; reflexivity.
  - unfold FourMemeBot_init. unfold bind, try_catch, ret. cbn.
    destruct (BlockchainManager_init W key h) as [[e|bm] d] eqn:E; cbn.
    + do 2 eexists. split; [reflexivity|]. cbn. rewrite ?app_nil_r. eauto.
    + do 2 eexists. split; [reflexivity|]. cbn. rewrite ?app_nil_r. reflexivity.
  - eexists. split; reflexivity.
Qed.

Lemma manager_setup_witness :
  BlockchainManager_init (world_of offline) "0x11" []
  = (inl (Exception "无法连接到区块链网络"), [EvRpc IsConnected]) /\
  exists d,
    BlockchainManager_init (world_of healthy) "0x11" [] = (inr manager0, d) /\
    opened d = ["contracts/TokenManager2.lite.abi"].
Proof.
  split.
  - exact (proj1 (manager_setup (world_of offline) "0x11" "0xWallet" []) eq_refl).
  - exists (snd (BlockchainManager_init (world_of healthy) "0x11" [])).
    split; vm_compute; reflexivity.
Defined.

(** ** Bytes and their hexadecimal form *)

Lemma remove_0x_without_x (s : string) : has_no_x s = true -> remove_0x s = s.
Proof.
  induction s as [|c r IH]; [reflexivity|].
  cbn [has_no_x]. intros H. apply andb_true_iff in H. destruct H as (_ & Hr).
  specialize (IH Hr).
  destruct r as [|c' r'].
  - destruct c as [[] [] [] [] [] [] [] []]; reflexivity.
  - cbn [has_no_x] in Hr. apply andb_true_iff in Hr. destruct Hr as (Hc' & _).
    assert (Hstep : remove_0x (String c (String c' r')) = String c (remove_0x (String c' r'))).
    { destruct c as [[] [] [] [] [] [] [] []]; try reflexivity.
      destruct c' as [[] [] [] [] [] [] [] []]; try reflexivity. discriminate Hc'. }
    rewrite Hstep, IH. reflexivity.
Qed.

Lemma hex_has_no_x (data : string) : has_no_x (hex data) = true.
Proof.
  induction data as [|c r IH]; [reflexivity|].
  cbn [hex has_no_x]. rewrite IH.
  destruct c as [[] [] [] [] [] [] [] []]; reflexivity.
Qed.

Lemma fromhex_hex (data : string) : fromhex (hex data) = Some data.
Proof.
  induction data as [|c r IH]; [reflexivity|].
  cbn [hex fromhex]. rewrite IH.
  destruct c as [[] [] [] [] [] [] [] []]; reflexivity.
Qed.

Lemma hex_length (data : string) : String.length (hex data) = (2 * String.length data)%nat.
Proof. induction data as [|c r IH]; [reflexivity|]. cbn [hex String.length]. lia. Qed.

(** X22.  [hex_to_bytes] undoes [bytes_to_hex]: for every byte string,
    converting it to hexadecimal and back gives the same bytes.  The text
    [bytes_to_hex] returns starts with '0x' and has two characters per byte
    after it; [hex_to_bytes] reads a text with or without the prefix alike. *)
Theorem hex_round_trip (data : string) :
  hex_to_bytes (bytes_to_hex data) = Some data /\
  startswith "0x" (bytes_to_hex data) = true /\
  String.length (bytes_to_hex data) = (2 + 2 * String.length data)%nat /\
  hex_to_bytes (hex data) = Some data /\
  (forall s, hex_to_bytes ("0x" +++ s) = hex_to_bytes s).
Proof.
  unfold hex_to_bytes, bytes_to_hex.
  assert (R : remove_0x (hex data) = hex data)
    by (apply remove_0x_without_x, hex_has_no_x).
  split; [|split; [|split; [|split]]].
  - change (remove_0x ("0x" +++ hex data)) with (remove_0x (hex data)).
    rewrite R. apply fromhex_hex.
  - destruct (hex data); reflexivity.
  - change ("0x" +++ hex data) with (String "0" (String "x" (hex data))).
    cbn [String.length]. rewrite hex_length. reflexivity.
  - rewrite R. apply fromhex_hex.
  - intros s. reflexivity.
Qed.

(** ** Checking a configuration *)

Lemma check_required_present (config : dict) field s :
  dget field config = VStr s -> String.eqb s "" = false -> check_required config field = [].
Proof. intros E H. unfold check_required. rewrite E. cbn. now rewrite H. Qed.

Lemma check_length_within (W : World) (config : dict) field limit msg s h :
  dget field config = VStr s ->
  Z.of_nat (code_points s) <= limit ->
  check_length config field limit msg h = (inr [], []).
Proof.
  intros E H. unfold check_length. rewrite E.
  destruct (truthy (VStr s)); [|reflexivity].
  unfold_m. cbn. replace (limit <? Z.of_nat (code_points s)) with false; [reflexivity|].
  symmetry. apply Z.ltb_ge. exact H.
Qed.

Lemma https_prefix (x : string) :
  String.eqb ("https://" +++ x) "" = false /\
  startswith "http://" ("https://" +++ x) || startswith "https://" ("https://" +++ x) = true.
Proof. destruct x; split; reflexivity. Qed.

Lemma check_url_empty (config : dict) field h :
  dget field config = VStr "" -> check_url config field h = (inr [], []).
Proof. intros E. unfold check_url. rewrite E. reflexivity. Qed.

Lemma check_url_https (config : dict) field x h :
  dget field config = VStr ("https://" +++ x) -> check_url config field h = (inr [], []).
Proof.
  intros E. unfold check_url. rewrite E. cbn [truthy].
  destruct (https_prefix x) as (H1 & H2). rewrite H1, H2. reflexivity.
Qed.

Lemma check_pre_sale_not_negative (W : World) (config : dict) s f h :
  dget "preSale" config = VStr s ->
  float_of_string W s = Some f -> flt f (Fin 0) = false ->
  check_pre_sale W config h = (inr [], []).
Proof.
  intros E P N. unfold check_pre_sale, py_float. rewrite E.
  destruct (truthy (VStr s)); [|reflexivity].
  unfold_m. cbn. rewrite P, N. reflexivity.
Qed.

Lemma names_within :
  forallb (fun bs => within 50 (fst bs +++ " " +++ snd bs)) (list_prod token_names suffixes)
  = true.
Proof. vm_compute. reflexivity. Qed.

Lemma symbols_within :
  forallb (fun bn => within 10 (symbol_of (fst bn) (snd bn))) (list_prod token_names two_digits)
  = true.
Proof. vm_compute. reflexivity. Qed.

Lemma descriptions_within :
  forallb (fun bs => forallb (within 500)
                       (descriptions (fst bs) (fst bs +++ " " +++ snd bs)))
          (list_prod token_names suffixes)
  = true.
Proof. vm_compute. reflexivity. Qed.

Lemma within_spec limit s :
  within limit s = true ->
  String.eqb s "" = false /\ Z.of_nat (code_points s) <= Z.of_nat limit.
Proof.
  unfold within. intros H. apply andb_true_iff in H. destruct H as (H1 & H2).
  apply negb_true_iff in H1. apply Nat.leb_le in H2. split; [exact H1|lia].
Qed.

Lemma two_digits_In (n : Z) : 10 <= n <= 99 -> In n two_digits.
Proof.
  intros H. unfold two_digits. apply in_map_iff. exists (Z.to_nat (n - 10)).
  split; [lia|]. apply in_seq. lia.
Qed.

Lemma generated_config_is_checked (W : World) base_name suffix n domain desc label h :
  In base_name token_names -> In suffix suffixes -> 10 <= n <= 99 ->
  In desc (descriptions base_name (base_name +++ " " +++ suffix)) ->
  In label labels ->
  float_of_string W "0" = Some (Fin 0) ->
  validate_token_config W (generated_config base_name suffix n domain desc label) h
  = (inr (if String.eqb label "DeFi" then ["不支持的代币分类: DeFi"] else []), []).
Proof.
  intros Hb Hs Hn Hd Hl Hf.
  pose proof names_within as Cn. rewrite forallb_forall in Cn.
  specialize (Cn (base_name, suffix) ltac:(apply in_prod; assumption)). cbn [fst snd] in Cn.
  apply within_spec in Cn. destruct Cn as (Cn1 & Cn2).
  pose proof symbols_within as Cs. rewrite forallb_forall in Cs.
  specialize (Cs (base_name, n) ltac:(apply in_prod; [assumption|now apply two_digits_In])).
  cbn [fst snd] in Cs. apply within_spec in Cs. destruct Cs as (Cs1 & Cs2).
  pose proof descriptions_within as Cd. rewrite forallb_forall in Cd.
  specialize (Cd (base_name, suffix) ltac:(apply in_prod; assumption)). cbn [fst snd] in Cd.
  rewrite forallb_forall in Cd. specialize (Cd desc Hd).
  apply within_spec in Cd. destruct Cd as (Cd1 & Cd2).
  unfold validate_token_config, generated_config.
  set (config := [("name", _); ("shortName", _); ("desc", _); ("label", _); ("webUrl", _);
                  ("twitterUrl", _); ("telegramUrl", _); ("preSale", _)]).
  unfold bind.
  rewrite (check_length_within W config "name" 50 _ _ h eq_refl Cn2). cbn [app].
  rewrite (check_length_within W config "shortName" 10 _ _ h eq_refl Cs2). cbn [app].
  rewrite (check_length_within W config "desc" 500 _ _ h eq_refl Cd2). cbn [app].
  rewrite (check_url_https config "webUrl" _ h eq_refl). cbn [app].
  rewrite (check_url_empty config "twitterUrl" h eq_refl). cbn [app].
  rewrite (check_url_empty config "telegramUrl" h eq_refl). cbn [app].
  rewrite (check_pre_sale_not_negative W config "0" (Fin 0) h eq_refl Hf eq_refl). cbn [app].
  unfold ret. cbn [flat_map].
  rewrite (check_required_present config "name" _ eq_refl Cn1).
  rewrite (check_required_present config "shortName" _ eq_refl Cs1).
  rewrite (check_required_present config "desc" _ eq_refl Cd1).
  cbn [app]. rewrite !app_nil_r.
  unfold check_label. subst config.
  cbn in Hl.
  repeat (destruct Hl as [<-|Hl]; [reflexivity|]). contradiction.
Qed.

Lemma nth_mod_In (i : nat) (l : list string) : l <> [] -> In (nth (i mod List.length l) l "") l.
Proof.
  intros H. apply nth_In. apply Nat.mod_upper_bound. destruct l; [contradiction|discriminate].
Qed.

Lemma create_token_config_generated (W : World) wallet_num h :
  exists base_name suffix n domain desc label d,
    create_token_config W wallet_num h
    = (inr (generated_config base_name suffix n domain desc label), d) /\
    In base_name token_names /\ In suffix suffixes /\ 10 <= n <= 99 /\
    In domain domains /\
    In desc (descriptions base_name (base_name +++ " " +++ suffix)) /\
    In label labels /\
    d = repeat EvRandom 6.
Proof.
  cbv beta iota delta [create_token_config choice randint bind ask ret app].
  do 7 eexists. split; [reflexivity|].
  split; [apply nth_mod_In; discriminate|].
  split; [apply nth_mod_In; discriminate|].
  split.
  { match goal with
    | |- _ <= 10 + ?x mod ?m <= _ =>
        pose proof (Z.mod_pos_bound x m ltac:(reflexivity)) as B
    end.
    change (99 - 10 + 1) with 90 in *. lia. }
  split; [apply nth_mod_In; discriminate|].
  split; [apply nth_mod_In; discriminate|].
  split; [apply nth_mod_In; discriminate|reflexivity].
Qed.

Lemma dget_strings (config : dict) (k : string) :
  all_strings config -> dget k config = VNone \/ exists s, dget k config = VStr s.
Proof.
  unfold all_strings, dget. intros H.
  induction H as [|(k', v) rest (s & Hs) _ IH]; cbn; [now left|].
  destruct (String.eqb k k'); [right; exists s; exact Hs|exact IH].
Qed.

Lemma check_length_strings (config : dict) field limit msg h :
  all_strings config -> exists errors, check_length config field limit msg h = (inr errors, []).
Proof.
  intros H. unfold check_length.
  destruct (dget_strings config field H) as [->|(s & ->)]; [cbn; unfold ret; eauto|].
  destruct (truthy (VStr s)); unfold_m; cbn; eauto.
Qed.

Lemma check_url_strings (config : dict) field h :
  all_strings config -> exists errors, check_url config field h = (inr errors, []).
Proof.
  intros H. unfold check_url.
  destruct (dget_strings config field H) as [->|(s & ->)]; [cbn; unfold ret; eauto|].
  destruct (truthy (VStr s)); unfold_m; eauto.
Qed.

Lemma check_pre_sale_strings (W : World) (config : dict) h :
  all_strings config -> exists errors, check_pre_sale W config h = (inr errors, []).
Proof.
  intros H. unfold check_pre_sale, py_float.
  destruct (dget_strings config "preSale" H) as [->|(s & ->)]; [cbn; unfold ret; eauto|].
  destruct (truthy (VStr s)); unfold_m; cbn; [|eauto].
  destruct (float_of_string W s); eauto.
Qed.

(** X23.  [validate_token_config] never raises on a configuration whose
    values are all strings, but raises a TypeError on a name that is a
    number other than 0.  On every configuration
    [BatchRunner.create_token_config] can build (in a world where
    float('0') is 0.0) it reports no error but one: the label 'DeFi', which
    the batch runner draws, is not among the labels the check supports
    (it has 'Defi'), so that exactly the configurations with this label are
    reported, with the unsupported-label error alone.  Building a
    configuration draws six random numbers and does nothing else. *)
Theorem generated_configs_pass_but_for_the_label (W : World) :
  (forall config h,
      all_strings config ->
      exists errors, validate_token_config W config h = (inr errors, [])) /\
  (forall config z h,
      dget "name" config = VInt z -> z <> 0 ->
      exists e, fst (validate_token_config W config h) = inl e /\ exn_cls e = TypeError) /\
  (float_of_string W "0" = Some (Fin 0) ->
   forall wallet_num h h',
   exists config,
     create_token_config W wallet_num h = (inr config, repeat EvRandom 6) /\
     exists label,
       dget "label" config = VStr label /\ In label labels /\
       validate_token_config W config h'
       = (inr (if String.eqb label "DeFi" then ["不支持的代币分类: DeFi"] else []), [])).
Proof.
  split; [|split].
  - intros config h H. unfold validate_token_config. unfold bind.
    destruct (check_length_strings config "name" 50 "代币名称不能超过50个字符" h H)
      as (e1 & ->). cbn [app].
    destruct (check_length_strings config "shortName" 10 "代币符号不能超过10个字符" h H)
      as (e2 & ->). cbn [app].
    destruct (check_length_strings config "desc" 500 "代币描述不能超过500个字符" h H)
      as (e3 & ->). cbn [app].
    destruct (check_url_strings config "webUrl" h H) as (e4 & ->). cbn [app].
    destruct (check_url_strings config "twitterUrl" h H) as (e5 & ->). cbn [app].
    destruct (check_url_strings config "telegramUrl" h H) as (e6 & ->). cbn [app].
    destruct (check_pre_sale_strings W config h H) as (e7 & ->). cbn [app].
    unfold ret. eauto.
  - intros config z h E Hz. unfold validate_token_config, check_length. unfold bind at 1.
    rewrite E. cbn [truthy].
    replace (z =? 0) with false by (symmetry; now apply Z.eqb_neq).
    unfold_m. cbn. eexists. split; reflexivity.
  - intros Hf wallet_num h h'.
    destruct (create_token_config_generated W wallet_num h)
      as (b & s & n & dm & ds & l & d & E & Hb & Hs & Hn & _ & Hd & Hl & ->).
    exists (generated_config b s n dm ds l). split; [exact E|].
    exists l. split; [reflexivity|]. split; [exact Hl|].
    now apply generated_config_is_checked.
Qed.

Lemma generated_configs_witness :
  let W := world_of healthy in
  let h := [EvClock; EvClock; EvClock] in
  exists config,
    create_token_config W 1 h = (inr config, repeat EvRandom 6) /\
    dget "label" config = VStr "DeFi" /\
    validate_token_config W config [] = (inr ["不支持的代币分类: DeFi"], []).
Proof.
  cbv zeta.
  destruct (proj2 (proj2 (generated_configs_pass_but_for_the_label (world_of healthy)))
              eq_refl 1 [EvClock; EvClock; EvClock] [])
    as (config & E & label & L & _ & V).
  assert (Hc : dget "label" config = VStr "DeFi").
  { vm_compute in E. injection E as <-. reflexivity. }
  exists config. split; [exact E|]. split; [exact Hc|].
  rewrite Hc in L. injection L as <-. exact V.
Defined.

(** ** Switching the RPC node *)

Lemma load_abi_total (W : World) h : exists b d, load_abi W h = (inr b, d).
Proof.
  unfold load_abi, abi_paths. run_all.
  all: do 2 eexists; reflexivity.
Qed.

Lemma reinitialize_connection_url (W : World) bm h :
  bm_rpc_url (manager_after (reinitialize_connection W bm h)) = bm_rpc_url bm /\
  bm_private_key (manager_after (reinitialize_connection W bm h)) = bm_private_key bm.
Proof.
  unfold reinitialize_connection, manager_after.
  destruct (w_connected W h) as [e|[]]; [split; reflexivity| |split; reflexivity].
  destruct (address_from_key W (bm_private_key bm)); [split; reflexivity|].
  cbv zeta.
  match goal with
  | |- context [match ?x with inl _ => _ | inr _ => _ end] => destruct x
  end; split; reflexivity.
Qed.

(** [_initialize_connection] as the constructor runs it and as
    [switch_rpc_node] runs it on the manager agree. *)
Lemma reinitialize_connection_agrees (W : World) bm h :
  match _initialize_connection W (bm_private_key bm) (bm_rpc_url bm) h with
  | (inr bm', d) => reinitialize_connection W bm h = (None, bm', d)
  | (inl e, d) => exists bm', reinitialize_connection W bm h = (Some e, bm', d)
  end.
Proof.
  unfold _initialize_connection, reinitialize_connection, rpc_int. unfold_m.
  destruct (w_connected W h) as [e|[]]; cbn -[load_abi]; [eauto| |eauto].
  destruct (address_from_key W (bm_private_key bm)) as [e|account]; cbn -[load_abi]; [eauto|].
  destruct (load_abi_total W (EvRpc IsConnected :: h)) as (b & d & E). rewrite E.
  cbn -[load_abi]. rewrite <- ?app_assoc. cbn [app].
  destruct (w_rpc_int W BlockNumber (d ++ EvRpc IsConnected :: h)); cbn;
    rewrite ?app_nil_r; eauto.
Qed.

Lemma index_of_nth (x : string) (l : list string) (i : nat) :
  index_of x l = Some i -> nth i l "" = x /\ (i < List.length l)%nat.
Proof.
  revert i. induction l as [|y r IH]; intros i; cbn; [discriminate|].
  destruct (String.eqb_spec x y) as [->|_].
  - intros [= <-]. split; [reflexivity|cbn; lia].
  - destruct (index_of x r) as [j|]; [|discriminate].
    intros [= <-]. destruct (IH j eq_refl). split; [assumption|cbn; lia].
Qed.

(** X24.  [switch_rpc_node] raises a ValueError, changes nothing and asks
    nothing when the manager's URL is not one of the four BSC URLs.
    Otherwise the manager's URL becomes the next of the four, the first
    after the last, and stays so even when the new connection fails and the
    call raises; the key never changes; four calls in a row, whatever their
    outcomes, bring the URL back.  When the call succeeds, the manager is
    the one [_initialize_connection] gives for the key and the new URL. *)
Theorem rpc_nodes_rotate (W : World) bm :
  (index_of (bm_rpc_url bm) BSC_RPC_URLS = None ->
   forall h, exists e,
     switch_rpc_node W bm h = (Some e, bm, []) /\ exn_cls e = ValueError) /\
  (forall i h,
      index_of (bm_rpc_url bm) BSC_RPC_URLS = Some i ->
      let run := switch_rpc_node W bm h in
      bm_rpc_url (manager_after run) = nth ((i + 1) mod 4) BSC_RPC_URLS "" /\
      bm_private_key (manager_after run) = bm_private_key bm /\
      index_of (bm_rpc_url (manager_after run)) BSC_RPC_URLS = Some ((i + 1) mod 4)%nat /\
      (outcome run = None ->
       _initialize_connection W (bm_private_key bm) (bm_rpc_url (manager_after run)) h
       = (inr (manager_after run), snd run))) /\
  (forall i h1 h2 h3 h4,
      index_of (bm_rpc_url bm) BSC_RPC_URLS = Some i ->
      let bm1 := manager_after (switch_rpc_node W bm h1) in
      let bm2 := manager_after (switch_rpc_node W bm1 h2) in
      let bm3 := manager_after (switch_rpc_node W bm2 h3) in
      let bm4 := manager_after (switch_rpc_node W bm3 h4) in
      bm_rpc_url bm4 = bm_rpc_url bm).
Proof.
  assert (Step : forall b i h,
             index_of (bm_rpc_url b) BSC_RPC_URLS = Some i ->
             bm_rpc_url (manager_after (switch_rpc_node W b h))
             = nth ((i + 1) mod 4) BSC_RPC_URLS "" /\
             bm_private_key (manager_after (switch_rpc_node W b h)) = bm_private_key b /\
             index_of (bm_rpc_url (manager_after (switch_rpc_node W b h))) BSC_RPC_URLS
             = Some ((i + 1) mod 4)%nat).
  { intros b i h E. unfold switch_rpc_node. rewrite E. cbv zeta.
    change (List.length BSC_RPC_URLS) with 4%nat.
    destruct (reinitialize_connection_url W
                (with_rpc_url b (nth ((i + 1) mod 4) BSC_RPC_URLS "")) h) as (U & K).
    rewrite U, K. cbn [bm_rpc_url bm_private_key with_rpc_url].
    split; [reflexivity|]. split; [reflexivity|].
    apply index_of_nth in E. destruct E as (_ & Hi). cbn in Hi.
    destruct i as [|[|[|[|]]]]; try lia; reflexivity. }
  split; [|split].
  - intros E h. unfold switch_rpc_node. rewrite E. eexists. split; reflexivity.
  - intros i h E run. destruct (Step bm i h E) as (U & K & I).
    split; [exact U|]. split; [exact K|]. split; [exact I|].
    unfold run, outcome, manager_after in *. unfold switch_rpc_node in *. rewrite E in *.
    cbv zeta in *. change (List.length BSC_RPC_URLS) with 4%nat in *.
    set (b := with_rpc_url bm (nth ((i + 1) mod 4) BSC_RPC_URLS "")) in *.
    pose proof (reinitialize_connection_agrees W b h) as A.
    rewrite U. change (bm_private_key bm) with (bm_private_key b).
    change (nth ((i + 1) mod 4) BSC_RPC_URLS "") with (bm_rpc_url b).
    destruct (_initialize_connection W (bm_private_key b) (bm_rpc_url b) h) as [[e|bm'] d].
    + destruct A as (bm' & ->). cbn. discriminate.
    + rewrite A. reflexivity.
  - intros i h1 h2 h3 h4 E. cbv zeta.
    destruct (Step bm i h1 E) as (_ & _ & I1).
    destruct (Step _ _ h2 I1) as (_ & _ & I2).
    destruct (Step _ _ h3 I2) as (_ & _ & I3).
    destruct (Step _ _ h4 I3) as (U4 & _ & _).
    rewrite U4. apply index_of_nth in E. destruct E as (<- & Hi). cbn in Hi.
    destruct i as [|[|[|[|]]]]; try lia; reflexivity.
Qed.

Lemma rpc_nodes_rotate_witness :
  let run := switch_rpc_node (world_of offline) manager0 [] in
  outcome run = Some (Exception "无法连接到区块链网络") /\
  bm_rpc_url (manager_after run) = "https://bsc-dataseed2.binance.org/".
Proof.
  cbv zeta. split; [vm_compute; reflexivity|].
  exact (proj1 (proj1 (proj2 (rpc_nodes_rotate (world_of offline) manager0)) 0%nat []
                  eq_refl)).
Defined.

(** ** A bot without a chain manager *)

(** X25.  A bot that has no chain manager (the chain was disabled, or the
    manager could not be set up) never touches the chain:
    [get_wallet_balance] returns [None], [sell_token] and
    [deploy_to_blockchain] return the failure '区块链管理器未启用', all
    three without asking anything; and [create_token_complete], even when
    asked to deploy, does the API part only. *)
Theorem bot_without_chain (W : World) bot :
  blockchain_manager bot = None ->
  (forall h, get_wallet_balance W bot h = (inr None, [])) /\
  (forall token percentage h,
      sell_token W bot token percentage h = (inr (failed "区块链管理器未启用"), [])) /\
  (forall create_arg signature purchase_amount h,
      deploy_to_blockchain W bot create_arg signature purchase_amount h
      = (inr (failed "区块链管理器未启用"), [])) /\
  (forall token_config image_path deploy_on_chain purchase_amount h,
      existsb is_chain_event
        (snd (create_token_complete W bot token_config image_path deploy_on_chain
                purchase_amount h)) = false).
Proof.
  intros Hb. split; [|split; [|split]].
  - intros h. unfold get_wallet_balance. rewrite Hb. reflexivity.
  - intros token p h. unfold sell_token. rewrite Hb. reflexivity.
  - intros a s pa h. unfold deploy_to_blockchain. rewrite Hb. reflexivity.
  - intros cfg img deploy pa h.
    destruct bot as [key address token url manager]. cbn in Hb. subst manager.
    unfold create_token_complete, create_token_complete_deploy, deploy_to_blockchain.
    unfold_api. run_all.
    all: reflexivity.
Qed.

Lemma bot_without_chain_witness :
  let W := world_of healthy in
  exists res bot' d,
    create_token_complete W (bot_with None) [("name", VStr "Moon Token")] None true
      (Fin (1 # 100)) [] = (inr (res, bot'), d) /\
    dget "success" res = VBool true /\
    dget "create_arg" res = VStr "0xa1" /\
    existsb is_chain_event d = false.
Proof.
  cbv zeta.
  pose (run := create_token_complete (world_of healthy) (bot_with None)
                 [("name", VStr "Moon Token")] None true (Fin (1 # 100)) []).
  exists (fst (value_of ([], bot_with None) (fst run))),
         (snd (value_of ([], bot_with None) (fst run))), (snd run).
  split; [vm_compute; reflexivity|].
  split; [vm_compute; reflexivity|].
  split; [vm_compute; reflexivity|].
  exact (proj2 (proj2 (proj2 (bot_without_chain (world_of healthy) (bot_with None) eq_refl)))
           [("name", VStr "Moon Token")] None true (Fin (1 # 100)) []).
Defined.
